(** * ciscoconfparse.ccp_util: IPv4Obj / IPv6Obj and CiscoRange

    A shallow embedding of [ciscoconfparse/ccp_util.py] (Python 3 branch of
    every [sys.version_info] test) and the properties of its address
    objects and of its range expander.

    Conventions:
    - Python [int] is [Z]; Python [str] is [string] (code points below 128);
    - a call that may raise returns a [result]; [try ... except] is a
      function on results;
    - attribute access on an arbitrary operand ([getattr(val, "prefixlen")],
      [val.as_decimal]) reads a record of optional attributes, [pyattrs]:
      the classes never test the type of the other operand. *)

From Stdlib Require Import ZArith List String Ascii Bool Lia.
From Stdlib Require Import Permutation Sorted DecimalString DecimalPos.
From Equations Require Import Equations.
Import ListNotations.
Local Open Scope Z_scope.

(** ** Exceptions and results *)

Inductive exn : Type :=
| AssertionError (msg : string)
| ValueError
| AttributeError
| NotImplementedError (msg : string)
| IndexError
| AddressValueError
| NetmaskValueError.

Inductive result (A : Type) : Type :=
| Ok (a : A)
| Raise (e : exn).
Arguments Ok {A} a.
Arguments Raise {A} e.

Definition bind {A B : Type} (r : result A) (k : A -> result B) : result B :=
  match r with
  | Ok a => k a
  | Raise e => Raise e
  end.

Notation "x <- r ;; k" := (bind r (fun x => k))
  (at level 61, r at next level, right associativity).

(** [assert cond, msg] *)
Definition assert (cond : bool) (msg : string) : result unit :=
  if cond then Ok tt else Raise (AssertionError msg).

(** [try: body except <anything>: raise ValueError(errmsg)], the handler of
    every comparison method. *)
Definition except_raise_ValueError {A : Type} (body : result A) : result A :=
  match body with
  | Ok a => Ok a
  | Raise _ => Raise ValueError
  end.

(** ** Duck-typed operands

    What the comparison and containment methods read from [val]. An object
    that lacks an attribute answers [None], and reading it raises
    [AttributeError]. *)

Record pyattrs : Type := mk_pyattrs {
  attr_prefixlen : option Z;
  attr_as_decimal_network : option Z;
  attr_as_decimal : option Z;
  attr_numhosts : option Z;
  attr_network_object_prefixlen : option Z
}.

Definition getattr (a : option Z) : result Z :=
  match a with
  | Some v => Ok v
  | None => Raise AttributeError
  end.


(** [sum([f(num) * (base ** idx) for idx, num in enumerate(num_strings)])] *)
Fixpoint sum_enumerate (base idx : Z) (nums : list Z) : Z :=
  match nums with
  | [] => 0
  | num :: rest => num * base ^ idx + sum_enumerate base (idx + 1) rest
  end.

(** ** The standard [ipaddress] module, as far as the objects use it *)

Module ipaddress.

Record Network : Type := mk_Network {
  network_address : Z;
  prefixlen : Z
}.

Definition ALL_ONES (max_prefixlen : Z) : Z := 2 ^ max_prefixlen - 1.

(** [_ip_int_from_prefix]: [ALL_ONES ^ (ALL_ONES >> prefixlen)] *)
Definition netmask (max_prefixlen plen : Z) : Z :=
  Z.lxor (ALL_ONES max_prefixlen) (Z.shiftr (ALL_ONES max_prefixlen) plen).

Definition hostmask (max_prefixlen plen : Z) : Z :=
  Z.lxor (netmask max_prefixlen plen) (ALL_ONES max_prefixlen).

(** [IPv4Address(int)] / [IPv6Address(int)] *)
Definition Address (max_prefixlen : Z) (arg : Z) : result Z :=
  if (arg <? 0) || (ALL_ONES max_prefixlen <? arg)
  then Raise AddressValueError
  else Ok arg.

(** [IPv4Network("addr/plen", strict)] / [IPv6Network("addr/plen", strict)] *)
Definition Network_of (max_prefixlen addr plen : Z) (strict : bool)
  : result Network :=
  if (plen <? 0) || (max_prefixlen <? plen) then Raise NetmaskValueError
  else
    let packed := Z.land addr (netmask max_prefixlen plen) in
    if strict && negb (packed =? addr) then Raise ValueError
    else Ok (mk_Network packed plen).

Definition broadcast_address (max_prefixlen : Z) (n : Network) : Z :=
  Z.lor (network_address n) (hostmask max_prefixlen (prefixlen n)).

End ipaddress.

(** ** class IPv4Obj *)

Module IPv4Obj.

Record t : Type := mk {
  ip_object : Z;
  network_object : ipaddress.Network
}.

(** [__init__], [isinstance(arg, int)] branch. *)
Definition of_int (arg : Z) : result t :=
  ip <- ipaddress.Address 32 arg ;;
  net <- ipaddress.Network_of 32 ip 32 false ;;
  Ok (mk ip net).

(** [__init__], string branch once [_RGX_IPV4ADDR_NETMASK] has split the
    text into a dotted address (read as its integer [addr]) and a mask
    length ([masklen], 32 when absent). *)
Definition of_addr_masklen (addr masklen : Z) (strict : bool) : result t :=
  net <- ipaddress.Network_of 32 addr masklen strict ;;
  ip <- ipaddress.Address 32 addr ;;
  Ok (mk ip net).

Definition ip (self : t) : Z := ip_object self.

Definition prefixlen (self : t) : Z :=
  ipaddress.prefixlen (network_object self).

(** [@prefixlen.setter] *)
Definition set_prefixlen (self : t) (arg : Z) : result t :=
  net <- ipaddress.Network_of 32 (ip_object self) arg false ;;
  Ok (mk (ip_object self) net).

(** [__init__], [getattr(arg, "dna", "") == "IPv4Obj"] branch. *)
Definition of_obj (arg : t) : result t :=
  net <- ipaddress.Network_of 32 (ip_object arg) (prefixlen arg) false ;;
  ip <- ipaddress.Address 32 (ip_object arg) ;;
  Ok (mk ip net).

(** [IPv4Network(self.network_object.compressed)]: a copy of the network. *)
Definition network (self : t) : ipaddress.Network := network_object self.

Definition broadcast (self : t) : result Z :=
  Ok (ipaddress.broadcast_address 32 (network_object self)).

Definition numhosts (self : t) : Z :=
  2 ^ (32 - ipaddress.prefixlen (network_object self)).

(** [str(address).split(".")] read back with [int(num)]: the four octets,
    most significant first. *)
Definition dotted (address : Z) : list Z :=
  [Z.land (Z.shiftr address 24) 255; Z.land (Z.shiftr address 16) 255;
   Z.land (Z.shiftr address 8) 255; Z.land address 255].

Definition as_decimal (self : t) : Z :=
  sum_enumerate 256 0 (rev (dotted (ip self))).

(** The class defines [as_decimal_network] twice; the second definition
    (decimal octets, weight 256) replaces the first. *)
Definition as_decimal_network (self : t) : Z :=
  sum_enumerate 256 0
    (rev (dotted (ipaddress.network_address (network self)))).

Definition view (self : t) : pyattrs :=
  mk_pyattrs (Some (prefixlen self)) (Some (as_decimal_network self))
             (Some (as_decimal self)) (Some (numhosts self))
             (Some (ipaddress.prefixlen (network_object self))).

Definition __eq__ (self : t) (val : pyattrs) : result bool :=
  except_raise_ValueError
    (val_dec <- getattr (attr_as_decimal val) ;;
     if as_decimal self =? val_dec then
       val_prefixlen <- getattr (attr_prefixlen val) ;;
       if prefixlen self =? val_prefixlen then Ok true else Ok false
     else Ok false).

Definition __gt__ (self : t) (val : pyattrs) : result bool :=
  except_raise_ValueError
    (val_prefixlen <- getattr (attr_prefixlen val) ;;
     let self_prefixlen := prefixlen self in
     val_ndec <- getattr (attr_as_decimal_network val) ;;
     let self_ndec := as_decimal_network self in
     val_dec <- getattr (attr_as_decimal val) ;;
     let self_dec := as_decimal self in
     if (self_ndec =? val_ndec) && (self_prefixlen =? val_prefixlen)
     then Ok (self_dec >? val_dec)
     else if self_ndec =? val_ndec
     then Ok (self_prefixlen >? val_prefixlen)
     else Ok (self_ndec >? val_ndec)).

Definition __lt__ (self : t) (val : pyattrs) : result bool :=
  except_raise_ValueError
    (val_prefixlen <- getattr (attr_prefixlen val) ;;
     let self_prefixlen := prefixlen self in
     val_ndec <- getattr (attr_as_decimal_network val) ;;
     let self_ndec := as_decimal_network self in
     val_dec <- getattr (attr_as_decimal val) ;;
     let self_dec := as_decimal self in
     if (self_ndec =? val_ndec) && (self_prefixlen =? val_prefixlen)
     then Ok (self_dec <? val_dec)
     else if self_ndec =? val_ndec
     then Ok (self_prefixlen <? val_prefixlen)
     else Ok (self_ndec <? val_ndec)).

(** [val] is an [int]: the [isinstance] assertion holds. *)
Definition __add__ (self : t) (val : Z) : result t :=
  let orig_prefixlen := prefixlen self in
  let total := as_decimal self + val in
  _ <- assert (total <=? 4294967295) "Max IPv4 integer exceeded" ;;
  _ <- assert (total >=? 0) "Min IPv4 integer exceeded" ;;
  retval <- of_int total ;;
  set_prefixlen retval orig_prefixlen.

Definition __sub__ (self : t) (val : Z) : result t :=
  let orig_prefixlen := prefixlen self in
  let total := as_decimal self - val in
  _ <- assert (total <=? 4294967295) "Max IPv4 integer exceeded" ;;
  _ <- assert (total >=? 0) "Min IPv4 integer exceeded" ;;
  retval <- of_int total ;;
  set_prefixlen retval orig_prefixlen.

(** [val in self] *)
Definition __contains__ (self : t) (val : pyattrs) : result bool :=
  except_raise_ValueError
    (if ipaddress.prefixlen (network_object self) =? 0 then Ok true
     else
       val_net_prefixlen <- getattr (attr_network_object_prefixlen val) ;;
       if ipaddress.prefixlen (network_object self) >? val_net_prefixlen
       then Ok false
       else
         val_ndec <- getattr (attr_as_decimal_network val) ;;
         if as_decimal_network self <=? val_ndec then
           val_numhosts <- getattr (attr_numhosts val) ;;
           Ok (as_decimal_network self + numhosts self - 1
               >=? val_ndec + val_numhosts - 1)
         else Ok false).

(** [__int__] and [__index__] *)
Definition __int__ (self : t) : Z := as_decimal self.
Definition __index__ (self : t) : Z := as_decimal self.

(** [self.network_object.netmask] and [self.network_object.hostmask], as
    integers. *)
Definition netmask (self : t) : Z :=
  ipaddress.netmask 32 (ipaddress.prefixlen (network_object self)).
Definition hostmask (self : t) : Z :=
  ipaddress.hostmask 32 (ipaddress.prefixlen (network_object self)).

(** The state every constructor and the [prefixlen] setter establish:
    [network_object] is the network of [ip_object] under the mask. *)
Definition wf (self : t) : Prop :=
  0 <= ip_object self <= 4294967295 /\
  0 <= prefixlen self <= 32 /\
  ipaddress.network_address (network_object self)
  = Z.land (ip_object self) (ipaddress.netmask 32 (prefixlen self)).

End IPv4Obj.

(** ** class IPv6Obj *)

Module IPv6Obj.

Record t : Type := mk {
  ip_object : Z;
  network_object : ipaddress.Network
}.

(** [__init__], [isinstance(arg, int)] branch. *)
Definition of_int (arg : Z) : result t :=
  ip <- ipaddress.Address 128 arg ;;
  net <- ipaddress.Network_of 128 ip 128 false ;;
  Ok (mk ip net).

(** [__init__], string branch. The two attributes are read from different
    parts of the text. [mm = _RGX_IPV6ADDR.search(arg)] is the leftmost run
    of hexadecimal groups and colons that the pattern accepts; the assertion
    fails when there is none ([matched = None]). The network is
    [IPv6Network(arg, strict)] on the whole text: address [addr] and mask
    length [masklen] (128 when absent). The address is
    [IPv6Address(mm.group(1))] on the matched part only: [matched]. The
    pattern has no dotted quad: for text that ends in an embedded IPv4
    address the match stops at the first dot, so that
    [IPv6Obj("::ffff:1.2.3.4")] has [addr = ::ffff:102:304] and
    [matched = ::ffff:1]; for text in hexadecimal groups only, [matched] is
    [addr]. The message of the assertion ends in the text, which the model
    does not carry: it reads [arg]. *)
Definition of_addr_masklen (addr : Z) (matched : option Z) (masklen : Z)
           (strict : bool) : result t :=
  match matched with
  | None => Raise (AssertionError "IPv6Obj couldn't parse arg")
  | Some group1 =>
      net <- ipaddress.Network_of 128 addr masklen strict ;;
      ip <- ipaddress.Address 128 group1 ;;
      Ok (mk ip net)
  end.

Definition ip (self : t) : Z := ip_object self.

Definition prefixlen (self : t) : Z :=
  ipaddress.prefixlen (network_object self).

(** [@prefixlen.setter] *)
Definition set_prefixlen (self : t) (arg : Z) : result t :=
  net <- ipaddress.Network_of 128 (ip_object self) arg false ;;
  Ok (mk (ip_object self) net).

(** [IPv6Network(self.network_object.compressed)]: a copy of the network. *)
Definition network (self : t) : ipaddress.Network := network_object self.

Definition broadcast (self : t) : result Z :=
  Raise (NotImplementedError "IPv6 does not have broadcasts").

Definition numhosts (self : t) : Z :=
  2 ^ (128 - ipaddress.prefixlen (network_object self)).

(** [str(address.exploded).split(":")] read back with [int(num, 16)]: the
    eight 16-bit groups, most significant first. *)
Definition exploded (address : Z) : list Z :=
  map (fun shift => Z.land (Z.shiftr address shift) 65535)
      [112; 96; 80; 64; 48; 32; 16; 0].

Definition as_decimal (self : t) : Z :=
  sum_enumerate 65536 0 (rev (exploded (ip self))).

Definition as_decimal_network (self : t) : Z :=
  sum_enumerate 65536 0
    (rev (exploded (ipaddress.network_address (network self)))).

Definition view (self : t) : pyattrs :=
  mk_pyattrs (Some (prefixlen self)) (Some (as_decimal_network self))
             (Some (as_decimal self)) (Some (numhosts self))
             (Some (ipaddress.prefixlen (network_object self))).

Definition __eq__ (self : t) (val : pyattrs) : result bool :=
  except_raise_ValueError
    (val_dec <- getattr (attr_as_decimal val) ;;
     if as_decimal self =? val_dec then
       val_prefixlen <- getattr (attr_prefixlen val) ;;
       if prefixlen self =? val_prefixlen then Ok true else Ok false
     else Ok false).

Definition __gt__ (self : t) (val : pyattrs) : result bool :=
  except_raise_ValueError
    (val_prefixlen <- getattr (attr_prefixlen val) ;;
     let self_prefixlen := prefixlen self in
     val_ndec <- getattr (attr_as_decimal_network val) ;;
     let self_ndec := as_decimal_network self in
     val_dec <- getattr (attr_as_decimal val) ;;
     let self_dec := as_decimal self in
     if (self_ndec =? val_ndec) && (self_prefixlen =? val_prefixlen)
     then Ok (self_dec >? val_dec)
     else if self_ndec =? val_ndec
     then Ok (self_prefixlen >? val_prefixlen)
     else Ok (self_ndec >? val_ndec)).

Definition __lt__ (self : t) (val : pyattrs) : result bool :=
  except_raise_ValueError
    (val_prefixlen <- getattr (attr_prefixlen val) ;;
     let self_prefixlen := prefixlen self in
     val_ndec <- getattr (attr_as_decimal_network val) ;;
     let self_ndec := as_decimal_network self in
     val_dec <- getattr (attr_as_decimal val) ;;
     let self_dec := as_decimal self in
     if (self_ndec =? val_ndec) && (self_prefixlen =? val_prefixlen)
     then Ok (self_dec <? val_dec)
     else if self_ndec =? val_ndec
     then Ok (self_prefixlen <? val_prefixlen)
     else Ok (self_ndec <? val_ndec)).

(** [val] is an [int]: the [isinstance] assertion holds. *)
Definition __add__ (self : t) (val : Z) : result t :=
  let orig_prefixlen := prefixlen self in
  let total := as_decimal self + val in
  _ <- assert (total <=? 340282366920938463463374607431768211455)
              "Max IPv6 integer exceeded" ;;
  _ <- assert (total >=? 0) "Min IPv6 integer exceeded" ;;
  retval <- of_int total ;;
  set_prefixlen retval orig_prefixlen.

Definition __sub__ (self : t) (val : Z) : result t :=
  let orig_prefixlen := prefixlen self in
  let total := as_decimal self - val in
  _ <- assert (total <=? 340282366920938463463374607431768211455)
              "Max IPv6 integer exceeded" ;;
  _ <- assert (total >=? 0) "Min IPv6 integer exceeded" ;;
  retval <- of_int total ;;
  set_prefixlen retval orig_prefixlen.

(** [val in self] *)
Definition __contains__ (self : t) (val : pyattrs) : result bool :=
  except_raise_ValueError
    (if ipaddress.prefixlen (network_object self) =? 0 then Ok true
     else
       val_net_prefixlen <- getattr (attr_network_object_prefixlen val) ;;
       if ipaddress.prefixlen (network_object self) >? val_net_prefixlen
       then Ok false
       else
         val_ndec <- getattr (attr_as_decimal_network val) ;;
         if as_decimal_network self <=? val_ndec then
           val_numhosts <- getattr (attr_numhosts val) ;;
           Ok (as_decimal_network self + numhosts self - 1
               >=? val_ndec + val_numhosts - 1)
         else Ok false).

(** [__init__], [getattr(arg, "dna", "") == "IPv6Obj"] branch. *)
Definition of_obj (arg : t) : result t :=
  net <- ipaddress.Network_of 128 (ip_object arg) (prefixlen arg) false ;;
  ip <- ipaddress.Address 128 (ip_object arg) ;;
  Ok (mk ip net).

(** [__init__], [isinstance(arg, IPv6Network)] branch: the network is
    [arg], the address is read from the text of [arg] before the slash,
    which is its network address. *)
Definition of_network (arg : ipaddress.Network) : result t :=
  ip <- ipaddress.Address 128 (ipaddress.network_address arg) ;;
  Ok (mk ip arg).

(** [__init__], [isinstance(arg, IPv6Address)] branch:
    [IPv6Network(str(arg) + "/128")], strict as the library has it by
    default. *)
Definition of_address (arg : Z) : result t :=
  net <- ipaddress.Network_of 128 arg 128 true ;;
  ip <- ipaddress.Address 128 arg ;;
  Ok (mk ip net).

(** [__int__] and [__index__] *)
Definition __int__ (self : t) : Z := as_decimal self.
Definition __index__ (self : t) : Z := as_decimal self.

(** [self.network_object.netmask] and [self.network_object.hostmask], as
    integers. *)
Definition netmask (self : t) : Z :=
  ipaddress.netmask 128 (ipaddress.prefixlen (network_object self)).
Definition hostmask (self : t) : Z :=
  ipaddress.hostmask 128 (ipaddress.prefixlen (network_object self)).

(** What every constructor establishes: an address and a mask length of
    the family, and a network number without host bits. *)
Definition built (self : t) : Prop :=
  0 <= ip_object self <= 340282366920938463463374607431768211455 /\
  0 <= prefixlen self <= 128 /\
  0 <= ipaddress.network_address (network_object self)
  <= 340282366920938463463374607431768211455 /\
  Z.land (ipaddress.network_address (network_object self))
         (ipaddress.netmask 128 (prefixlen self))
  = ipaddress.network_address (network_object self).

(** The network is the one of the address. The integer and copy
    constructors, the [prefixlen] setter, [__add__] and [__sub__] establish
    it; the string constructor does when the pattern matched the whole
    address of the text, and does not for text with an embedded IPv4
    address. *)
Definition wf (self : t) : Prop :=
  0 <= ip_object self <= 340282366920938463463374607431768211455 /\
  0 <= prefixlen self <= 128 /\
  ipaddress.network_address (network_object self)
  = Z.land (ip_object self) (ipaddress.netmask 128 (prefixlen self)).

End IPv6Obj.

(** Addresses of the docstrings and of the longest-match example. *)
Definition ipv4 (a b c d masklen : Z) : result IPv4Obj.t :=
  IPv4Obj.of_addr_masklen (((a * 256 + b) * 256 + c) * 256 + d) masklen false.

(** ** Python strings *)

Local Open Scope string_scope.
Local Open Scope list_scope.
Local Open Scope Z_scope.

Definition is_digit (c : ascii) : bool :=
  let n := nat_of_ascii c in (48 <=? n)%nat && (n <=? 57)%nat.

Definition is_alpha (c : ascii) : bool :=
  let n := nat_of_ascii c in
  ((65 <=? n)%nat && (n <=? 90)%nat) || ((97 <=? n)%nat && (n <=? 122)%nat).

(** White space of [str.strip] and of the pattern class [\s]:
    TAB LF VT FF CR, FS GS RS US and SPACE. *)
Definition is_space (c : ascii) : bool :=
  let n := nat_of_ascii c in
  ((9 <=? n)%nat && (n <=? 13)%nat) || ((28 <=? n)%nat && (n <=? 32)%nat).

Definition digit_value (c : ascii) : Z := Z.of_nat (nat_of_ascii c) - 48.

(** [s.split(sep)] for a one-character separator. *)
Fixpoint split (sep : ascii) (s : string) : list string :=
  match s with
  | EmptyString => [EmptyString]
  | String c rest =>
      if Ascii.eqb c sep then EmptyString :: split sep rest
      else match split sep rest with
           | [] => [String c EmptyString]
           | piece :: pieces => String c piece :: pieces
           end
  end.

(** White space that [int] skips around a literal: TAB LF VT FF CR, SPACE. *)
Definition is_c_space (c : ascii) : bool :=
  let n := nat_of_ascii c in
  ((9 <=? n)%nat && (n <=? 13)%nat) || (n =? 32)%nat.

Fixpoint lstrip (p : ascii -> bool) (s : string) : string :=
  match s with
  | EmptyString => EmptyString
  | String c rest => if p c then lstrip p rest else s
  end.

Fixpoint rstrip (p : ascii -> bool) (s : string) : string :=
  match s with
  | EmptyString => EmptyString
  | String c rest =>
      match rstrip p rest with
      | EmptyString => if p c then EmptyString else String c EmptyString
      | kept => String c kept
      end
  end.

(** [s.strip()] *)
Definition strip (s : string) : string := rstrip is_space (lstrip is_space s).

(** Digits of a decimal literal after its first digit; a single underscore
    may separate two digits. *)
Fixpoint int_digits (acc : Z) (s : string) : option Z :=
  match s with
  | EmptyString => Some acc
  | String c rest =>
      if is_digit c then int_digits (acc * 10 + digit_value c) rest
      else if Ascii.eqb c "_" then
        match rest with
        | String d rest' =>
            if is_digit d then int_digits (acc * 10 + digit_value d) rest'
            else None
        | EmptyString => None
        end
      else None
  end.

Definition int_literal (s : string) : option Z :=
  match s with
  | String c rest => if is_digit c then int_digits (digit_value c) rest else None
  | EmptyString => None
  end.

(** [int(s)] for a [str]: surrounding white space, an optional sign, decimal
    digits; [ValueError] otherwise. *)
Definition int_of_str (s : string) : result Z :=
  let body := rstrip is_c_space (lstrip is_c_space s) in
  let parsed :=
    match body with
    | String "+" rest => int_literal rest
    | String "-" rest => option_map Z.opp (int_literal rest)
    | _ => int_literal body
    end in
  match parsed with
  | Some z => Ok z
  | None => Raise ValueError
  end.

(** [str(n)] for an [int]. *)
Definition str_of_int (n : Z) : string := NilZero.string_of_int (Z.to_int n).

(** [range(begin, end)] *)
Definition py_range (begin end_ : Z) : list Z :=
  map (fun k => begin + Z.of_nat k) (seq 0 (Z.to_nat (end_ - begin))).

(** [sorted(l)] on integers. *)
Fixpoint insert_sorted (x : Z) (l : list Z) : list Z :=
  match l with
  | [] => [x]
  | y :: rest => if x <=? y then x :: l else y :: insert_sorted x rest
  end.

Fixpoint sorted (l : list Z) : list Z :=
  match l with
  | [] => []
  | x :: rest => insert_sorted x (sorted rest)
  end.

(** [l[ii]] on a Python list: negative indices count from the end. *)
Definition list_getitem {A : Type} (l : list A) (ii : Z) : result A :=
  let len := Z.of_nat (List.length l) in
  let pos := if ii <? 0 then ii + len else ii in
  if (pos <? 0) || (len <=? pos) then Raise IndexError
  else match nth_error l (Z.to_nat pos) with
       | Some v => Ok v
       | None => Raise IndexError
       end.

(** [del l[ii]] *)
Definition list_delitem {A : Type} (l : list A) (ii : Z) : result (list A) :=
  let len := Z.of_nat (List.length l) in
  let pos := if ii <? 0 then ii + len else ii in
  if (pos <? 0) || (len <=? pos) then Raise IndexError
  else Ok (firstn (Z.to_nat pos) l ++ skipn (S (Z.to_nat pos)) l).

(** Values held in the item list: labels ([str]) or bare indices ([int]). *)
Inductive pyval : Type :=
| PyStr (s : string)
| PyInt (z : Z).

(** [v == value] *)
Definition pyval_eqb (v value : pyval) : bool :=
  match v, value with
  | PyStr a, PyStr b => String.eqb a b
  | PyInt a, PyInt b => Z.eqb a b
  | _, _ => false
  end.

(** [str(v)] *)
Definition str_of (v : pyval) : string :=
  match v with
  | PyStr s => s
  | PyInt z => str_of_int z
  end.

(** The [result_type] argument: the classes [str] and [int]. *)
Inductive pytype : Type := type_str | type_int.

Definition call_type (rt : pytype) (v : pyval) : result pyval :=
  match rt, v with
  | type_str, _ => Ok (PyStr (str_of v))
  | type_int, PyInt z => Ok (PyInt z)
  | type_int, PyStr s => z <- int_of_str s ;; Ok (PyInt z)
  end.

(** [[f(x) for x in l]], stopping at the first exception. *)
Fixpoint map_result {A B : Type} (f : A -> result B) (l : list A)
  : result (list B) :=
  match l with
  | [] => Ok []
  | x :: rest => y <- f x ;; ys <- map_result f rest ;; Ok (y :: ys)
  end.

(** ** The pattern [_RGX_CISCO_RANGE]

    Written with blanks between its parts:
    [^ (?P<line_prefix> [a-zA-Z\s]* ) (?P<slot_prefix> [\d\/]* \d+ \/ )*
       (?P<range_text> ( \s* \d+ \s* \-* \s* \d* )* ) $]

    [line_prefix] is greedy over letters and white space; the text that
    follows it starts with neither, so giving characters back never helps.
    No atom of [range_text] holds a slash, so a match puts every slash into
    [slot_prefix], whose first (greedy) repetition already ends at the last
    slash that follows a digit. The rest of the text must be a sequence of
    atoms, which [range_step] recognises. *)

Fixpoint span (p : ascii -> bool) (s : string) : string * string :=
  match s with
  | EmptyString => (EmptyString, EmptyString)
  | String c rest =>
      if p c
      then let (taken, remaining) := span p rest in (String c taken, remaining)
      else (EmptyString, s)
  end.

(** The longest prefix of digits and slashes that ends in a digit followed
    by a slash; [prev_digit] tells whether a digit precedes [s]. *)
Fixpoint slot_split (prev_digit : bool) (s : string) : option (string * string) :=
  match s with
  | EmptyString => None
  | String c rest =>
      if is_digit c then
        match slot_split true rest with
        | Some (p, remaining) => Some (String c p, remaining)
        | None => None
        end
      else if Ascii.eqb c "/" then
        match slot_split false rest with
        | Some (p, remaining) => Some (String c p, remaining)
        | None => if prev_digit then Some (String c EmptyString, rest) else None
        end
      else None
  end.

(** Where a reader of the atoms [\s* \d+ \s* \-* \s* \d*] stands. *)
Inductive range_state : Type :=
| at_start              (* nothing read *)
| in_leading_space      (* white space that must be followed by a digit *)
| in_digits
| in_space_after_digits
| in_dashes
| in_space_after_dashes.

Definition range_step (st : range_state) (c : ascii) : option range_state :=
  if is_digit c then Some in_digits
  else if is_space c then
    match st with
    | at_start | in_leading_space => Some in_leading_space
    | in_digits | in_space_after_digits => Some in_space_after_digits
    | in_dashes | in_space_after_dashes => Some in_space_after_dashes
    end
  else if Ascii.eqb c "-" then
    match st with
    | in_digits | in_space_after_digits | in_dashes => Some in_dashes
    | _ => None
    end
  else None.

Fixpoint range_match (st : range_state) (s : string) : bool :=
  match s with
  | EmptyString =>
      match st with in_leading_space => false | _ => true end
  | String c rest =>
      match range_step st c with
      | Some st' => range_match st' rest
      | None => false
      end
  end.

Definition newline : string := String (ascii_of_nat 10) EmptyString.

(** [_RGX_CISCO_RANGE.search(s)]: the three named groups, [None] without a
    match. [$] also matches before a final line feed, which only matters
    when the line feed is all that follows the slot path. When [range_text]
    ends in a line feed the pattern may leave it out of the group; every
    bound is stripped before [int] reads it, so the items are the same. *)
Definition _RGX_CISCO_RANGE_search (s : string)
  : option (string * string * string) :=
  let (line_prefix, rest) := span (fun c => is_alpha c || is_space c) s in
  let (slot_prefix, tail) :=
    match slot_split false rest with
    | Some found => found
    | None => (EmptyString, rest)
    end in
  if range_match at_start tail then Some (line_prefix, slot_prefix, tail)
  else if String.eqb tail newline then Some (line_prefix, slot_prefix, EmptyString)
  else None.

(** ** The pattern [_RGX_IPV4ADDR] and [is_valid_ipv4_addr]

    [^ (?P<addr> \d+ \. \d+ \. \d+ \. \d+ )]: four runs of digits with a dot
    between them, at the start of the text. A run is read greedily; giving
    a digit back never helps, because a dot must follow. Nothing is asked
    of what comes after the fourth run. *)

(** [\d+]: what follows the longest run of digits, when there is one. *)
Definition digits_then (s : string) : option string :=
  let (digits, remaining) := span is_digit s in
  if String.eqb digits EmptyString then None else Some remaining.

(** [\.] *)
Definition dot_then (s : string) : option string :=
  match s with
  | String "." remaining => Some remaining
  | _ => None
  end.

Definition option_bind {A B : Type} (o : option A) (k : A -> option B)
  : option B :=
  match o with
  | Some a => k a
  | None => None
  end.

(** [_RGX_IPV4ADDR.search(s)]: what follows the match. *)
Definition _RGX_IPV4ADDR_search (s : string) : option string :=
  option_bind (digits_then s) (fun s1 =>
  option_bind (dot_then s1) (fun s1 =>
  option_bind (digits_then s1) (fun s2 =>
  option_bind (dot_then s2) (fun s2 =>
  option_bind (digits_then s2) (fun s3 =>
  option_bind (dot_then s3) (fun s3 =>
  digits_then s3)))))).

Definition is_valid_ipv4_addr (input : string) : result bool :=
  _ <- assert (negb (String.eqb input EmptyString)) "" ;;
  match _RGX_IPV4ADDR_search input with
  | Some _ => Ok true
  | None => Ok false
  end.

(** Tokens of [range_list] in [compressed_str]: integers and ["-"]. *)
Inductive token : Type :=
| Num (n : Z)
| Dash.

Definition token_eqb (a b : token) : bool :=
  match a, b with
  | Num x, Num y => Z.eqb x y
  | Dash, Dash => true
  | _, _ => false
  end.

(** [str(type(a)) == str(type(b))] *)
Definition same_type (a b : token) : bool :=
  match a, b with
  | Num _, Num _ => true
  | Dash, Dash => true
  | _, _ => false
  end.

Definition str_of_token (tok : token) : string :=
  match tok with
  | Num n => str_of_int n
  | Dash => "-"
  end.

(** [input[ii]] where the guard of the loop keeps [ii] in range. *)
Definition item (input : list Z) (ii : Z) : Z := nth (Z.to_nat ii) input 0.

Definition len {A : Type} (l : list A) : Z := Z.of_nat (List.length l).

Fixpoint all_digits (s : string) : bool :=
  match s with
  | EmptyString => true
  | String c rest => is_digit c && all_digits rest
  end.

Fixpoint drop_prefix (prefix s : string) : option string :=
  match prefix, s with
  | EmptyString, _ => Some s
  | String p prefix', String c rest =>
      if Ascii.eqb p c then drop_prefix prefix' rest else None
  | String _ _, EmptyString => None
  end.

(** [re.sub] of the pattern [^ prefix_str (\d+) $] by its group, for a prefix of
    letters, white space, digits and slashes, which a pattern reads
    literally: the prefix is dropped when digits, and at most a final line
    feed, follow it. *)
Definition re_sub_prefix (prefix_str s : string) : string :=
  match drop_prefix prefix_str s with
  | Some tail =>
      let (digits, remaining) := span is_digit tail in
      if negb (String.eqb digits EmptyString)
         && (String.eqb remaining EmptyString || String.eqb remaining newline)
      then tail else s
  | None => s
  end.

Definition inspect {A : Type} (a : A) : {b : A | a = b} := exist _ a eq_refl.

(** ** class IPv4Obj: text forms and hash *)

Module IPv4Obj_text.

(** [str(address)] for an [IPv4Address]: the four octets in decimal. *)
Definition str_address (address : Z) : string :=
  String.concat "." (map str_of_int (IPv4Obj.dotted address)).

Fixpoint zeros (n : nat) : string :=
  match n with
  | O => EmptyString
  | S n' => String "0" (zeros n')
  end.

Definition zero_pad (width : nat) (digits : string) : string :=
  (zeros (width - String.length digits) ++ digits)%string.

(** ["{0:03}".format(n)]: the sign counts in the width. *)
Definition format_03 (n : Z) : string :=
  if n <? 0 then String "-" (zero_pad 2 (str_of_int (- n)))
  else zero_pad 3 (str_of_int n).

Definition as_zeropadded (self : IPv4Obj.t) : string :=
  String.concat "." (map format_03 (IPv4Obj.dotted (IPv4Obj.ip self))).

Definition as_cidr_addr (self : IPv4Obj.t) : string :=
  (str_address (IPv4Obj.ip self) ++ "/" ++ str_of_int (IPv4Obj.prefixlen self))%string.

Section Hash.

(** The built-in [hash] on [str]. *)
Variable hash : string -> Z.

Definition __hash__ (self : IPv4Obj.t) : Z :=
  hash (str_address (IPv4Obj.ip_object self))
  + hash (str_of_int (IPv4Obj.prefixlen self)).

End Hash.

End IPv4Obj_text.

(** ** Lists of items: [list.insert], [enumerate], [sorted], [==], [lower]

    [sorted] orders with [<]. Python 3 compares two [str] by code points
    and two [int] by value; for a [str] and an [int] it raises [TypeError].
    [set.remove] raises [KeyError] for a member that is not there. The
    address classes meet neither exception. *)

Inductive outcome (A : Type) : Type :=
| Returns (a : A)
| Raises (e : exn)
| RaisesTypeError
| RaisesKeyError.
Arguments Returns {A} a.
Arguments Raises {A} e.
Arguments RaisesTypeError {A}.
Arguments RaisesKeyError {A}.

Definition of_result {A : Type} (r : result A) : outcome A :=
  match r with
  | Ok a => Returns a
  | Raise e => Raises e
  end.

Definition bind_outcome {A B : Type} (r : outcome A) (k : A -> outcome B)
  : outcome B :=
  match r with
  | Returns a => k a
  | Raises e => Raises e
  | RaisesTypeError => RaisesTypeError
  | RaisesKeyError => RaisesKeyError
  end.

Notation "x <~ r ;; k" := (bind_outcome r (fun x => k))
  (at level 61, r at next level, right associativity).

(** [l.insert(i, x)]: a negative index counts from the end, and an index
    beyond either end is moved to that end. *)
Definition list_insert {A : Type} (l : list A) (i : Z) (x : A) : list A :=
  let n := len l in
  let where_ := if i <? 0 then Z.max (i + n) 0 else i in
  let where_ := if where_ >? n then n else where_ in
  firstn (Z.to_nat where_) l ++ x :: skipn (Z.to_nat where_) l.

(** [enumerate(l)] *)
Definition enumerate {A : Type} (l : list A) : list (Z * A) :=
  combine (map Z.of_nat (seq 0 (List.length l))) l.

(** [a < b]; [None] stands for [TypeError]. *)
Definition py_lt (a b : pyval) : option bool :=
  match a, b with
  | PyStr s, PyStr t => Some (String.ltb s t)
  | PyInt x, PyInt y => Some (x <? y)
  | _, _ => None
  end.

(** [sorted(l)] on items: [x] goes in front of the first item that is not
    smaller than [x], so equal items keep their order. *)
Fixpoint insert_item (x : pyval) (l : list pyval) : option (list pyval) :=
  match l with
  | [] => Some [x]
  | y :: rest =>
      match py_lt y x with
      | None => None
      | Some true => option_map (cons y) (insert_item x rest)
      | Some false => Some (x :: l)
      end
  end.

Fixpoint sorted_items (l : list pyval) : option (list pyval) :=
  match l with
  | [] => Some []
  | x :: rest =>
      match sorted_items rest with
      | Some tail => insert_item x tail
      | None => None
      end
  end.

Definition sorted_outcome (l : list pyval) : outcome (list pyval) :=
  match sorted_items l with
  | Some s => Returns s
  | None => RaisesTypeError
  end.

(** [l1 == l2] on lists of items. *)
Fixpoint list_eqb (l1 l2 : list pyval) : bool :=
  match l1, l2 with
  | [], [] => true
  | v :: rest1, w :: rest2 => pyval_eqb v w && list_eqb rest1 rest2
  | _, _ => false
  end.

(** [s.lower()] *)
Definition lower_char (c : ascii) : ascii :=
  let n := nat_of_ascii c in
  if (65 <=? n)%nat && (n <=? 90)%nat then ascii_of_nat (n + 32) else c.

Fixpoint lower (s : string) : string :=
  match s with
  | EmptyString => EmptyString
  | String c rest => String (lower_char c) (lower rest)
  end.

(** ** class L4Object

    [ASA_TCP_PORTS] and [ASA_UDP_PORTS] come from
    [ciscoconfparse.protocol_values]: dictionaries from service names to
    port numbers. They are parameters here. *)

(** [needle in s] *)
Fixpoint contains (needle s : string) : bool :=
  String.prefix needle s ||
  match s with
  | EmptyString => false
  | String _ rest => contains needle rest
  end.

(** [re.split("\s+", s)]: the pieces between the runs of white space;
    [in_space] tells whether white space precedes [s]. *)
Fixpoint split_space (in_space : bool) (s : string) : list string :=
  match s with
  | EmptyString => [EmptyString]
  | String c rest =>
      if is_space c then
        if in_space then split_space true rest
        else EmptyString :: split_space true rest
      else match split_space false rest with
           | [] => [String c EmptyString]
           | piece :: pieces => String c piece :: pieces
           end
  end.

Definition re_split_space (s : string) : list string := split_space false s.

(** [re.search(r"^\S+$", s)]: one run without white space; [$] also
    matches before a final line feed. *)
Definition re_search_nonspace (s : string) : bool :=
  let (run, remaining) := span (fun c => negb (is_space c)) s in
  negb (String.eqb run EmptyString)
  && (String.eqb remaining EmptyString || String.eqb remaining newline).

Module L4Object.

(** [port_list] is a [list], or the [range] object that Python 3 gives. *)
Inductive ports : Type :=
| PortList (l : list Z)
| PortRange (start stop : Z).

Record t : Type := mk {
  protocol : string;
  port_list : ports;
  syntax : string
}.

Section Tables.

Variable ASA_TCP_PORTS : string -> option Z.
Variable ASA_UDP_PORTS : string -> option Z.

(** [int(ports.get(name, name))] *)
Definition port_of (table : string -> option Z) (name : string) : result Z :=
  match table name with
  | Some port => Ok port
  | None => int_of_str name
  end.

(** [tmp = set(range(1, 65535)); tmp.remove(port); sorted(tmp)], where
    [remove] raises [KeyError] for a port that is not in the set. *)
Definition all_but (port : Z) : outcome (list Z) :=
  if (1 <=? port) && (port <? 65535)
  then Returns (filter (fun p => negb (p =? port)) (py_range 1 65535))
  else RaisesKeyError.

Definition __init__ (protocol port_spec syntax : string) : outcome t :=
  let port_spec := strip port_spec in
  table <~ of_result
    (if String.eqb syntax "asa" then
       if String.eqb protocol "tcp" then Ok ASA_TCP_PORTS
       else if String.eqb protocol "udp" then Ok ASA_UDP_PORTS
       else Raise (NotImplementedError
                     ("'" ++ protocol ++ "' is not supported: '"
                      ++ protocol ++ "'")%string)
     else Raise (NotImplementedError
                   ("This syntax is unknown: '" ++ syntax ++ "'")%string)) ;;
  port_list <~
    (if contains "eq " port_spec then
       let port_str := last (re_split_space port_spec) EmptyString in
       port <~ of_result (port_of table port_str) ;;
       Returns (PortList [port])
     else if re_search_nonspace port_spec then
       port <~ of_result (port_of table port_spec) ;;
       Returns (PortList [port])
     else if contains "range " port_spec then
       let port_tmp := tl (re_split_space port_spec) in
       first <~ of_result (name <- list_getitem port_tmp 0 ;;
                           port_of table name) ;;
       last_ <~ of_result (name <- list_getitem port_tmp 1 ;;
                           port_of table name) ;;
       Returns (PortRange first (last_ + 1))
     else if contains "lt " port_spec then
       let port_str := last (re_split_space port_spec) EmptyString in
       port <~ of_result (port_of table port_str) ;;
       Returns (PortRange 1 port)
     else if contains "gt " port_spec then
       let port_str := last (re_split_space port_spec) EmptyString in
       port <~ of_result (port_of table port_str) ;;
       Returns (PortRange (port + 1) 65535)
     else if contains "neq " port_spec then
       let port_str := last (re_split_space port_spec) EmptyString in
       port <~ of_result (int_of_str port_str) ;;
       tmp <~ all_but port ;;
       Returns (PortList tmp)
     else Returns (PortList [])) ;;
  Returns (mk protocol port_list syntax).

End Tables.

End L4Object.

(** ** class CiscoRange(MutableSequence) *)

Module CiscoRange.

Record t : Type := mk {
  text : string;
  result_type : pytype;
  line_prefix : string;
  slot_prefix : string;
  range_text : string;   (* unset, here empty, when [text] is empty *)
  _list : list pyval
}.

Definition with_list (self : t) (l : list pyval) : t :=
  mk (text self) (result_type self) (line_prefix self) (slot_prefix self)
     (range_text self) l.

Definition __len__ (self : t) : Z := len (_list self).

Definition __getitem__ (self : t) (ii : Z) : result pyval :=
  list_getitem (_list self) ii.

Definition __delitem__ (self : t) (ii : Z) : result t :=
  l <- list_delitem (_list self) ii ;; Ok (with_list self l).

(** [return self._list[ii]]: the item is read, [val] is dropped, and the
    object comes back as it was. *)
Definition __setitem__ (self : t) (ii : Z) (val : pyval) : result t :=
  _ <- list_getitem (_list self) ii ;; Ok self.

(** [Sequence.__iter__]: [self[0]], [self[1]], ... up to [IndexError]. *)
Definition __iter__ (self : t) : list pyval := _list self.

(** [Sequence.index]: position of the first [v] with [v == value]. *)
Fixpoint first_index (value : pyval) (l : list pyval) (i : Z) : result Z :=
  match l with
  | [] => Raise ValueError
  | v :: rest =>
      if pyval_eqb v value then Ok i else first_index value rest (i + 1)
  end.

Definition index (self : t) (value : pyval) : result Z :=
  first_index value (_list self) 0.

(** [MutableSequence.pop]: [v = self[index]; del self[index]; return v]. *)
Definition pop (self : t) (index : Z) : result (t * pyval) :=
  v <- __getitem__ self index ;;
  self' <- __delitem__ self index ;;
  Ok (self', v).

(** The body of [try: while True: ...]: the object when an exception stops
    the loop, and that exception. Every turn pops one item. *)
Equations? while_True_pop (self : t) (ii : pyval) : t * exn
  by wf (List.length (_list self)) lt :=
  while_True_pop self ii with call_type (result_type self) ii => {
    | Raise e => (self, e)
    | Ok value with index self value => {
        | Raise e => (self, e)
        | Ok idx with inspect (pop self idx) => {
            | exist _ (Raise e) _ => (self, e)
            | exist _ (Ok (self', _)) popped => while_True_pop self' ii } } }.
Proof.
  (* the pop succeeded, so the list lost one item *)
  clear while_True_pop. revert popped.
  unfold pop, __getitem__, __delitem__, list_getitem, list_delitem.
  set (pos := if idx <? 0 then _ else _).
  destruct ((pos <? 0) || (Z.of_nat (List.length (_list self)) <=? pos)) eqn:E;
    [discriminate|].
  destruct (nth_error _ _); [|discriminate]. cbn.
  intros [= <- _]. cbn. apply orb_false_iff in E as [E1 E2].
  apply Z.ltb_ge in E1. apply Z.leb_gt in E2.
  rewrite length_app, length_firstn.
  change (match _list self with [] => [] | _ :: l0 => skipn (Z.to_nat pos) l0 end)
    with (skipn (S (Z.to_nat pos)) (_list self)).
  rewrite length_skipn. lia.
Defined.

(** [try: ... except ValueError: pass] around the loop. *)
Definition remove_item (self : t) (ii : pyval) : result t :=
  match while_True_pop self ii with
  | (self', ValueError) => Ok self'
  | (_, e) => Raise e
  end.

Fixpoint remove_items (self : t) (items : list pyval) : result t :=
  match items with
  | [] => Ok self
  | ii :: rest => self' <- remove_item self ii ;; remove_items self' rest
  end.

(** The loop body of [_parse_dash_range]: the bounds [(begin, end)] that
    [range(begin, end)] receives, [end] being the last index plus one. *)
Definition dash_range_atom (range_atom : string) : result (Z * Z) :=
  let (begin, end_) :=
    match split "-" range_atom with
    | [b; e] => (b, e)
    | _ => (range_atom, range_atom)
    end in
  begin <- int_of_str (strip begin) ;;
  last_index <- int_of_str (strip end_) ;;
  let end_ := last_index + 1 in
  _ <- assert (begin >? -1) "" ;;
  _ <- assert (end_ >? begin) "" ;;
  Ok (begin, end_).

Fixpoint dash_range_loop (atoms : list string) (retval : list Z)
  : result (list Z) :=
  match atoms with
  | [] => Ok retval
  | range_atom :: rest =>
      bounds <- dash_range_atom range_atom ;;
      dash_range_loop rest (retval ++ py_range (fst bounds) (snd bounds))
  end.

(** [prefix_str + str(range_list[0])] followed by the other tokens, a
    comma between two tokens of the same type. *)
Fixpoint join_tokens (retval : string) (prev : token) (rest : list token)
  : string :=
  match rest with
  | [] => retval
  | tok :: more =>
      join_tokens
        (if negb (same_type tok prev)
         then (retval ++ str_of_token tok)%string
         else (retval ++ "," ++ str_of_token tok)%string)
        tok more
  end.

(** One turn of [for ii in range(len(input))]. *)
Definition range_list_step (input : list Z) (range_list : list token)
           (ii : Z) : list token :=
  if (ii + 1 <? len input) && (ii - 1 >? -1) then
    if (item input ii - item input (ii - 1) =? 1)
       && (item input (ii + 1) - item input ii =? 1)
    then
      if negb (token_eqb (last range_list (Num 0)) Dash)
      then range_list ++ [Dash]
      else range_list
    else range_list ++ [Num (item input ii)]
  else range_list.

Definition build_range_list (input : list Z) : list token :=
  let range_list :=
    fold_left (range_list_step input)
              (map Z.of_nat (seq 0 (List.length input)))
              [Num (item input 0)] in
  if len input >? 1
  then range_list ++ [Num (item input (len input - 1))]
  else range_list.

Section SetOrder.

(** [list(set(l))] on integers: Python leaves the order in which a set
    yields its members to the implementation. *)
Variable list_set : list Z -> list Z.

Definition _parse_range_text (text : string)
  : result (string * string * string) :=
  let tmp := split "," text in
  match _RGX_CISCO_RANGE_search (hd EmptyString tmp) with
  | None =>
      Raise (AssertionError
               ("CiscoRange() couldn't parse '" ++ text ++ "'")%string)
  | Some (line_prefix, slot_prefix, range_text0) =>
      let range_text :=
        match tl tmp with
        | [] => range_text0
        | [tmp1] => (range_text0 ++ "," ++ tmp1)%string
        | more => (range_text0 ++ "," ++ String.concat "," more)%string
        end in
      Ok (line_prefix, slot_prefix, range_text)
  end.

Definition _parse_dash_range (text : string) : result (list Z) :=
  retval <- dash_range_loop (split "," text) [] ;;
  Ok (list_set retval).

Definition combine (line_prefix slot_prefix : string) (arg : Z) : pyval :=
  PyStr (line_prefix ++ slot_prefix ++ str_of_int arg)%string.

Definition _range (line_prefix slot_prefix range_text : string)
           (result_type : pytype) : result (list pyval) :=
  indices <- _parse_dash_range range_text ;;
  map_result (call_type result_type)
             (map (combine line_prefix slot_prefix) indices).

Definition __init__ (text : string) (result_type : pytype) : result t :=
  if negb (String.eqb text EmptyString) then
    parsed <- _parse_range_text text ;;
    let '(line_prefix, slot_prefix, range_text) := parsed in
    l <- _range line_prefix slot_prefix range_text result_type ;;
    Ok (mk text result_type line_prefix slot_prefix range_text l)
  else Ok (mk text result_type EmptyString EmptyString EmptyString []).

Definition remove (self : t) (arg : string) : result t :=
  remove_obj <- __init__ arg type_str ;;
  remove_items self (__iter__ remove_obj).

(** First loop of [compressed_str]: every item without [prefix_str],
    as an integer. *)
Definition indices (self : t) : result (list Z) :=
  let prefix_str := (line_prefix self ++ slot_prefix self)%string in
  map_result (fun ii => int_of_str (re_sub_prefix prefix_str (str_of ii)))
             (_list self).

Definition compressed_str (self : t) : result string :=
  let prefix_str := (line_prefix self ++ slot_prefix self)%string in
  input <- indices self ;;
  if len input =? 0 then Ok EmptyString
  else
    let input := sorted (list_set input) in
    let range_list := build_range_list input in
    Ok (join_tokens
          (prefix_str ++ str_of_token (hd (Num 0) range_list))%string
          (hd (Num 0) range_list) (tl range_list)).

End SetOrder.

Section ItemOrder.

Variable list_set : list Z -> list Z.

(** [set(self._list)], read in the order in which the set yields the
    items. *)
Variable items_set : list pyval -> list pyval.

Definition __repr__ (self : t) : result string :=
  if len (_list self) =? 0 then Ok "<CiscoRange []>"
  else s <- compressed_str list_set self ;; Ok ("<CiscoRange " ++ s ++ ">")%string.

Definition __str__ (self : t) : result string := __repr__ self.

(** The loop of [insert]: [self._list.insert(ii + idx, obj)] for every
    [(idx, obj)] of [enumerate]. *)
Definition insert_loop (l : list pyval) (ii : Z) (objs : list pyval)
  : list pyval :=
  fold_left (fun l entry => list_insert l (ii + fst entry) (snd entry))
            (enumerate objs) l.

(** When [result_type] raises on an item, the items of [val] are already
    in [self._list]; the exception is all that is given here. *)
Definition insert (self : t) (ii : Z) (val : string) : outcome t :=
  new <~ of_result (__init__ list_set val (result_type self)) ;;
  let l := insert_loop (_list self) ii (__iter__ new) in
  items <~ of_result (map_result (call_type (result_type self)) (items_set l)) ;;
  l' <~ sorted_outcome items ;;
  Returns (with_list self l').

Definition append (self : t) (val : string) : outcome t :=
  let list_idx := len (_list self) in
  insert self list_idx val.

End ItemOrder.

(** *** The methods that [MutableSequence] adds

    [CiscoRange] gives [__getitem__], [__setitem__], [__delitem__],
    [__len__] and [insert], and overrides [append] and [remove]; the class
    [MutableSequence] adds [pop] (above), [clear], [reverse], [extend] and
    [__iadd__], written with those. *)

(** The body of [try: while True: self.pop()] in [clear]: the object when
    an exception stops the loop, and that exception. *)
Equations? while_True_pop_last (self : t) : t * exn
  by wf (List.length (_list self)) lt :=
  while_True_pop_last self with inspect (pop self (-1)) => {
    | exist _ (Raise e) _ => (self, e)
    | exist _ (Ok (self', _)) popped => while_True_pop_last self' }.
Proof.
  (* the pop succeeded, so the list lost one item *)
  clear while_True_pop_last. revert popped. generalize (-1). intros idx.
  unfold pop, __getitem__, __delitem__, list_getitem, list_delitem.
  set (pos := if idx <? 0 then _ else _).
  destruct ((pos <? 0) || (Z.of_nat (List.length (_list self)) <=? pos)) eqn:E;
    [discriminate|].
  destruct (nth_error _ _); [|discriminate]. cbn.
  intros [= <- _]. cbn. apply orb_false_iff in E as [E1 E2].
  apply Z.ltb_ge in E1. apply Z.leb_gt in E2.
  rewrite length_app, length_firstn.
  change (match _list self with [] => [] | _ :: l0 => skipn (Z.to_nat pos) l0 end)
    with (skipn (S (Z.to_nat pos)) (_list self)).
  rewrite length_skipn. lia.
Defined.

(** [clear]: [except IndexError: pass] around the loop. *)
Definition clear (self : t) : result t :=
  match while_True_pop_last self with
  | (self', IndexError) => Ok self'
  | (_, e) => Raise e
  end.

(** One turn of the loop of [reverse],
    [self[i], self[n-i-1] = self[n-i-1], self[i]]: the right-hand side reads
    [self[n-i-1]], then [self[i]]; the targets are assigned from the left,
    each through [__setitem__]. *)
Definition reverse_step (n : Z) (self : t) (i : Z) : result t :=
  upper <- __getitem__ self (n - i - 1) ;;
  lower <- __getitem__ self i ;;
  self <- __setitem__ self i upper ;;
  __setitem__ self (n - i - 1) lower.

Fixpoint reverse_loop (n : Z) (self : t) (turns : list Z) : result t :=
  match turns with
  | [] => Ok self
  | i :: rest => self' <- reverse_step n self i ;; reverse_loop n self' rest
  end.

(** [reverse]: [n = len(self)], then [for i in range(n//2)]. *)
Definition reverse (self : t) : result t :=
  let n := __len__ self in
  reverse_loop n self (py_range 0 (n / 2)).

Section Inherited.

Variable list_set : list Z -> list Z.
Variable items_set : list pyval -> list pyval.

(** [extend(values)] for a list of texts: [self.append(v)] for each. *)
Fixpoint extend (self : t) (values : list string) : outcome t :=
  match values with
  | [] => Returns self
  | v :: rest =>
      self' <~ append list_set items_set self v ;; extend self' rest
  end.

(** [__iadd__]: [self.extend(values)], then [return self]. *)
Definition __iadd__ (self : t) (values : list string) : outcome t :=
  extend self values.

End Inherited.

(** [other] is a [CiscoRange], so the assertion on its [line_prefix]
    holds. Both lists are sorted before the result is formed. *)
Definition __eq__ (self other : t) : outcome bool :=
  let self_prefix_str := (line_prefix self ++ slot_prefix self)%string in
  let other_prefix_str := (line_prefix other ++ slot_prefix other)%string in
  let cmp1 := String.eqb (lower self_prefix_str) (lower other_prefix_str) in
  sorted_self <~ sorted_outcome (_list self) ;;
  sorted_other <~ sorted_outcome (_list other) ;;
  let cmp2 := list_eqb sorted_self sorted_other in
  Returns (cmp1 && cmp2).

End CiscoRange.

(** ** The reference implementation's [set] on small integers

    CPython's [setobject.c] for keys that are integers [0 <= n < 2^61 - 1]
    (their hash is [n]) and a set that only grows: an open-addressing table
    of [mask + 1] slots, probed linearly and then by perturbation, resized
    once three fifths are in use, and iterated in slot order. *)

Module cpython_set.

Definition LINEAR_PROBES : Z := 9.
Definition PERTURB_SHIFT : Z := 5.
Definition PySet_MINSIZE : Z := 8.

Record setobject : Type := mk {
  table : list (option Z);
  mask : Z;
  fill : Z
}.

Definition entry (table : list (option Z)) (i : Z) : option Z :=
  nth (Z.to_nat i) table None.

Definition store (table : list (option Z)) (i key : Z) : list (option Z) :=
  firstn (Z.to_nat i) table ++ Some key :: skipn (S (Z.to_nat i)) table.

Inductive slot : Type :=
| found_unused (i : Z)
| found_active.

(** [for (j = 0; j < LINEAR_PROBES; j++) { entry++; ... }] *)
Fixpoint linear_probes (table : list (option Z)) (key i : Z) (probes : nat)
  : option slot :=
  match probes with
  | O => None
  | S probes' =>
      match entry table (i + 1) with
      | None => Some (found_unused (i + 1))
      | Some k =>
          if k =? key then Some found_active
          else linear_probes table key (i + 1) probes'
      end
  end.

(** The [while (1)] of [set_add_entry], entered at an occupied slot [i]. *)
Fixpoint probe (fuel : nat) (table : list (option Z)) (mask key i perturb : Z)
  : slot :=
  match fuel with
  | O => found_active
  | S fuel' =>
      match entry table i with
      | Some k => if k =? key then found_active else
          match (if i + LINEAR_PROBES <=? mask
                 then linear_probes table key i (Z.to_nat LINEAR_PROBES)
                 else None) with
          | Some s => s
          | None =>
              let perturb := Z.shiftr perturb PERTURB_SHIFT in
              let i := Z.land (i * 5 + 1 + perturb) mask in
              probe fuel' table mask key i perturb
          end
      | None => found_unused i
      end
  end.

Definition find_slot (table : list (option Z)) (mask key : Z) : slot :=
  probe (Z.to_nat (mask + 16)) table mask key (Z.land key mask) key.

Fixpoint grow (fuel : nat) (newsize minused : Z) : Z :=
  match fuel with
  | O => newsize
  | S fuel' =>
      if newsize <=? minused then grow fuel' (Z.shiftl newsize 1) minused
      else newsize
  end.

(** [set_insert_clean]: the table holds no equal key. *)
Definition set_insert_clean (mask : Z) (table : list (option Z)) (key : Z)
  : list (option Z) :=
  match find_slot table mask key with
  | found_unused i => store table i key
  | found_active => table
  end.

Definition set_table_resize (so : setobject) (minused : Z) : setobject :=
  let newsize := grow 64 PySet_MINSIZE minused in
  let keys := flat_map (fun e => match e with Some k => [k] | None => [] end)
                       (table so) in
  mk (fold_left (set_insert_clean (newsize - 1)) keys
                (repeat None (Z.to_nat newsize)))
     (newsize - 1) (fill so).

Definition set_add_entry (so : setobject) (key : Z) : setobject :=
  match find_slot (table so) (mask so) key with
  | found_active => so
  | found_unused i =>
      let so := mk (store (table so) i key) (mask so) (fill so + 1) in
      if fill so * 5 <? mask so * 3 then so
      else set_table_resize so (if fill so >? 50000 then fill so * 2
                                else fill so * 4)
  end.

Definition empty : setobject :=
  mk (repeat None (Z.to_nat PySet_MINSIZE)) (PySet_MINSIZE - 1) 0.

(** [list(set(l))] *)
Definition list_set (l : list Z) : list Z :=
  flat_map (fun e => match e with Some k => [k] | None => [] end)
           (table (fold_left set_add_entry l empty)).

End cpython_set.

(** An order in which a set may yield its members: first occurrences. *)
Fixpoint first_seen (seen l : list Z) : list Z :=
  match l with
  | [] => []
  | x :: rest =>
      if existsb (Z.eqb x) seen then first_seen seen rest
      else x :: first_seen (x :: seen) rest
  end.

(** ** The compression rule, as the specification words it

    The sorted, duplicate-free indices are cut into maximal runs of
    consecutive integers; a run of three or more is written [first-last],
    a shorter run as its one or two values; commas join the pieces and the
    prefix is written once, in front. *)

Fixpoint runs_from (first last_ : Z) (l : list Z) : list (Z * Z) :=
  match l with
  | [] => [(first, last_)]
  | x :: rest =>
      if x =? last_ + 1 then runs_from first x rest
      else (first, last_) :: runs_from x x rest
  end.

Definition maximal_runs (l : list Z) : list (Z * Z) :=
  match l with
  | [] => []
  | x :: rest => runs_from x x rest
  end.

Definition spec_run (run : Z * Z) : list string :=
  let (first, last_) := run in
  if last_ - first >=? 2
  then [(str_of_int first ++ "-" ++ str_of_int last_)%string]
  else if last_ - first =? 1 then [str_of_int first; str_of_int last_]
  else [str_of_int first].

Definition spec_compressed_str (prefix_str : string) (indices : list Z) : string :=
  match indices with
  | [] => EmptyString
  | _ => (prefix_str
          ++ String.concat "," (flat_map spec_run (maximal_runs indices)))%string
  end.

(** ** The order on addresses, as the documentation words it

    Network numbers first, then mask lengths, then host addresses. *)

Definition lex_lt (k1 k2 : Z * Z * Z) : Prop :=
  let '(n1, p1, d1) := k1 in
  let '(n2, p2, d2) := k2 in
  n1 < n2 \/ (n1 = n2 /\ (p1 < p2 \/ (p1 = p2 /\ d1 < d2))).

(** The comparison of two keys that [__lt__] computes. *)
Definition ltb3 (n1 p1 d1 n2 p2 d2 : Z) : bool :=
  if (n1 =? n2) && (p1 =? p2) then d1 <? d2
  else if n1 =? n2 then p1 <? p2 else n1 <? n2.

Definition exactly_one (x y z : bool) : Prop :=
  (x = true /\ y = false /\ z = false) \/
  (x = false /\ y = true /\ z = false) \/
  (x = false /\ y = false /\ z = true).

Definition key4 (x : IPv4Obj.t) : Z * Z * Z :=
  (IPv4Obj.as_decimal_network x, IPv4Obj.prefixlen x, IPv4Obj.as_decimal x).


(** ** Sample objects *)

(** [IPv4Obj("4.0.0.0/16")], [IPv4Obj("4.0.0.0/24")], [IPv4Obj("4.0.0.0/8")],
    [IPv4Obj("2.0.0.0/7")], [IPv4Obj("4.0.1.1/32")], [IPv4Obj("10.1.1.77/24")] *)
Definition net_4_0_0_0_16 : IPv4Obj.t :=
  IPv4Obj.mk 67108864 (ipaddress.mk_Network 67108864 16).
Definition net_4_0_0_0_24 : IPv4Obj.t :=
  IPv4Obj.mk 67108864 (ipaddress.mk_Network 67108864 24).
Definition net_4_0_0_0_8 : IPv4Obj.t :=
  IPv4Obj.mk 67108864 (ipaddress.mk_Network 67108864 8).
Definition net_2_0_0_0_7 : IPv4Obj.t :=
  IPv4Obj.mk 33554432 (ipaddress.mk_Network 33554432 7).
Definition addr_4_0_1_1 : IPv4Obj.t :=
  IPv4Obj.mk 67109121 (ipaddress.mk_Network 67109121 32).
Definition host_10_1_1_77_24 : IPv4Obj.t :=
  IPv4Obj.mk 167838029 (ipaddress.mk_Network 167837952 24).

Definition addr_255_255_255_255 : IPv4Obj.t :=
  IPv4Obj.mk 4294967295 (ipaddress.mk_Network 4294967295 32).
Definition addr_1_2_3_4 : IPv4Obj.t :=
  IPv4Obj.mk 16909060 (ipaddress.mk_Network 16909060 32).

(** [IPv6Obj("::1")] and [IPv6Obj("2001::dead:beef/64")] *)
Definition addr6_loopback : IPv6Obj.t :=
  IPv6Obj.mk 1 (ipaddress.mk_Network 1 128).
Definition net6_2001_dead_beef_64 : IPv6Obj.t :=
  IPv6Obj.mk 42540488161975842760550356429036175087
             (ipaddress.mk_Network 42540488161975842760550356425300246528 64).

(** [IPv6Obj("::ffff:1.2.3.4")] and [IPv6Obj("::ffff:1.2.0.0/112")], whose
    address is read from ["::ffff:1"], the part of the text before the first
    dot, and [IPv6Obj("::ffff:1")]. *)
Definition addr6_ffff_1_2_3_4 : IPv6Obj.t :=
  IPv6Obj.mk 4294901761 (ipaddress.mk_Network 281470698652420 128).
Definition net6_ffff_1_2_0_0_112 : IPv6Obj.t :=
  IPv6Obj.mk 4294901761 (ipaddress.mk_Network 281470698651648 112).
Definition addr6_ffff_1 : IPv6Obj.t :=
  IPv6Obj.mk 4294901761 (ipaddress.mk_Network 4294901761 128).

(** Tokens of one run: a dash only when the run has three members or
    more. *)
Definition run_tokens (run : Z * Z) : list token :=
  let (first, last_) := run in
  if last_ - first >=? 2 then [Num first; Dash; Num last_]
  else if last_ - first =? 1 then [Num first; Num last_]
  else [Num first].

(** The loop of [build_range_list] read along the list: [prev] is the item
    before the head of [l], and the last item is appended as the code does
    after the loop. *)
Fixpoint tokens_from (prev : Z) (l : list Z) (acc : list token) : list token :=
  match l with
  | [] => acc
  | cur :: tail =>
      match tail with
      | [] => acc ++ [Num cur]
      | next :: _ =>
          tokens_from cur tail
            (if (cur - prev =? 1) && (next - cur =? 1)
             then if negb (token_eqb (last acc (Num 0)) Dash)
                  then acc ++ [Dash] else acc
             else acc ++ [Num cur])
      end
  end.

(** What the loop has written for the run [first .. prev] when [next] is
    the item after [prev] (none at the end of the list). *)
Definition written (first prev : Z) (next : option Z) : list token :=
  match next with
  | Some n =>
      if prev =? first then [Num first]
      else if n =? prev + 1 then [Num first; Dash]
      else run_tokens (first, prev)
  | None => run_tokens (first, prev)
  end.

(** Pieces written after [retval], each behind a comma. *)
Definition add_pieces (retval : string) (pieces : list string) : string :=
  fold_left (fun acc piece => (acc ++ "," ++ piece)%string) pieces retval.

(** ** What a set promises about [list(set(l))]

    The members of [l], each once; the order is not promised. *)
Definition set_contract (list_set : list Z -> list Z) : Prop :=
  forall l, NoDup (list_set l) /\ (forall x, In x (list_set l) <-> In x l).

(** [remove] takes [v] out for the expanded item [ii]: [v] equals
    [self.result_type(ii)], which must not raise. *)
Definition item_matches (rt : pytype) (ii v : pyval) : bool :=
  match call_type rt ii with
  | Ok value => pyval_eqb v value
  | Raise _ => false
  end.

(** [-len(l) <= ii < len(l)] *)
Definition valid_index {A : Type} (l : list A) (ii : Z) : Prop :=
  - len l <= ii < len l.

(** [CiscoRange("Eth2/1-3,7")], built by hand. *)
Definition range_Eth2_1_3_7 : CiscoRange.t :=
  CiscoRange.mk "Eth2/1-3,7" type_str "Eth" "2/" "1-3,7"
                [PyStr "Eth2/1"; PyStr "Eth2/2"; PyStr "Eth2/3"; PyStr "Eth2/7"].

(** [CiscoRange("Eth2/2-3,9")] and [CiscoRange("Eth2/9")], built by hand. *)
Definition range_Eth2_2_3_9 : CiscoRange.t :=
  CiscoRange.mk "Eth2/2-3,9" type_str "Eth" "2/" "2-3,9"
                [PyStr "Eth2/9"; PyStr "Eth2/2"; PyStr "Eth2/3"].
Definition range_Eth2_9 : CiscoRange.t :=
  CiscoRange.mk "Eth2/9" type_str "Eth" "2/" "9" [PyStr "Eth2/9"].

(** The indices of ["1-3,5,9-11,13"] and the range that holds them. *)
Definition canonical_indices : list Z := [1; 2; 3; 5; 9; 10; 11; 13].
Definition range_canonical : CiscoRange.t :=
  CiscoRange.mk "1-3,5,9-11,13" type_str "" "" "1-3,5,9-11,13"
                (map PyStr ["1"; "2"; "3"; "5"; "9"; "10"; "11"; "13"]).

(** [CiscoRange("Eth2/1-3,5,9-10")] of the class docstring. *)
Definition range_Eth2_docstring : CiscoRange.t :=
  CiscoRange.mk "Eth2/1-3,5,9-10" type_str "Eth" "2/" "1-3,5,9-10"
                (map PyStr ["Eth2/1"; "Eth2/2"; "Eth2/3"; "Eth2/5"; "Eth2/9";
                            "Eth2/10"]).

(** What [CiscoRange("1,9-10")] is under the reference implementation's
    set, and what [CiscoRange("9,2")] is when a set yields first
    occurrences. *)
Definition range_1_9_10 : CiscoRange.t :=
  CiscoRange.mk "1,9-10" type_str "" "" "1,9-10"
                [PyStr "1"; PyStr "10"; PyStr "9"].
Definition range_9_2 : CiscoRange.t :=
  CiscoRange.mk "9,2" type_str "" "" "9,2" [PyStr "9"; PyStr "2"].

Definition range_5_6 : CiscoRange.t :=
  CiscoRange.mk "5,6" type_str "" "" "5,6" [PyStr "5"; PyStr "6"].

(** A range whose indices hold the lone pair 5, 6. *)
Definition range_1_5_6_10 : CiscoRange.t :=
  CiscoRange.mk "1,5,6,10" type_str "" "" "1,5,6,10"
                [PyStr "1"; PyStr "5"; PyStr "6"; PyStr "10"].

(** ** Notions for the statements about ranges, ports and texts *)

Fixpoint every (p : ascii -> bool) (s : string) : bool :=
  match s with
  | EmptyString => true
  | String c rest => p c && every p rest
  end.

(** What a piece of the compressed text is. *)
Definition is_piece (piece : string) (first last_ : Z) : Prop :=
  0 <= first <= last_ /\
  (piece = str_of_int first /\ last_ = first \/
   piece = (str_of_int first ++ "-" ++ str_of_int last_)%string).

(** The label that [_range] makes of an index when [result_type] is [str]. *)
Definition label (lp sp : string) (n : Z) : pyval :=
  PyStr (lp ++ sp ++ str_of_int n)%string.

(** [isinstance(v, rt)] *)
Definition has_type (rt : pytype) (v : pyval) : bool :=
  match rt, v with
  | type_str, PyStr _ => true
  | type_int, PyInt _ => true
  | _, _ => false
  end.

Definition typed (rt : pytype) (l : list pyval) : Prop :=
  Forall (fun v => has_type rt v = true) l.

(** A list that holds a label and an integer. *)
Definition mixed (l : list pyval) : Prop :=
  (exists s, In (PyStr s) l) /\ (exists z, In (PyInt z) l).

Definition item_lt (a b : pyval) : Prop := py_lt a b = Some true.

(** What a set promises about [set(l)] on items. *)
Definition items_contract (items_set : list pyval -> list pyval) : Prop :=
  forall l, NoDup (items_set l) /\ (forall x, In x (items_set l) <-> In x l).

Fixpoint first_items (seen l : list pyval) : list pyval :=
  match l with
  | [] => []
  | x :: rest =>
      if existsb (pyval_eqb x) seen then first_items seen rest
      else x :: first_items (x :: seen) rest
  end.

(** [a <= b] between items of one type: [b < a] is false. *)
Definition item_le (a b : pyval) : Prop := py_lt b a = Some false.

Definition prefix_str (self : CiscoRange.t) : string :=
  (CiscoRange.line_prefix self ++ CiscoRange.slot_prefix self)%string.

(** Converting the same items in another order: the same exception, or
    the same converted items in another order. *)
Definition same_conversion (r1 r2 : result (list pyval)) : Prop :=
  match r1, r2 with
  | Ok l1, Ok l2 => Permutation l1 l2
  | Raise e1, Raise e2 => e1 = e2
  | _, _ => False
  end.

(** The labels of [CiscoRange("Eth2/2-3,9")] in another order under another
    text, and a range that holds a label and an integer. *)
Definition range_Eth2_9_2_3 : CiscoRange.t :=
  CiscoRange.mk "Eth2/9,2,3" type_str "Eth" "2/" "9,2,3"
                [PyStr "Eth2/2"; PyStr "Eth2/3"; PyStr "Eth2/9"].
Definition range_label_and_int : CiscoRange.t :=
  CiscoRange.with_list range_Eth2_9 [PyStr "Eth2/9"; PyInt 9].

(** [s.count(c)] *)
Fixpoint count (c : ascii) (s : string) : nat :=
  match s with
  | EmptyString => 0
  | String d rest => (if Ascii.eqb d c then 1 else 0) + count c rest
  end.

(** An atom whose two bounds are read and descend: [last_ < first]. *)
Definition descending (atom : string) : Prop :=
  exists sb se first last_,
    split "-" atom = [sb; se] /\
    int_of_str (strip sb) = Ok first /\
    int_of_str (strip se) = Ok last_ /\
    0 <= first /\ last_ < first.

Definition parse_error (text : string) : exn :=
  AssertionError ("CiscoRange() couldn't parse '" ++ text ++ "'")%string.

(** A table for the examples: two entries of [ASA_TCP_PORTS]. *)
Definition sample_ports (name : string) : option Z :=
  if String.eqb name "www" then Some 80
  else if String.eqb name "ssh" then Some 22
  else None.

(** [d1.d2.d3.d4] followed by [tail]. *)
Definition dotted_quad (d1 d2 d3 d4 tail : string) : string :=
  (d1 ++ "." ++ d2 ++ "." ++ d3 ++ "." ++ d4 ++ tail)%string.

Definition digit_run (d : string) : Prop :=
  every is_digit d = true /\ d <> EmptyString.

Definition comparison_eqb (c d : comparison) : bool :=
  match c, d with
  | Eq, Eq | Lt, Lt | Gt, Gt => true
  | _, _ => false
  end.

(* ------------------------------------------------------------------ *)
(** [CiscoRange("1,9-10", result_type=int)] under the reference
    implementation's set. *)
Definition range_1_9_10_int : CiscoRange.t :=
  CiscoRange.mk "1,9-10" type_int "" "" "1,9-10" [PyInt 1; PyInt 10; PyInt 9].

(** ** Calls on a range, and the item list as a shared object *)

(** The calls that can hand on a changed range: the methods of the class
    and of [MutableSequence] that act on [self._list] or assign to it. The
    other methods ([__len__], [__getitem__], [__iter__], [index],
    [__eq__], [__repr__], [__str__], [compressed_str], [as_list]) read the
    list. *)
Module call.

Inductive t : Type :=
| __setitem__ (ii : Z) (val : pyval)
| __delitem__ (ii : Z)
| insert (ii : Z) (val : string)
| append (val : string)
| remove (arg : string)
| pop (index : Z)
| clear
| extend (values : list string)
| __iadd__ (values : list string)
| reverse.

End call.

(** The range after a call that returns. *)
Definition after (list_set : list Z -> list Z)
           (items_set : list pyval -> list pyval)
           (m : call.t) (self : CiscoRange.t) : outcome CiscoRange.t :=
  match m with
  | call.__setitem__ ii val => of_result (CiscoRange.__setitem__ self ii val)
  | call.__delitem__ ii => of_result (CiscoRange.__delitem__ self ii)
  | call.insert ii val => CiscoRange.insert list_set items_set self ii val
  | call.append val => CiscoRange.append list_set items_set self val
  | call.remove arg => of_result (CiscoRange.remove list_set self arg)
  | call.pop index =>
      of_result (popped <- CiscoRange.pop self index ;; Ok (fst popped))
  | call.clear => of_result (CiscoRange.clear self)
  | call.extend values => CiscoRange.extend list_set items_set self values
  | call.__iadd__ values => CiscoRange.__iadd__ list_set items_set self values
  | call.reverse => of_result (CiscoRange.reverse self)
  end.

(** The calls that do nothing but assign items. *)
Definition assigns_items (m : call.t) : bool :=
  match m with
  | call.__setitem__ _ _ | call.reverse => true
  | _ => false
  end.

(** The calls to which the documentation leaves all changes: [insert],
    [append], [remove] and [del]. *)
Definition insert_append_remove_del (m : call.t) : bool :=
  match m with
  | call.insert _ _ | call.append _ | call.remove _ | call.__delitem__ _ => true
  | _ => false
  end.

(** Python lists are held by name: [self._list] is the name of a list in
    the store, and what is done to the list under one of its names shows
    under the others. *)
Module shared.

Definition store : Type := list (list pyval).

(** The list that the name [l] stands for. *)
Definition deref (s : store) (l : nat) : list pyval := nth l s [].

(** [l.append(v)] *)
Definition list_append (s : store) (l : nat) (v : pyval) : store :=
  firstn l s ++ (deref s l ++ [v]) :: skipn (S l) s.

(** A range by its [_list] attribute; the other attributes play no part. *)
Record t : Type := mk { _list : nat }.

(** [as_list]: [return self._list], the name and not a copy. *)
Definition as_list (self : t) : nat := _list self.

(** The items of the range: [self._list] as the store has it. *)
Definition items (s : store) (self : t) : list pyval := deref s (_list self).

End shared.

(** * Properties *)

Ltac solve_wf :=
  unfold IPv4Obj.wf, IPv6Obj.wf; vm_compute;
  repeat split; solve [discriminate | reflexivity].

(** ** Addresses *)

Section AddressFacts.

Lemma land_low_bits (a n : Z) : 0 <= n -> Z.land a (2 ^ n - 1) = a mod 2 ^ n.
Proof.
  intros Hn. rewrite <- Z.land_ones by assumption.
  f_equal. rewrite Z.ones_equiv. lia.
Qed.

Lemma dotted_sum (a : Z) :
  0 <= a <= 4294967295 ->
  sum_enumerate 256 0 (rev (IPv4Obj.dotted a)) = a.
Proof.
  intros Ha. unfold IPv4Obj.dotted. cbn [rev app sum_enumerate].
  change 255 with (2 ^ 8 - 1).
  rewrite !land_low_bits, !Z.shiftr_div_pow2 by lia.
  change (0 + 1) with 1. change (1 + 1) with 2. change (2 + 1) with 3.
  change (2 ^ 8) with 256. change (2 ^ 16) with 65536.
  change (2 ^ 24) with 16777216.
  change (256 ^ 0) with 1. change (256 ^ 1) with 256.
  change (256 ^ 2) with 65536. change (256 ^ 3) with 16777216.
  Z.div_mod_to_equations. lia.
Qed.

Lemma land_le (a m : Z) : 0 <= a -> 0 <= Z.land a m <= a.
Proof.
  intros Ha.
  assert (H0 : 0 <= Z.land a m) by (apply Z.land_nonneg; left; lia).
  assert (H1 : 0 <= Z.ldiff a m) by (apply Z.ldiff_nonneg; left; lia).
  pose proof (Z.add_lor_land (Z.land a m) (Z.ldiff a m)) as Hadd.
  assert (Hor : Z.lor (Z.land a m) (Z.ldiff a m) = a).
  { apply Z.bits_inj'. intros n _.
    rewrite Z.lor_spec, Z.land_spec, Z.ldiff_spec.
    destruct (Z.testbit a n), (Z.testbit m n); reflexivity. }
  assert (Hand : Z.land (Z.land a m) (Z.ldiff a m) = 0).
  { apply Z.bits_inj'. intros n _.
    rewrite !Z.land_spec, Z.ldiff_spec, Z.bits_0.
    destruct (Z.testbit a n), (Z.testbit m n); reflexivity. }
  lia.
Qed.

Lemma IPv4Obj_as_decimal (x : IPv4Obj.t) :
  IPv4Obj.wf x -> IPv4Obj.as_decimal x = IPv4Obj.ip_object x.
Proof.
  intros (Hip & _ & _). unfold IPv4Obj.as_decimal, IPv4Obj.ip.
  now apply dotted_sum.
Qed.

Lemma IPv4Obj_as_decimal_network (x : IPv4Obj.t) :
  IPv4Obj.wf x ->
  IPv4Obj.as_decimal_network x
  = Z.land (IPv4Obj.ip_object x) (ipaddress.netmask 32 (IPv4Obj.prefixlen x)).
Proof.
  intros (Hip & _ & Hnet).
  unfold IPv4Obj.as_decimal_network, IPv4Obj.network. rewrite Hnet.
  apply dotted_sum.
  pose proof (land_le (IPv4Obj.ip_object x)
                (ipaddress.netmask 32 (IPv4Obj.prefixlen x))). lia.
Qed.

Lemma Network_of_ok (bits addr plen : Z) :
  0 <= plen <= bits ->
  ipaddress.Network_of bits addr plen false
  = Ok (ipaddress.mk_Network (Z.land addr (ipaddress.netmask bits plen)) plen).
Proof.
  intros H. unfold ipaddress.Network_of.
  destruct (Z.ltb_spec plen 0); [lia|].
  destruct (Z.ltb_spec bits plen); [lia|]. reflexivity.
Qed.

Lemma IPv4Obj_of_int_ok (n : Z) :
  0 <= n <= 4294967295 ->
  IPv4Obj.of_int n
  = Ok (IPv4Obj.mk n (ipaddress.mk_Network
                        (Z.land n (ipaddress.netmask 32 32)) 32)).
Proof.
  intros H. unfold IPv4Obj.of_int, ipaddress.Address.
  change (ipaddress.ALL_ONES 32) with 4294967295.
  destruct (Z.ltb_spec n 0); [lia|].
  destruct (Z.ltb_spec 4294967295 n); [lia|]. cbn [orb bind].
  rewrite Network_of_ok by lia. reflexivity.
Qed.

Lemma IPv4Obj_set_prefixlen_wf (x : IPv4Obj.t) (plen : Z) :
  0 <= IPv4Obj.ip_object x <= 4294967295 -> 0 <= plen <= 32 ->
  exists y, IPv4Obj.set_prefixlen x plen = Ok y /\ IPv4Obj.wf y /\
            IPv4Obj.ip_object y = IPv4Obj.ip_object x /\
            IPv4Obj.prefixlen y = plen.
Proof.
  intros Hip Hp. unfold IPv4Obj.set_prefixlen.
  rewrite Network_of_ok by assumption. cbn [bind].
  eexists; split; [reflexivity|].
  unfold IPv4Obj.wf, IPv4Obj.prefixlen.
  cbn [IPv4Obj.ip_object IPv4Obj.network_object
       ipaddress.prefixlen ipaddress.network_address].
  repeat split; lia.
Qed.

Lemma IPv4Obj_wf_eq (x y : IPv4Obj.t) :
  IPv4Obj.wf x -> IPv4Obj.wf y ->
  IPv4Obj.ip_object x = IPv4Obj.ip_object y ->
  IPv4Obj.prefixlen x = IPv4Obj.prefixlen y -> x = y.
Proof.
  destruct x as [ipx [nx px]], y as [ipy [ny py]].
  unfold IPv4Obj.wf, IPv4Obj.prefixlen.
  cbn [IPv4Obj.ip_object IPv4Obj.network_object
       ipaddress.prefixlen ipaddress.network_address].
  intros (_ & _ & Hx) (_ & _ & Hy) -> ->. now subst.
Qed.

End AddressFacts.

Section ComparisonFacts.

Lemma ltb3_lex (n1 p1 d1 n2 p2 d2 : Z) :
  ltb3 n1 p1 d1 n2 p2 d2 = true <-> lex_lt (n1, p1, d1) (n2, p2, d2).
Proof.
  unfold ltb3, lex_lt.
  destruct (Z.eqb_spec n1 n2), (Z.eqb_spec p1 p2); cbn [andb];
    rewrite Z.ltb_lt; lia.
Qed.

Lemma IPv4Obj_lt_attrs (a : IPv4Obj.t) (p n d : Z) (nh np : option Z) :
  IPv4Obj.__lt__ a (mk_pyattrs (Some p) (Some n) (Some d) nh np)
  = Ok (ltb3 (IPv4Obj.as_decimal_network a) (IPv4Obj.prefixlen a)
             (IPv4Obj.as_decimal a) n p d).
Proof.
  unfold IPv4Obj.__lt__, ltb3.
  cbn [attr_prefixlen attr_as_decimal_network attr_as_decimal getattr bind].
  destruct (_ && _); [reflexivity|]. destruct (_ =? _); reflexivity.
Qed.

Lemma IPv4Obj_gt_attrs (a : IPv4Obj.t) (p n d : Z) (nh np : option Z) :
  IPv4Obj.__gt__ a (mk_pyattrs (Some p) (Some n) (Some d) nh np)
  = Ok (ltb3 n p d (IPv4Obj.as_decimal_network a) (IPv4Obj.prefixlen a)
             (IPv4Obj.as_decimal a)).
Proof.
  unfold IPv4Obj.__gt__, ltb3.
  cbn [attr_prefixlen attr_as_decimal_network attr_as_decimal getattr bind].
  rewrite !Z.gtb_ltb, (Z.eqb_sym n), (Z.eqb_sym p).
  destruct (_ && _); [reflexivity|]. destruct (_ =? _); reflexivity.
Qed.

Lemma IPv4Obj_eq_attrs (a : IPv4Obj.t) (p d : Z) (n nh np : option Z) :
  IPv4Obj.__eq__ a (mk_pyattrs (Some p) n (Some d) nh np)
  = Ok ((IPv4Obj.as_decimal a =? d) && (IPv4Obj.prefixlen a =? p)).
Proof.
  unfold IPv4Obj.__eq__.
  cbn [attr_prefixlen attr_as_decimal getattr bind].
  destruct (_ =? d); [|reflexivity]. cbn [bind andb].
  destruct (_ =? p); reflexivity.
Qed.

Lemma IPv4Obj_contains_attrs (a : IPv4Obj.t) (n nh np : Z) (p d : option Z) :
  IPv4Obj.__contains__ a (mk_pyattrs p (Some n) d (Some nh) (Some np))
  = Ok (if IPv4Obj.prefixlen a =? 0 then true
        else if IPv4Obj.prefixlen a >? np then false
        else (IPv4Obj.as_decimal_network a <=? n)
             && (IPv4Obj.as_decimal_network a + IPv4Obj.numhosts a - 1
                 >=? n + nh - 1)).
Proof.
  unfold IPv4Obj.__contains__, IPv4Obj.prefixlen.
  cbn [attr_network_object_prefixlen attr_as_decimal_network attr_numhosts
       getattr bind].
  destruct (_ =? 0); [reflexivity|]. destruct (_ >? np); [reflexivity|].
  destruct (_ <=? n); reflexivity.
Qed.



Lemma IPv6Obj_eq_attrs (a : IPv6Obj.t) (p d : Z) (n nh np : option Z) :
  IPv6Obj.__eq__ a (mk_pyattrs (Some p) n (Some d) nh np)
  = Ok ((IPv6Obj.as_decimal a =? d) && (IPv6Obj.prefixlen a =? p)).
Proof.
  unfold IPv6Obj.__eq__.
  cbn [attr_prefixlen attr_as_decimal getattr bind].
  destruct (_ =? d); [|reflexivity]. cbn [bind andb].
  destruct (_ =? p); reflexivity.
Qed.


(** C1. The comparison operators of [IPv4Obj] form a strict total order
    that agrees with [==]: on any two objects exactly one of [a < b],
    [a == b], [a > b] is true, [<] is transitive, [a == b] holds exactly
    when network number, mask length and host address are equal, and [<]
    compares the network number first, then the mask length (the shorter
    mask is lower), then the host address. *)
Theorem IPv4Obj_strict_total_order (a b c : IPv4Obj.t) :
  IPv4Obj.wf a -> IPv4Obj.wf b -> IPv4Obj.wf c ->
  (exists lt eq gt,
      IPv4Obj.__lt__ a (IPv4Obj.view b) = Ok lt /\
      IPv4Obj.__eq__ a (IPv4Obj.view b) = Ok eq /\
      IPv4Obj.__gt__ a (IPv4Obj.view b) = Ok gt /\
      exactly_one lt eq gt) /\
  (IPv4Obj.__lt__ a (IPv4Obj.view b) = Ok true ->
   IPv4Obj.__lt__ b (IPv4Obj.view c) = Ok true ->
   IPv4Obj.__lt__ a (IPv4Obj.view c) = Ok true) /\
  (IPv4Obj.__eq__ a (IPv4Obj.view b) = Ok true <->
   IPv4Obj.as_decimal_network a = IPv4Obj.as_decimal_network b /\
   IPv4Obj.prefixlen a = IPv4Obj.prefixlen b /\
   IPv4Obj.as_decimal a = IPv4Obj.as_decimal b) /\
  (IPv4Obj.__lt__ a (IPv4Obj.view b) = Ok true <-> lex_lt (key4 a) (key4 b)) /\
  (IPv4Obj.__gt__ a (IPv4Obj.view b) = Ok true <-> lex_lt (key4 b) (key4 a)).
Proof.
  intros Ha Hb Hc. unfold IPv4Obj.view.
  rewrite !IPv4Obj_lt_attrs, !IPv4Obj_gt_attrs, !IPv4Obj_eq_attrs.
  assert (Hnet : IPv4Obj.as_decimal a = IPv4Obj.as_decimal b ->
                 IPv4Obj.prefixlen a = IPv4Obj.prefixlen b ->
                 IPv4Obj.as_decimal_network a = IPv4Obj.as_decimal_network b).
  { intros Hd Hp. rewrite !IPv4Obj_as_decimal_network by assumption.
    rewrite !IPv4Obj_as_decimal in Hd by assumption. now rewrite Hd, Hp. }
  unfold key4.
  set (na := IPv4Obj.as_decimal_network a) in *.
  set (nb := IPv4Obj.as_decimal_network b) in *.
  set (nc := IPv4Obj.as_decimal_network c).
  set (pa := IPv4Obj.prefixlen a) in *. set (pb := IPv4Obj.prefixlen b) in *.
  set (pc := IPv4Obj.prefixlen c).
  set (da := IPv4Obj.as_decimal a) in *. set (db := IPv4Obj.as_decimal b) in *.
  set (dc := IPv4Obj.as_decimal c).
  assert (Hinj : forall x y : bool, Ok x = Ok y <-> x = y).
  { intros x y; split; [intros [= ->]|intros ->]; reflexivity. }
  rewrite !Hinj, !ltb3_lex.
  split; [|split; [|split; [|split]]].
  - do 3 eexists. repeat split. unfold exactly_one.
    destruct (ltb3 na pa da nb pb db) eqn:E1;
      [apply ltb3_lex in E1 | apply not_true_iff_false in E1;
                              rewrite ltb3_lex in E1];
      (destruct (ltb3 nb pb db na pa da) eqn:E2;
       [apply ltb3_lex in E2 | apply not_true_iff_false in E2;
                               rewrite ltb3_lex in E2]);
      unfold lex_lt in *;
      destruct (Z.eqb_spec da db), (Z.eqb_spec pa pb); cbn [andb];
      try (specialize (Hnet ltac:(assumption) ltac:(assumption))); lia.
  - unfold lex_lt. lia.
  - rewrite andb_true_iff, !Z.eqb_eq. split.
    + intros [H1 H2]. auto.
    + tauto.
  - reflexivity.
  - reflexivity.
Qed.

End ComparisonFacts.

Lemma IPv4Obj_strict_total_order_witness :
  let a := net_2_0_0_0_7 in
  let b := net_4_0_0_0_8 in
  let c := net_4_0_0_0_16 in
  IPv4Obj.wf a /\ IPv4Obj.wf b /\ IPv4Obj.wf c /\
  (IPv4Obj.__lt__ a (IPv4Obj.view b) = Ok true ->
   IPv4Obj.__lt__ b (IPv4Obj.view c) = Ok true ->
   IPv4Obj.__lt__ a (IPv4Obj.view c) = Ok true) /\
  (IPv4Obj.__gt__ c (IPv4Obj.view b) = Ok true <-> lex_lt (key4 b) (key4 c)) /\
  IPv4Obj.__gt__ c (IPv4Obj.view b) = Ok true /\
  IPv4Obj.__gt__ b (IPv4Obj.view a) = Ok true.
Proof.
  intros a b c.
  assert (Ha : IPv4Obj.wf a) by solve_wf.
  assert (Hb : IPv4Obj.wf b) by solve_wf.
  assert (Hc : IPv4Obj.wf c) by solve_wf.
  pose proof (IPv4Obj_strict_total_order a b c Ha Hb Hc) as (_ & Htrans & _).
  pose proof (IPv4Obj_strict_total_order c b a Hc Hb Ha)
    as (_ & _ & _ & _ & Hcb).
  pose proof (IPv4Obj_strict_total_order b a c Hb Ha Hc)
    as (_ & _ & _ & _ & Hba).
  split; [exact Ha|]. split; [exact Hb|]. split; [exact Hc|].
  split; [exact Htrans|]. split; [exact Hcb|]. split.
  - apply Hcb. vm_compute. right. split; [reflexivity|]. left. reflexivity.
  - apply Hba. vm_compute. left. reflexivity.
Defined.

(** C2. [other in self]: true at once when [self] has mask length 0, false
    at once when the mask of [self] is longer than the mask of [other], and
    otherwise true exactly when the span of [self], taken from its network
    number (the address with the host bits cleared), encloses the span of
    [other]. *)
Theorem IPv4Obj_contains_by_span (self other : IPv4Obj.t) :
  IPv4Obj.wf self -> IPv4Obj.wf other ->
  (IPv4Obj.prefixlen self = 0 ->
   IPv4Obj.__contains__ self (IPv4Obj.view other) = Ok true) /\
  (IPv4Obj.prefixlen self > IPv4Obj.prefixlen other ->
   IPv4Obj.__contains__ self (IPv4Obj.view other) = Ok false) /\
  (IPv4Obj.prefixlen self <> 0 ->
   IPv4Obj.prefixlen self <= IPv4Obj.prefixlen other ->
   exists answer,
     IPv4Obj.__contains__ self (IPv4Obj.view other) = Ok answer /\
     (answer = true <->
      IPv4Obj.as_decimal_network self <= IPv4Obj.as_decimal_network other /\
      IPv4Obj.as_decimal_network self + IPv4Obj.numhosts self - 1
      >= IPv4Obj.as_decimal_network other + IPv4Obj.numhosts other - 1)) /\
  IPv4Obj.as_decimal_network self
  = Z.land (IPv4Obj.as_decimal self)
           (ipaddress.netmask 32 (IPv4Obj.prefixlen self)) /\
  IPv4Obj.numhosts self = 2 ^ (32 - IPv4Obj.prefixlen self).
Proof.
  intros Hs Ho. unfold IPv4Obj.view. rewrite IPv4Obj_contains_attrs.
  fold (IPv4Obj.prefixlen other).
  split; [|split; [|split; [|split]]].
  - intros ->. reflexivity.
  - intros Hgt. destruct Ho as (_ & Hpo & _).
    destruct (Z.eqb_spec (IPv4Obj.prefixlen self) 0); [lia|].
    rewrite Z.gtb_ltb. destruct (Z.ltb_spec (IPv4Obj.prefixlen other)
                                            (IPv4Obj.prefixlen self)); [|lia].
    reflexivity.
  - intros Hnz Hle. eexists. split; [reflexivity|].
    destruct (Z.eqb_spec (IPv4Obj.prefixlen self) 0); [lia|].
    rewrite Z.gtb_ltb. destruct (Z.ltb_spec (IPv4Obj.prefixlen other)
                                            (IPv4Obj.prefixlen self)); [lia|].
    rewrite andb_true_iff, Z.leb_le, Z.geb_le. lia.
  - rewrite IPv4Obj_as_decimal_network, IPv4Obj_as_decimal by assumption.
    reflexivity.
  - reflexivity.
Qed.

Lemma IPv4Obj_contains_by_span_witness :
  IPv4Obj.wf net_4_0_0_0_16 /\ IPv4Obj.wf net_4_0_0_0_24 /\
  IPv4Obj.wf addr_4_0_1_1 /\
  IPv4Obj.__contains__ net_4_0_0_0_16 (IPv4Obj.view addr_4_0_1_1) = Ok true /\
  IPv4Obj.__contains__ net_4_0_0_0_24 (IPv4Obj.view addr_4_0_1_1) = Ok false /\
  IPv4Obj.__contains__ addr_4_0_1_1 (IPv4Obj.view net_4_0_0_0_16) = Ok false.
Proof.
  assert (H16 : IPv4Obj.wf net_4_0_0_0_16) by solve_wf.
  assert (H24 : IPv4Obj.wf net_4_0_0_0_24) by solve_wf.
  assert (H32 : IPv4Obj.wf addr_4_0_1_1) by solve_wf.
  split; [exact H16|]. split; [exact H24|]. split; [exact H32|].
  split; [|split].
  - destruct (IPv4Obj_contains_by_span net_4_0_0_0_16 addr_4_0_1_1 H16 H32)
      as (_ & _ & Hspan & _).
    destruct Hspan as (answer & -> & Hiff); [discriminate | discriminate |].
    f_equal. apply Hiff. vm_compute. split; discriminate.
  - destruct (IPv4Obj_contains_by_span net_4_0_0_0_24 addr_4_0_1_1 H24 H32)
      as (_ & _ & Hspan & _).
    destruct Hspan as (answer & -> & Hiff); [discriminate | discriminate |].
    f_equal. apply not_true_iff_false. rewrite Hiff. vm_compute.
    intros [_ H]. apply H. reflexivity.
  - apply (IPv4Obj_contains_by_span addr_4_0_1_1 net_4_0_0_0_16 H32 H16).
    reflexivity.
Defined.

Lemma assert_true (cond : bool) (msg : string) :
  cond = true -> assert cond msg = Ok tt.
Proof. intros ->. reflexivity. Qed.

(** C5. Adding then subtracting an integer gives back the address, and both
    results keep the mask length, whenever the sum stays within
    [0, 4294967295]; outside that range, or the IPv6 range, the operation
    raises (the assertion error that stands for the range error) and
    neither wraps nor clamps. *)
Theorem address_arithmetic_round_trip
        (addr : IPv4Obj.t) (addr6 : IPv6Obj.t) (n : Z) :
  IPv4Obj.wf addr ->
  (0 <= IPv4Obj.as_decimal addr + n <= 4294967295 ->
   exists sum back,
     IPv4Obj.__add__ addr n = Ok sum /\
     IPv4Obj.__sub__ sum n = Ok back /\
     IPv4Obj.__eq__ back (IPv4Obj.view addr) = Ok true /\
     back = addr /\
     IPv4Obj.as_decimal sum = IPv4Obj.as_decimal addr + n /\
     IPv4Obj.prefixlen sum = IPv4Obj.prefixlen addr /\
     IPv4Obj.prefixlen back = IPv4Obj.prefixlen addr) /\
  (4294967295 < IPv4Obj.as_decimal addr + n ->
   IPv4Obj.__add__ addr n = Raise (AssertionError "Max IPv4 integer exceeded")) /\
  (IPv4Obj.as_decimal addr + n < 0 ->
   IPv4Obj.__add__ addr n = Raise (AssertionError "Min IPv4 integer exceeded")) /\
  (4294967295 < IPv4Obj.as_decimal addr - n ->
   IPv4Obj.__sub__ addr n = Raise (AssertionError "Max IPv4 integer exceeded")) /\
  (IPv4Obj.as_decimal addr - n < 0 ->
   IPv4Obj.__sub__ addr n = Raise (AssertionError "Min IPv4 integer exceeded")) /\
  (340282366920938463463374607431768211455 < IPv6Obj.as_decimal addr6 + n ->
   IPv6Obj.__add__ addr6 n = Raise (AssertionError "Max IPv6 integer exceeded")) /\
  (IPv6Obj.as_decimal addr6 + n < 0 ->
   IPv6Obj.__add__ addr6 n = Raise (AssertionError "Min IPv6 integer exceeded")) /\
  (340282366920938463463374607431768211455 < IPv6Obj.as_decimal addr6 - n ->
   IPv6Obj.__sub__ addr6 n = Raise (AssertionError "Max IPv6 integer exceeded")) /\
  (IPv6Obj.as_decimal addr6 - n < 0 ->
   IPv6Obj.__sub__ addr6 n = Raise (AssertionError "Min IPv6 integer exceeded")).
Proof.
  intros Hwf.
  assert (Hadd : forall x k,
             IPv4Obj.wf x -> 0 <= IPv4Obj.as_decimal x + k <= 4294967295 ->
             exists y, IPv4Obj.__add__ x k = Ok y /\ IPv4Obj.wf y /\
                       IPv4Obj.ip_object y = IPv4Obj.as_decimal x + k /\
                       IPv4Obj.prefixlen y = IPv4Obj.prefixlen x).
  { intros x k Hx Hr. unfold IPv4Obj.__add__.
    rewrite !assert_true by (apply Z.leb_le || apply Z.geb_le; lia).
    cbn [bind]. rewrite IPv4Obj_of_int_ok by lia. cbn [bind].
    destruct Hx as (_ & Hp & _).
    destruct (IPv4Obj_set_prefixlen_wf
                (IPv4Obj.mk (IPv4Obj.as_decimal x + k)
                   (ipaddress.mk_Network
                      (Z.land (IPv4Obj.as_decimal x + k)
                              (ipaddress.netmask 32 32)) 32))
                (IPv4Obj.prefixlen x)) as (y & Hy & Hwy & Hip & Hpl);
      [exact Hr | exact Hp |].
    exists y. auto. }
  assert (Hsub : forall x k,
             IPv4Obj.wf x -> 0 <= IPv4Obj.as_decimal x - k <= 4294967295 ->
             exists y, IPv4Obj.__sub__ x k = Ok y /\ IPv4Obj.wf y /\
                       IPv4Obj.ip_object y = IPv4Obj.as_decimal x - k /\
                       IPv4Obj.prefixlen y = IPv4Obj.prefixlen x).
  { intros x k Hx Hr. unfold IPv4Obj.__sub__.
    rewrite !assert_true by (apply Z.leb_le || apply Z.geb_le; lia).
    cbn [bind]. rewrite IPv4Obj_of_int_ok by lia. cbn [bind].
    destruct Hx as (_ & Hp & _).
    destruct (IPv4Obj_set_prefixlen_wf
                (IPv4Obj.mk (IPv4Obj.as_decimal x - k)
                   (ipaddress.mk_Network
                      (Z.land (IPv4Obj.as_decimal x - k)
                              (ipaddress.netmask 32 32)) 32))
                (IPv4Obj.prefixlen x)) as (y & Hy & Hwy & Hip & Hpl);
      [exact Hr | exact Hp |].
    exists y. auto. }
  split; [|repeat split].
  - intros Hr.
    destruct (Hadd addr n Hwf Hr) as (sum & Hs & Hws & Hips & Hps).
    assert (Hds : IPv4Obj.as_decimal sum = IPv4Obj.as_decimal addr + n)
      by (rewrite IPv4Obj_as_decimal by assumption; exact Hips).
    assert (Hd : 0 <= IPv4Obj.as_decimal addr <= 4294967295)
      by (rewrite IPv4Obj_as_decimal by assumption; apply Hwf).
    destruct (Hsub sum n Hws) as (back & Hb & Hwb & Hipb & Hpb); [lia|].
    assert (Heq : back = addr).
    { apply IPv4Obj_wf_eq; try assumption.
      - rewrite Hipb, Hds, <- (IPv4Obj_as_decimal addr) by assumption. lia.
      - congruence. }
    exists sum, back. repeat split; try assumption; try congruence.
    rewrite Heq. unfold IPv4Obj.view. rewrite IPv4Obj_eq_attrs.
    now rewrite !Z.eqb_refl.
  - intros H. unfold IPv4Obj.__add__.
    destruct (Z.leb_spec (IPv4Obj.as_decimal addr + n) 4294967295); [lia|].
    reflexivity.
  - intros H. unfold IPv4Obj.__add__.
    destruct (Z.leb_spec (IPv4Obj.as_decimal addr + n) 4294967295); [|lia].
    rewrite Z.geb_leb.
    destruct (Z.leb_spec 0 (IPv4Obj.as_decimal addr + n)); [lia|]. reflexivity.
  - intros H. unfold IPv4Obj.__sub__.
    destruct (Z.leb_spec (IPv4Obj.as_decimal addr - n) 4294967295); [lia|].
    reflexivity.
  - intros H. unfold IPv4Obj.__sub__.
    destruct (Z.leb_spec (IPv4Obj.as_decimal addr - n) 4294967295); [|lia].
    rewrite Z.geb_leb.
    destruct (Z.leb_spec 0 (IPv4Obj.as_decimal addr - n)); [lia|]. reflexivity.
  - intros H. unfold IPv6Obj.__add__.
    destruct (Z.leb_spec (IPv6Obj.as_decimal addr6 + n)
                340282366920938463463374607431768211455); [lia|].
    reflexivity.
  - intros H. unfold IPv6Obj.__add__.
    destruct (Z.leb_spec (IPv6Obj.as_decimal addr6 + n)
                340282366920938463463374607431768211455); [|lia].
    rewrite Z.geb_leb.
    destruct (Z.leb_spec 0 (IPv6Obj.as_decimal addr6 + n)); [lia|]. reflexivity.
  - intros H. unfold IPv6Obj.__sub__.
    destruct (Z.leb_spec (IPv6Obj.as_decimal addr6 - n)
                340282366920938463463374607431768211455); [lia|].
    reflexivity.
  - intros H. unfold IPv6Obj.__sub__.
    destruct (Z.leb_spec (IPv6Obj.as_decimal addr6 - n)
                340282366920938463463374607431768211455); [|lia].
    rewrite Z.geb_leb.
    destruct (Z.leb_spec 0 (IPv6Obj.as_decimal addr6 - n)); [lia|]. reflexivity.
Qed.

Lemma address_arithmetic_round_trip_witness :
  IPv4Obj.wf host_10_1_1_77_24 /\
  0 <= IPv4Obj.as_decimal host_10_1_1_77_24 + 200 <= 4294967295 /\
  (exists sum back,
      IPv4Obj.__add__ host_10_1_1_77_24 200 = Ok sum /\
      IPv4Obj.__sub__ sum 200 = Ok back /\
      IPv4Obj.__eq__ back (IPv4Obj.view host_10_1_1_77_24) = Ok true /\
      back = host_10_1_1_77_24 /\
      IPv4Obj.as_decimal sum = IPv4Obj.as_decimal host_10_1_1_77_24 + 200 /\
      IPv4Obj.prefixlen sum = IPv4Obj.prefixlen host_10_1_1_77_24 /\
      IPv4Obj.prefixlen back = IPv4Obj.prefixlen host_10_1_1_77_24) /\
  IPv4Obj.wf addr_255_255_255_255 /\
  IPv4Obj.__add__ addr_255_255_255_255 1
  = Raise (AssertionError "Max IPv4 integer exceeded").
Proof.
  assert (Hh : IPv4Obj.wf host_10_1_1_77_24) by solve_wf.
  assert (Hm : IPv4Obj.wf addr_255_255_255_255) by solve_wf.
  assert (Hr : 0 <= IPv4Obj.as_decimal host_10_1_1_77_24 + 200 <= 4294967295)
    by (vm_compute; split; discriminate).
  split; [exact Hh|]. split; [exact Hr|]. split; [|split; [exact Hm|]].
  - apply (address_arithmetic_round_trip
             host_10_1_1_77_24 addr6_loopback 200 Hh). exact Hr.
  - apply (address_arithmetic_round_trip
             addr_255_255_255_255 addr6_loopback 1 Hm). reflexivity.
Defined.



(** C8. [broadcast] of an [IPv6Obj] raises for every object, whatever its
    address and mask length ([NotImplementedError], the exception that
    stands for an unsupported operation); an [IPv4Obj] answers the
    broadcast address of its network. *)
Theorem IPv6Obj_broadcast_unsupported (x : IPv6Obj.t) (y : IPv4Obj.t) :
  IPv6Obj.broadcast x
  = Raise (NotImplementedError "IPv6 does not have broadcasts") /\
  IPv4Obj.broadcast y
  = Ok (Z.lor (ipaddress.network_address (IPv4Obj.network_object y))
              (ipaddress.hostmask 32 (IPv4Obj.prefixlen y))).
Proof. split; reflexivity. Qed.

(** ** Ranges: item assignment and removal *)

Lemma with_list_same (self : CiscoRange.t) :
  CiscoRange.with_list self (CiscoRange._list self) = self.
Proof. destruct self; reflexivity. Qed.

Lemma list_getitem_valid {A : Type} (l : list A) (ii : Z) :
  valid_index l ii -> exists v, list_getitem l ii = Ok v.
Proof.
  unfold valid_index, list_getitem, len. intros H.
  set (pos := if ii <? 0 then _ else _).
  assert (Hpos : 0 <= pos < Z.of_nat (List.length l)).
  { subst pos. destruct (Z.ltb_spec ii 0); lia. }
  destruct (Z.ltb_spec pos 0); [lia|].
  destruct (Z.leb_spec (Z.of_nat (List.length l)) pos); [lia|]. cbn [orb].
  destruct (nth_error l (Z.to_nat pos)) eqn:E; [eauto|].
  apply nth_error_None in E. lia.
Qed.

Lemma list_getitem_invalid {A : Type} (l : list A) (ii : Z) :
  ~ valid_index l ii -> list_getitem l ii = Raise IndexError.
Proof.
  unfold valid_index, list_getitem, len. intros H.
  set (pos := if ii <? 0 then _ else _).
  assert (Hpos : pos < 0 \/ Z.of_nat (List.length l) <= pos).
  { subst pos. destruct (Z.ltb_spec ii 0); lia. }
  destruct (Z.ltb_spec pos 0); [reflexivity|].
  destruct (Z.leb_spec (Z.of_nat (List.length l)) pos); [reflexivity|]. lia.
Qed.


Section RemoveFacts.

Lemma int_of_str_raises (s : string) (e : exn) :
  int_of_str s = Raise e -> e = ValueError.
Proof.
  unfold int_of_str. destruct (match rstrip _ _ with EmptyString => _ | _ => _ end);
    [discriminate|]. now intros [= <-].
Qed.

Lemma call_type_raises (rt : pytype) (v : pyval) (e : exn) :
  call_type rt v = Raise e -> e = ValueError.
Proof.
  destruct rt, v; cbn; try discriminate.
  destruct (int_of_str s) eqn:E; cbn; [discriminate|].
  intros [= <-]. eapply int_of_str_raises; eassumption.
Qed.

Lemma first_index_raises (value : pyval) (l : list pyval) (i : Z) (e : exn) :
  CiscoRange.first_index value l i = Raise e ->
  e = ValueError /\ filter (fun v => negb (pyval_eqb v value)) l = l.
Proof.
  revert i. induction l as [|v l IH]; intros i; cbn.
  - intros [= <-]. auto.
  - destruct (pyval_eqb v value); [discriminate|]. cbn.
    intros H. destruct (IH _ H) as [-> ->]. auto.
Qed.

Lemma first_index_found (value : pyval) (l : list pyval) (i idx : Z) :
  CiscoRange.first_index value l i = Ok idx ->
  exists pre v post,
    l = pre ++ v :: post /\ pyval_eqb v value = true /\
    filter (fun x => negb (pyval_eqb x value)) pre = pre /\
    idx = i + len pre.
Proof.
  revert i. induction l as [|v l IH]; intros i; cbn; [discriminate|].
  destruct (pyval_eqb v value) eqn:E.
  - intros [= <-]. exists [], v, l. cbn. repeat split; auto. unfold len; cbn; lia.
  - intros H. destruct (IH _ H) as (pre & w & post & -> & Hw & Hpre & ->).
    exists (v :: pre), w, post. cbn. rewrite E, Hpre. cbn.
    repeat split; auto. unfold len; cbn [List.length]. lia.
Qed.

Lemma pop_at (self : CiscoRange.t) (pre post : list pyval) (v : pyval) :
  CiscoRange._list self = pre ++ v :: post ->
  CiscoRange.pop self (len pre)
  = Ok (CiscoRange.with_list self (pre ++ post), v).
Proof.
  intros Hl.
  unfold CiscoRange.pop, CiscoRange.__getitem__, CiscoRange.__delitem__,
    list_getitem, list_delitem, len.
  rewrite Hl, length_app. cbn [List.length].
  destruct (Z.ltb_spec (Z.of_nat (List.length pre)) 0); [lia|].
  destruct (Z.ltb_spec (Z.of_nat (List.length pre)) 0); [lia|].
  destruct (Z.leb_spec (Z.of_nat (List.length pre + S (List.length post)))
                       (Z.of_nat (List.length pre))); [lia|].
  cbn [orb]. rewrite Nat2Z.id.
  rewrite nth_error_app2, Nat.sub_diag by lia. cbn [nth_error bind].
  rewrite firstn_app, firstn_all, Nat.sub_diag. cbn [firstn].
  rewrite app_nil_r.
  replace (S (List.length pre)) with (List.length pre + 1)%nat by lia.
  rewrite skipn_app, skipn_all2 by lia.
  replace (List.length pre + 1 - List.length pre)%nat with 1%nat by lia.
  reflexivity.
Qed.

Lemma filter_true {A : Type} (f : A -> bool) (l : list A) :
  (forall x, In x l -> f x = true) -> filter f l = l.
Proof.
  induction l as [|x l IH]; cbn; intros H; [reflexivity|].
  rewrite (H x) by auto. f_equal. apply IH. auto.
Qed.

(** The loop stops with [ValueError], once every item that equals
    [self.result_type(ii)] has been popped. *)
Lemma while_True_pop_filters (self : CiscoRange.t) (ii : pyval) :
  CiscoRange.while_True_pop self ii
  = (CiscoRange.with_list self
       (filter (fun v => negb (item_matches (CiscoRange.result_type self) ii v))
               (CiscoRange._list self)),
     ValueError).
Proof.
  funelim (CiscoRange.while_True_pop self ii).
  - (* result_type(ii) raises *)
    apply call_type_raises in Heq as Hv. subst e.
    rewrite filter_true, with_list_same; [reflexivity|].
    intros v _. unfold item_matches. now rewrite Heq.
  - (* index raises *)
    apply first_index_raises in Heq as [-> Hf].
    unfold item_matches. rewrite Heq0.
    unfold CiscoRange.index in *. rewrite Hf, with_list_same. reflexivity.
  - (* one item popped *)
    unfold CiscoRange.index in Heq.
    apply first_index_found in Heq as (pre & w & post & Hl & Hw & Hpre & ->).
    clear H0. change (0 + len pre) with (len pre) in popped.
    rewrite (pop_at self pre post w Hl) in popped.
    injection popped as <- <-.
    assert (Hm : item_matches (CiscoRange.result_type self) ii w = true)
      by (unfold item_matches; rewrite Heq0; exact Hw).
    rewrite H. f_equal. rewrite Hl.
    unfold CiscoRange.with_list;
      cbn [CiscoRange._list CiscoRange.result_type CiscoRange.text
           CiscoRange.line_prefix CiscoRange.slot_prefix CiscoRange.range_text].
    f_equal. rewrite !filter_app. cbn [filter]. rewrite Hm. reflexivity.
  - (* pop cannot raise at the index found *)
    unfold CiscoRange.index in Heq.
    apply first_index_found in Heq as (pre & w & post & Hl & Hw & Hpre & ->).
    match goal with
    | Hp : CiscoRange.pop self _ = Raise _ |- _ =>
        pose proof Hp as Hraise;
        change (0 + len pre) with (len pre) in Hraise;
        rewrite (pop_at self pre post w Hl) in Hraise; discriminate Hraise
    end.
Qed.

Lemma remove_item_filters (self : CiscoRange.t) (ii : pyval) :
  CiscoRange.remove_item self ii
  = Ok (CiscoRange.with_list self
          (filter (fun v => negb (item_matches (CiscoRange.result_type self) ii v))
                  (CiscoRange._list self))).
Proof.
  unfold CiscoRange.remove_item. rewrite while_True_pop_filters. reflexivity.
Qed.

Lemma remove_items_filters (items : list pyval) (self : CiscoRange.t) :
  CiscoRange.remove_items self items
  = Ok (CiscoRange.with_list self
          (filter (fun v => negb (existsb
                     (fun ii => item_matches (CiscoRange.result_type self) ii v)
                     items))
                  (CiscoRange._list self))).
Proof.
  revert self. induction items as [|ii items IH]; intros self.
  - cbn. rewrite filter_true, with_list_same by auto. reflexivity.
  - cbn [CiscoRange.remove_items]. rewrite remove_item_filters. cbn [bind].
    rewrite IH. f_equal.
    unfold CiscoRange.with_list; cbn [CiscoRange._list CiscoRange.result_type
      CiscoRange.text CiscoRange.line_prefix CiscoRange.slot_prefix
      CiscoRange.range_text].
    f_equal. induction (CiscoRange._list self) as [|v l IHl]; [reflexivity|].
    cbn [filter existsb].
    destruct (item_matches (CiscoRange.result_type self) ii v); cbn [negb orb].
    + exact IHl.
    + cbn [filter]. destruct (existsb _ items); cbn [negb]; [exact IHl|].
      f_equal. exact IHl.
Qed.

End RemoveFacts.

Lemma map_result_type_str (l : list pyval) :
  map_result (call_type type_str) l = Ok (map (fun v => PyStr (str_of v)) l).
Proof.
  induction l as [|v l IH]; [reflexivity|].
  cbn [map_result map call_type bind]. rewrite IH. reflexivity.
Qed.

Lemma init_type_str_items (list_set : list Z -> list Z) (arg : string)
      (obj : CiscoRange.t) (ii : pyval) :
  CiscoRange.__init__ list_set arg type_str = Ok obj ->
  In ii (CiscoRange._list obj) -> exists s, ii = PyStr s.
Proof.
  unfold CiscoRange.__init__.
  destruct (negb (String.eqb arg EmptyString)).
  - destruct (CiscoRange._parse_range_text arg) as [[[lp sp] rt]|]; cbn [bind];
      [|discriminate].
    unfold CiscoRange._range.
    destruct (CiscoRange._parse_dash_range list_set rt); cbn [bind];
      [|discriminate].
    rewrite map_result_type_str. cbn [bind]. intros [= <-].
    cbn [CiscoRange._list]. rewrite in_map_iff. intros (v & <- & _). eauto.
  - intros [= <-]. intros [].
Qed.

Lemma pyval_eqb_eq (v w : pyval) : pyval_eqb v w = true <-> v = w.
Proof.
  destruct v, w; cbn; try (split; [discriminate | intros [=]]).
  - rewrite String.eqb_eq. split; [intros ->; reflexivity | now intros [= ->]].
  - rewrite Z.eqb_eq. split; [intros ->; reflexivity | now intros [= ->]].
Qed.

(** C9. [remove] expands its argument as a range of its own and takes out
    every occurrence of every expanded item; an expanded item that matches
    nothing changes nothing, and no error is raised for it: the call
    returns whenever the argument expands. *)
Theorem CiscoRange_remove_every_match
        (list_set : list Z -> list Z) (self remove_obj : CiscoRange.t)
        (arg : string) :
  CiscoRange.__init__ list_set arg type_str = Ok remove_obj ->
  let expanded := CiscoRange.__iter__ remove_obj in
  let taken v :=
    existsb (fun ii => item_matches (CiscoRange.result_type self) ii v)
            expanded in
  exists self',
    CiscoRange.remove list_set self arg = Ok self' /\
    self' = CiscoRange.with_list self
              (filter (fun v => negb (taken v)) (CiscoRange._list self)) /\
    (forall v, In v (CiscoRange._list self') <->
               In v (CiscoRange._list self) /\ taken v = false) /\
    ((forall v, In v (CiscoRange._list self) -> taken v = false) ->
     self' = self) /\
    (CiscoRange.result_type self = type_str ->
     forall v, taken v = true <-> In v expanded).
Proof.
  intros Hinit expanded taken. eexists.
  split; [|split; [reflexivity|split; [|split]]].
  - unfold CiscoRange.remove. rewrite Hinit. cbn [bind].
    apply remove_items_filters.
  - intros v. cbn [CiscoRange.with_list CiscoRange._list].
    rewrite filter_In, negb_true_iff. reflexivity.
  - intros Hnone. rewrite filter_true, with_list_same; [reflexivity|].
    intros v Hv. now rewrite Hnone.
  - intros Hstr v. subst taken. cbn beta. rewrite existsb_exists, Hstr.
    split.
    + intros (ii & Hin & Hm).
      destruct (init_type_str_items _ _ _ _ Hinit Hin) as [s ->].
      unfold item_matches in Hm. cbn [call_type str_of] in Hm.
      apply pyval_eqb_eq in Hm.
      now subst v.
    + intros Hin. exists v. split; [exact Hin|].
      destruct (init_type_str_items _ _ _ _ Hinit Hin) as [s ->].
      unfold item_matches. cbn [call_type str_of]. now apply pyval_eqb_eq.
Qed.

Lemma CiscoRange_remove_every_match_witness :
  CiscoRange.__init__ cpython_set.list_set "Eth2/2-3,9" type_str
  = Ok range_Eth2_2_3_9 /\
  CiscoRange.__init__ cpython_set.list_set "Eth2/9" type_str
  = Ok range_Eth2_9 /\
  CiscoRange.remove cpython_set.list_set range_Eth2_1_3_7 "Eth2/2-3,9"
  = Ok (CiscoRange.with_list range_Eth2_1_3_7 [PyStr "Eth2/1"; PyStr "Eth2/7"]) /\
  CiscoRange.remove cpython_set.list_set range_Eth2_1_3_7 "Eth2/9"
  = Ok range_Eth2_1_3_7.
Proof.
  assert (H1 : CiscoRange.__init__ cpython_set.list_set "Eth2/2-3,9" type_str
               = Ok range_Eth2_2_3_9) by (vm_compute; reflexivity).
  assert (H2 : CiscoRange.__init__ cpython_set.list_set "Eth2/9" type_str
               = Ok range_Eth2_9) by (vm_compute; reflexivity).
  split; [exact H1|]. split; [exact H2|]. split.
  - destruct (CiscoRange_remove_every_match
                cpython_set.list_set range_Eth2_1_3_7 range_Eth2_2_3_9
                "Eth2/2-3,9" H1) as (self' & -> & -> & _).
    vm_compute. reflexivity.
  - destruct (CiscoRange_remove_every_match
                cpython_set.list_set range_Eth2_1_3_7 range_Eth2_9
                "Eth2/9" H2) as (self' & -> & _ & _ & Hnone & _).
    f_equal. apply Hnone. intros v Hv. vm_compute in Hv.
    decompose [or] Hv; subst; try contradiction; vm_compute; reflexivity.
Defined.

(** ** Ranges: compression *)

Section CompressionFacts.

Lemma item_at (pre : list Z) (x : Z) (post : list Z) :
  item (pre ++ x :: post) (len pre) = x.
Proof. unfold item, len. rewrite Nat2Z.id. apply nth_middle. Qed.

Lemma fold_steps_tokens_from (l pre : list Z) (prev : Z) (acc : list token) :
  l <> [] ->
  fold_left (CiscoRange.range_list_step (pre ++ prev :: l))
            (map Z.of_nat (seq (S (List.length pre)) (List.length l))) acc
  ++ [Num (last l 0)]
  = tokens_from prev l acc.
Proof.
  revert pre prev acc. induction l as [|cur tail IH]; intros pre prev acc Hne;
    [contradiction|].
  destruct tail as [|next tail'].
  - cbn [List.length seq map fold_left tokens_from last].
    unfold CiscoRange.range_list_step, len.
    rewrite length_app. cbn [List.length].
    destruct (Z.ltb_spec (Z.of_nat (S (List.length pre)) + 1)
                         (Z.of_nat (List.length pre + 2))); [lia|].
    reflexivity.
  - change (List.length (cur :: next :: tail'))
      with (S (List.length (next :: tail'))).
    cbn [seq map fold_left].
    change (last (cur :: next :: tail') 0) with (last (next :: tail') 0).
    replace (pre ++ prev :: cur :: next :: tail')
      with ((pre ++ [prev]) ++ cur :: next :: tail')
      by (rewrite <- app_assoc; reflexivity).
    replace (S (S (List.length pre))) with (S (List.length (pre ++ [prev])))
      by (rewrite length_app; cbn; lia).
    rewrite IH by discriminate.
    cbn [tokens_from]. f_equal.
    unfold CiscoRange.range_list_step.
    replace (Z.of_nat (S (List.length pre))) with (len (pre ++ [prev]))
      by (unfold len; rewrite length_app; cbn; lia).
    rewrite item_at.
    replace (len (pre ++ [prev]) - 1) with (len pre)
      by (unfold len; rewrite length_app; cbn; lia).
    replace ((pre ++ [prev]) ++ cur :: next :: tail')
      with (pre ++ prev :: cur :: next :: tail')
      by (rewrite <- app_assoc; reflexivity).
    rewrite item_at.
    replace (pre ++ prev :: cur :: next :: tail')
      with ((pre ++ [prev; cur]) ++ next :: tail')
      by (rewrite <- app_assoc; reflexivity).
    replace (len (pre ++ [prev]) + 1) with (len (pre ++ [prev; cur]))
      by (unfold len; rewrite !length_app; cbn; lia).
    rewrite item_at.
    assert (Hlt : (len (pre ++ [prev; cur]) <? len ((pre ++ [prev; cur]) ++ next :: tail')) = true).
    { apply Z.ltb_lt. unfold len. rewrite !length_app. cbn. lia. }
    rewrite Hlt.
    assert (Hgt : (len pre >? -1) = true).
    { rewrite Z.gtb_ltb. apply Z.ltb_lt. unfold len. lia. }
    rewrite Hgt. reflexivity.
Qed.

Lemma build_range_list_tokens_from (x : Z) (rest : list Z) :
  CiscoRange.build_range_list (x :: rest) = tokens_from x rest [Num x].
Proof.
  unfold CiscoRange.build_range_list.
  change (List.length (x :: rest)) with (S (List.length rest)).
  cbn [seq map fold_left].
  assert (H0 : CiscoRange.range_list_step (x :: rest) [Num (item (x :: rest) 0)]
                 (Z.of_nat 0) = [Num x]).
  { unfold CiscoRange.range_list_step. cbn [Z.of_nat].
    rewrite andb_false_r. reflexivity. }
  rewrite H0.
  destruct rest as [|y rest'].
  - reflexivity.
  - assert (Hl : (len (x :: y :: rest') >? 1) = true).
    { rewrite Z.gtb_ltb. apply Z.ltb_lt. unfold len. cbn [List.length]. lia. }
    rewrite Hl.
    replace (item (x :: y :: rest') (len (x :: y :: rest') - 1))
      with (last (y :: rest') 0).
    + apply (fold_steps_tokens_from (y :: rest') [] x). discriminate.
    + unfold item, len.
      replace (Z.to_nat (Z.of_nat (List.length (x :: y :: rest')) - 1))
        with (List.length (y :: rest')) by (cbn [List.length]; lia).
      assert (Hne : y :: rest' <> []) by discriminate.
      revert Hne. generalize (y :: rest') as l. intros l Hne.
      rewrite (app_removelast_last 0 Hne) at 2 3.
      change (x :: removelast l ++ [last l 0])
        with ((x :: removelast l) ++ [last l 0]).
      rewrite length_app. cbn [List.length].
      replace (List.length (removelast l) + 1)%nat
        with (List.length (x :: removelast l)) by (cbn; lia).
      now rewrite nth_middle.
Qed.

Lemma last_snoc {A : Type} (l : list A) (a d : A) : last (l ++ [a]) d = a.
Proof. apply last_last. Qed.

Ltac case_Z :=
  repeat match goal with
    | |- context [Z.eqb ?a ?b] => destruct (Z.eqb_spec a b); try lia
    | |- context [Z.geb ?a ?b] =>
        rewrite (Z.geb_leb a b); destruct (Z.leb_spec b a); try lia
    end.

(** What one turn of the loop adds, in terms of runs. *)
Lemma step_written (first prev cur next : Z) (acc' : list token) :
  first <= prev ->
  (if (cur - prev =? 1) && (next - cur =? 1)
   then if negb (token_eqb (last (acc' ++ written first prev (Some cur)) (Num 0))
                           Dash)
        then (acc' ++ written first prev (Some cur)) ++ [Dash]
        else acc' ++ written first prev (Some cur)
   else (acc' ++ written first prev (Some cur)) ++ [Num cur])
  = if cur =? prev + 1
    then acc' ++ written first cur (Some next)
    else (acc' ++ run_tokens (first, prev)) ++ written cur cur (Some next).
Proof.
  intros Hle. unfold written, run_tokens.
  destruct (Z.eqb_spec cur (prev + 1)) as [Hc|Hc].
  - destruct (Z.eqb_spec (cur - prev) 1); [|lia]. cbn [andb].
    destruct (Z.eqb_spec prev first) as [Hp|Hp].
    + destruct (Z.eqb_spec cur first); [lia|].
      destruct (Z.eqb_spec (next - cur) 1), (Z.eqb_spec next (cur + 1));
        try lia.
      * rewrite last_snoc. cbn [token_eqb negb].
        rewrite <- app_assoc. reflexivity.
      * rewrite <- app_assoc. cbn [app]. case_Z. reflexivity.
    + destruct (Z.eqb_spec cur first); [lia|].
      destruct (Z.eqb_spec (next - cur) 1), (Z.eqb_spec next (cur + 1));
        try lia.
      * replace (acc' ++ [Num first; Dash]) with ((acc' ++ [Num first]) ++ [Dash])
          by (rewrite <- app_assoc; reflexivity).
        rewrite last_snoc. reflexivity.
      * rewrite <- app_assoc. cbn [app]. case_Z. reflexivity.
  - destruct (Z.eqb_spec (cur - prev) 1); [lia|]. cbn [andb].
    rewrite Z.eqb_refl. f_equal. f_equal.
    destruct (Z.eqb_spec prev first) as [->|Hp]; [|reflexivity].
    case_Z. reflexivity.
Qed.

Lemma tokens_from_runs (l : list Z) (first prev : Z) (acc' : list token) :
  first <= prev ->
  tokens_from prev l (acc' ++ written first prev (hd_error l))
  = acc' ++ flat_map run_tokens (runs_from first prev l).
Proof.
  revert first prev acc'. induction l as [|cur tail IH]; intros first prev acc' Hle.
  - cbn. now rewrite app_nil_r.
  - destruct tail as [|next tail'].
    + cbn [tokens_from hd_error runs_from]. unfold written.
      destruct (Z.eqb_spec cur (prev + 1)) as [Hc|Hc]; cbn [flat_map];
        rewrite ?app_nil_r, <- ?app_assoc; f_equal.
      * unfold run_tokens. destruct (Z.eqb_spec prev first); case_Z; reflexivity.
      * unfold run_tokens. destruct (Z.eqb_spec prev first) as [->|?];
          case_Z; reflexivity.
    + cbn [tokens_from hd_error runs_from].
      rewrite step_written by assumption.
      destruct (Z.eqb_spec cur (prev + 1)) as [Hc|Hc].
      * apply (IH first cur acc'). lia.
      * cbn [flat_map]. rewrite app_assoc. apply (IH cur cur). lia.
Qed.

Lemma build_range_list_runs (input : list Z) :
  input <> [] ->
  CiscoRange.build_range_list input = flat_map run_tokens (maximal_runs input).
Proof.
  destruct input as [|x rest]; [contradiction|]. intros _.
  rewrite build_range_list_tokens_from. cbn [maximal_runs].
  assert (Hw : [Num x] = [] ++ written x x (hd_error rest)).
  { unfold written, run_tokens. destruct (hd_error rest); case_Z; reflexivity. }
  rewrite Hw. apply tokens_from_runs. lia.
Qed.

Lemma string_app_assoc (a b c : string) :
  ((a ++ b) ++ c = a ++ (b ++ c))%string.
Proof. induction a as [|ch a IH]; cbn; [reflexivity | now rewrite IH]. Qed.

Lemma concat_add_pieces (xs : list string) (p x : string) :
  (p ++ String.concat "," (x :: xs))%string = add_pieces (p ++ x)%string xs.
Proof.
  revert p x. induction xs as [|y ys IH]; intros p x; [reflexivity|].
  change (String.concat "," (x :: y :: ys))
    with (x ++ "," ++ String.concat "," (y :: ys))%string.
  unfold add_pieces. cbn [fold_left]. fold (add_pieces ((p ++ x) ++ "," ++ y) ys).
  rewrite <- (string_app_assoc (p ++ x) "," y).
  rewrite <- (IH ((p ++ x) ++ ",")%string y). now rewrite !string_app_assoc.
Qed.

Lemma add_pieces_app (retval : string) (xs ys : list string) :
  add_pieces retval (xs ++ ys) = add_pieces (add_pieces retval xs) ys.
Proof. apply fold_left_app. Qed.

Lemma join_tokens_runs (rs : list (Z * Z)) (retval : string) (n : Z) :
  CiscoRange.join_tokens retval (Num n) (flat_map run_tokens rs)
  = add_pieces retval (flat_map spec_run rs).
Proof.
  revert retval n. induction rs as [|[a b] rs IH]; intros retval n;
    [reflexivity|].
  cbn [flat_map]. rewrite add_pieces_app. unfold run_tokens, spec_run.
  destruct (b - a >=? 2); [|destruct (b - a =? 1)];
    cbn [app CiscoRange.join_tokens same_type negb str_of_token];
    rewrite IH; f_equal; unfold add_pieces; cbn [fold_left];
    rewrite ?string_app_assoc; reflexivity.
Qed.

Lemma runs_from_nonempty (l : list Z) (first last_ : Z) :
  runs_from first last_ l <> [].
Proof.
  revert first last_. induction l as [|x l IH]; intros first last_; cbn;
    [discriminate|].
  destruct (x =? last_ + 1); [apply IH | discriminate].
Qed.

Lemma join_build_range_list (prefix_str : string) (input : list Z) :
  input <> [] ->
  let range_list := CiscoRange.build_range_list input in
  CiscoRange.join_tokens
    (prefix_str ++ str_of_token (hd (Num 0) range_list))%string
    (hd (Num 0) range_list) (tl range_list)
  = spec_compressed_str prefix_str input.
Proof.
  intros Hne range_list. subst range_list.
  rewrite build_range_list_runs by assumption.
  unfold spec_compressed_str.
  destruct input as [|x rest]; [contradiction|].
  cbn [maximal_runs].
  destruct (runs_from x x rest) as [|[a b] rs] eqn:E.
  - now apply runs_from_nonempty in E.
  - cbn [flat_map]. set (others := flat_map run_tokens rs).
    unfold run_tokens, spec_run at 1.
    destruct (b - a >=? 2); [|destruct (b - a =? 1)];
      cbn [app hd tl str_of_token CiscoRange.join_tokens same_type negb];
      subst others; rewrite join_tokens_runs, concat_add_pieces;
      unfold add_pieces; cbn [fold_left];
      rewrite ?string_app_assoc; reflexivity.
Qed.

End CompressionFacts.

Section SortingFacts.

Lemma insert_sorted_perm (x : Z) (l : list Z) :
  Permutation (insert_sorted x l) (x :: l).
Proof.
  induction l as [|y l IH]; cbn; [reflexivity|].
  destruct (x <=? y); [reflexivity|].
  rewrite IH. apply perm_swap.
Qed.

Lemma sorted_perm (l : list Z) : Permutation (sorted l) l.
Proof.
  induction l as [|x l IH]; cbn; [reflexivity|].
  rewrite insert_sorted_perm. now constructor.
Qed.

Lemma insert_sorted_increasing (x : Z) (l : list Z) :
  ~ In x l -> StronglySorted Z.lt l -> StronglySorted Z.lt (insert_sorted x l).
Proof.
  induction l as [|y l IH]; intros Hx Hs; cbn.
  - repeat constructor.
  - inversion Hs as [|? ? Hs' Hall]; subst.
    destruct (Z.leb_spec x y).
    + constructor; [assumption|].
      assert (x < y) by (assert (x <> y) by (intros ->; apply Hx; now left); lia).
      constructor; [assumption|].
      eapply Forall_impl; [|exact Hall]. cbn. intros; lia.
    + constructor.
      * apply IH; [intros Hin; apply Hx; now right | assumption].
      * eapply Permutation_Forall.
        -- symmetry. apply insert_sorted_perm.
        -- constructor; [lia | assumption].
Qed.

Lemma sorted_increasing (l : list Z) :
  NoDup l -> StronglySorted Z.lt (sorted l).
Proof.
  induction 1 as [|x l Hx Hnd IH]; cbn; [constructor|].
  apply insert_sorted_increasing; [|assumption].
  intros Hin. apply Hx. apply (Permutation_in _ (sorted_perm l) Hin).
Qed.

Lemma increasing_unique (l1 l2 : list Z) :
  StronglySorted Z.lt l1 -> StronglySorted Z.lt l2 ->
  (forall x, In x l1 <-> In x l2) -> l1 = l2.
Proof.
  intros H1. revert l2. induction H1 as [|a l1 Hs1 IH Ha]; intros l2 H2 Hiff.
  - destruct l2 as [|b l2]; [reflexivity|].
    exfalso. apply (proj2 (Hiff b)). now left.
  - destruct H2 as [|b l2 Hs2 Hb].
    + exfalso. apply (proj1 (Hiff a)). now left.
    + rewrite Forall_forall in Ha, Hb.
      assert (a = b).
      { destruct (proj1 (Hiff a) (or_introl eq_refl)) as [->|Hin1];
          [reflexivity|].
        destruct (proj2 (Hiff b) (or_introl eq_refl)) as [->|Hin2];
          [reflexivity|].
        specialize (Ha _ Hin2). specialize (Hb _ Hin1). lia. }
      subst b. f_equal. apply IH; [assumption|].
      intros x. split; intros Hx.
      * destruct (proj1 (Hiff x) (or_intror Hx)) as [->|]; [|assumption].
        specialize (Ha _ Hx). lia.
      * destruct (proj2 (Hiff x) (or_intror Hx)) as [->|]; [|assumption].
        specialize (Hb _ Hx). lia.
Qed.

Lemma sorted_list_set (list_set : list Z -> list Z) (input : list Z) :
  set_contract list_set ->
  StronglySorted Z.lt (sorted (list_set input)) /\
  (forall n, In n (sorted (list_set input)) <-> In n input).
Proof.
  intros Hset. destruct (Hset input) as [Hnd Hin]. split.
  - now apply sorted_increasing.
  - intros n. rewrite <- Hin. split; apply Permutation_in;
      [apply sorted_perm | symmetry; apply sorted_perm].
Qed.

Lemma first_seen_spec (l seen : list Z) :
  NoDup (first_seen seen l) /\
  (forall x, In x (first_seen seen l) <-> In x l /\ ~ In x seen).
Proof.
  revert seen. induction l as [|y l IH]; intros seen; cbn.
  - split; [constructor | tauto].
  - destruct (existsb (Z.eqb y) seen) eqn:E.
    + apply existsb_exists in E as (z & Hz & Hyz). apply Z.eqb_eq in Hyz.
      subst z. destruct (IH seen) as [Hnd Hin]. split; [assumption|].
      intros x. rewrite Hin. split; [tauto|].
      intros [[->|Hx] Hn]; [contradiction | tauto].
    + assert (Hy : ~ In y seen).
      { intros Hin. apply not_true_iff_false in E. apply E.
        apply existsb_exists. exists y. split; [assumption|apply Z.eqb_refl]. }
      destruct (IH (y :: seen)) as [Hnd Hin]. split.
      * constructor; [|assumption]. rewrite Hin. cbn. tauto.
      * intros x. cbn. rewrite Hin. cbn. split.
        -- intros [->|[Hx Hn]]; [tauto|]. split; [tauto|]. tauto.
        -- intros [[->|Hx] Hn]; [tauto|].
           destruct (Z.eq_dec y x); [tauto|]. right. tauto.
Qed.

Lemma first_seen_contract : set_contract (first_seen []).
Proof.
  intros l. destruct (first_seen_spec l []) as [Hnd Hin]. split; [assumption|].
  intros x. rewrite Hin. cbn. tauto.
Qed.

End SortingFacts.

Section RangeFacts.

Variable list_set : list Z -> list Z.
Hypothesis list_set_contract : set_contract list_set.

(** [compressed_str] writes the sorted, duplicate-free indices the way the
    compression rule words it. *)
Lemma compressed_str_spec (self : CiscoRange.t) (input : list Z) :
  CiscoRange.indices self = Ok input ->
  CiscoRange.compressed_str list_set self
  = Ok (spec_compressed_str
          (CiscoRange.line_prefix self ++ CiscoRange.slot_prefix self)%string
          (sorted (list_set input))).
Proof.
  intros Hidx. unfold CiscoRange.compressed_str. rewrite Hidx. cbn [bind].
  destruct (sorted_list_set list_set input list_set_contract) as [_ Hin].
  destruct input as [|x rest].
  - cbn [len List.length Z.of_nat Z.eqb].
    destruct (sorted (list_set [])) as [|y l]; [reflexivity|].
    exfalso. apply (proj1 (Hin y)). now left.
  - assert (Hlen : (len (x :: rest) =? 0) = false)
      by (apply Z.eqb_neq; unfold len; cbn [List.length]; lia).
    rewrite Hlen. f_equal. apply join_build_range_list.
    intros Hnil. apply (in_nil (a := x)). rewrite <- Hnil. apply Hin. now left.
Qed.

Lemma py_range_In (b e n : Z) : In n (py_range b e) <-> b <= n < e.
Proof.
  unfold py_range. rewrite in_map_iff. split.
  - intros (k & <- & Hk). apply in_seq in Hk. lia.
  - intros H. exists (Z.to_nat (n - b)). split; [lia|]. apply in_seq. lia.
Qed.

Lemma dash_range_loop_spec (atoms : list string) (retval : list Z) :
  (forall atom, In atom atoms ->
                exists bounds, CiscoRange.dash_range_atom atom = Ok bounds) ->
  exists out,
    CiscoRange.dash_range_loop atoms retval = Ok out /\
    (forall n, In n out <->
               In n retval \/
               exists atom b e,
                 In atom atoms /\ CiscoRange.dash_range_atom atom = Ok (b, e) /\
                 b <= n < e).
Proof.
  revert retval. induction atoms as [|atom atoms IH]; intros retval Hok.
  - exists retval. split; [reflexivity|]. intros n. split; [auto|].
    intros [H|(a & b & e & [] & _)]. exact H.
  - destruct (Hok atom (or_introl eq_refl)) as [[b e] Hb].
    destruct (IH (retval ++ py_range b e)) as (out & Hout & Hin).
    { intros a Ha. apply Hok. now right. }
    exists out. split.
    + cbn [CiscoRange.dash_range_loop]. rewrite Hb. cbn [bind fst snd].
      exact Hout.
    + intros n. rewrite Hin, in_app_iff, py_range_In. split.
      * intros [[H|H]|(a & b' & e' & Ha & Hb' & Hn)]; [now left| |].
        -- right. exists atom, b, e. repeat split; auto; try lia. now left.
        -- right. exists a, b', e'. repeat split; auto; try lia. now right.
      * intros [H|(a & b' & e' & [<-|Ha] & Hb' & Hn)]; [now left; left| |].
        -- rewrite Hb in Hb'. injection Hb' as <- <-. left. now right.
        -- right. exists a, b', e'. auto.
Qed.

Lemma dash_range_atom_bounds (atom : string) (b e : Z) :
  CiscoRange.dash_range_atom atom = Ok (b, e) -> 0 <= b < e.
Proof.
  unfold CiscoRange.dash_range_atom.
  destruct (match split "-" atom with [b0; e0] => _ | _ => _ end) as [sb se].
  destruct (int_of_str (strip sb)) as [vb|]; cbn [bind]; [|discriminate].
  destruct (int_of_str (strip se)) as [ve|]; cbn [bind]; [|discriminate].
  unfold assert. rewrite !Z.gtb_ltb.
  destruct (Z.ltb_spec (-1) vb); cbn [bind]; [|discriminate].
  destruct (Z.ltb_spec vb (ve + 1)); cbn [bind]; [|discriminate].
  intros [= <- <-]. lia.
Qed.

Lemma map_result_map_ok {A B : Type} (f : B -> result A) (g : A -> B)
      (l : list A) :
  (forall x, In x l -> f (g x) = Ok x) -> map_result f (map g l) = Ok l.
Proof.
  induction l as [|x l IH]; intros H; [reflexivity|].
  cbn [map map_result]. rewrite (H x) by now left. cbn [bind].
  rewrite IH by (intros y Hy; apply H; now right). reflexivity.
Qed.

End RangeFacts.

(** C7. Compression works on the sorted, duplicate-free indices and writes
    them run by run as the compression rule says: a dash stands only for a
    run of three or more consecutive integers, and a run of exactly two is
    written as its two values with a comma, never with a dash. *)
Theorem compressed_str_keeps_pairs
        (list_set : list Z -> list Z) (self : CiscoRange.t) (input : list Z) :
  set_contract list_set ->
  CiscoRange.indices self = Ok input ->
  let normal := sorted (list_set input) in
  StronglySorted Z.lt normal /\
  (forall n, In n normal <-> In n input) /\
  CiscoRange.compressed_str list_set self
  = Ok (spec_compressed_str
          (CiscoRange.line_prefix self ++ CiscoRange.slot_prefix self)%string
          normal) /\
  (input <> [] ->
   CiscoRange.build_range_list normal
   = flat_map run_tokens (maximal_runs normal)) /\
  (forall first last_,
      In Dash (run_tokens (first, last_)) <-> last_ - first >= 2) /\
  (forall first, run_tokens (first, first + 1) = [Num first; Num (first + 1)]) /\
  (forall first,
      spec_run (first, first + 1) = [str_of_int first; str_of_int (first + 1)]).
Proof.
  intros Hset Hidx normal.
  destruct (sorted_list_set list_set input Hset) as [Hs Hin].
  split; [exact Hs|]. split; [exact Hin|].
  split; [now apply compressed_str_spec|].
  split; [|split; [|split]].
  - intros Hne. apply build_range_list_runs. intros Hnil.
    destruct input as [|x rest]; [contradiction|].
    apply (in_nil (a := x)). fold normal in Hin. rewrite <- Hnil.
    apply Hin. now left.
  - intros first last_. unfold run_tokens. rewrite Z.geb_leb.
    destruct (Z.leb_spec 2 (last_ - first)).
    + split; [lia|]. intros _. cbn. auto.
    + split; [|lia]. destruct (last_ - first =? 1); cbn;
        intros H'; decompose [or] H'; discriminate || contradiction.
  - intros first. unfold run_tokens.
    replace (first + 1 - first) with 1 by lia. reflexivity.
  - intros first. unfold spec_run.
    replace (first + 1 - first) with 1 by lia. reflexivity.
Qed.

Lemma compressed_str_keeps_pairs_witness :
  set_contract (first_seen []) /\
  CiscoRange.indices range_1_5_6_10 = Ok [1; 5; 6; 10] /\
  CiscoRange.compressed_str (first_seen []) range_1_5_6_10 = Ok "1,5,6,10" /\
  CiscoRange.indices range_5_6 = Ok [5; 6] /\
  CiscoRange.compressed_str (first_seen []) range_5_6 = Ok "5,6".
Proof.
  assert (H1 : CiscoRange.indices range_1_5_6_10 = Ok [1; 5; 6; 10])
    by (vm_compute; reflexivity).
  assert (H2 : CiscoRange.indices range_5_6 = Ok [5; 6])
    by (vm_compute; reflexivity).
  split; [exact first_seen_contract|]. split; [exact H1|].
  split; [|split; [exact H2|]].
  - destruct (compressed_str_keeps_pairs (first_seen []) range_1_5_6_10
                [1; 5; 6; 10] first_seen_contract H1) as (_ & _ & -> & _).
    vm_compute. reflexivity.
  - destruct (compressed_str_keeps_pairs (first_seen []) range_5_6
                [5; 6] first_seen_contract H2) as (_ & _ & -> & _).
    vm_compute. reflexivity.
Defined.

(** C4. [CiscoRange("1-3,5,9-11,13")] holds exactly the indices
    1, 2, 3, 5, 9, 10, 11, 13, and [compressed_str] of any range that holds
    exactly these indices (and no prefix) is ["1-3,5,9-11,13"]. *)
Theorem expand_compress_round_trip (list_set : list Z -> list Z) :
  set_contract list_set ->
  (exists r,
      CiscoRange.__init__ list_set "1-3,5,9-11,13" type_str = Ok r /\
      Permutation (CiscoRange._list r)
                  (map PyStr ["1"; "2"; "3"; "5"; "9"; "10"; "11"; "13"]) /\
      (exists input, CiscoRange.indices r = Ok input /\
                     Permutation input canonical_indices) /\
      CiscoRange.compressed_str list_set r = Ok "1-3,5,9-11,13") /\
  (forall r' input,
      CiscoRange.line_prefix r' = EmptyString ->
      CiscoRange.slot_prefix r' = EmptyString ->
      CiscoRange.indices r' = Ok input ->
      (forall n, In n input <-> In n canonical_indices) ->
      CiscoRange.compressed_str list_set r' = Ok "1-3,5,9-11,13").
Proof.
  intros Hset.
  assert (Hcompress : forall r' input,
             CiscoRange.line_prefix r' = EmptyString ->
             CiscoRange.slot_prefix r' = EmptyString ->
             CiscoRange.indices r' = Ok input ->
             (forall n, In n input <-> In n canonical_indices) ->
             CiscoRange.compressed_str list_set r' = Ok "1-3,5,9-11,13").
  { intros r' input Hl Hs Hidx Hmem.
    rewrite (compressed_str_spec list_set Hset r' input Hidx), Hl, Hs.
    destruct (sorted_list_set list_set input Hset) as [Hsorted Hin].
    assert (Hcanon : sorted (list_set input) = canonical_indices).
    { apply increasing_unique; [exact Hsorted| |].
      - unfold canonical_indices.
        repeat (constructor; [|repeat (constructor; [lia|]); constructor]).
        constructor.
      - intros n. rewrite Hin. apply Hmem. }
    rewrite Hcanon. vm_compute. reflexivity. }
  split; [|exact Hcompress].
  destruct (Hset canonical_indices) as [Hnd Hin].
  assert (Hperm : Permutation (list_set canonical_indices) canonical_indices).
  { apply NoDup_Permutation; [exact Hnd| |exact Hin].
    unfold canonical_indices.
    repeat (constructor; [cbn; intros H; decompose [or] H; lia || contradiction|]).
    constructor. }
  assert (Hparse : CiscoRange._parse_range_text "1-3,5,9-11,13"
                   = Ok (EmptyString, EmptyString, "1-3,5,9-11,13"))
    by (vm_compute; reflexivity).
  assert (Hloop : CiscoRange.dash_range_loop (split "," "1-3,5,9-11,13") []
                  = Ok canonical_indices) by (vm_compute; reflexivity).
  eexists. split; [|split; [|split]].
  - unfold CiscoRange.__init__.
    change (negb ("1-3,5,9-11,13" =? "")%string) with true. cbv iota.
    rewrite Hparse. cbn [bind]. unfold CiscoRange._range, CiscoRange._parse_dash_range.
    rewrite Hloop. cbn [bind]. rewrite map_result_type_str. cbn [bind].
    reflexivity.
  - cbn [CiscoRange._list]. rewrite map_map.
    change (map PyStr ["1"; "2"; "3"; "5"; "9"; "10"; "11"; "13"])
      with (map (fun x => PyStr (str_of (CiscoRange.combine "" "" x)))
                canonical_indices).
    apply Permutation_map. exact Hperm.
  - exists (list_set canonical_indices). split; [|exact Hperm].
    unfold CiscoRange.indices. cbn [CiscoRange._list CiscoRange.line_prefix
                                    CiscoRange.slot_prefix].
    rewrite map_map. apply map_result_map_ok.
    intros n Hn. apply Hin in Hn. unfold canonical_indices in Hn. cbn in Hn.
    decompose [or] Hn; try contradiction; subst n; vm_compute; reflexivity.
  - apply (Hcompress _ (list_set canonical_indices)); try reflexivity.
    + unfold CiscoRange.indices. cbn [CiscoRange._list CiscoRange.line_prefix
                                      CiscoRange.slot_prefix].
      rewrite map_map. apply map_result_map_ok.
      intros n Hn. apply Hin in Hn. unfold canonical_indices in Hn. cbn in Hn.
      decompose [or] Hn; try contradiction; subst n; vm_compute; reflexivity.
    + exact Hin.
Qed.

Lemma expand_compress_round_trip_witness :
  set_contract (first_seen []) /\
  CiscoRange.__init__ (first_seen []) "1-3,5,9-11,13" type_str
  = Ok range_canonical /\
  CiscoRange.indices range_canonical = Ok canonical_indices /\
  CiscoRange.compressed_str (first_seen []) range_canonical
  = Ok "1-3,5,9-11,13".
Proof.
  assert (Hi : CiscoRange.indices range_canonical = Ok canonical_indices)
    by (vm_compute; reflexivity).
  split; [exact first_seen_contract|].
  split; [vm_compute; reflexivity|]. split; [exact Hi|].
  apply (proj2 (expand_compress_round_trip (first_seen []) first_seen_contract)
               range_canonical canonical_indices);
    [reflexivity | reflexivity | exact Hi | tauto].
Defined.

(** C3. What the claim says of the order of the items is what the class
    documents and what [insert] does, and the constructor misses it:
    [_parse_dash_range] returns [list(set(retval))] and [__init__] stores
    what [_range] makes of it, without a sort. At [CiscoRange("1,9-10")],
    under the reference implementation's set, every index of the two atoms
    is there once, but index 10 stands before index 9, with either result
    type. [insert] on the range so built sorts it. *)
Theorem expansion_unsorted_at_1_9_10 :
  CiscoRange._parse_dash_range cpython_set.list_set "1,9-10" = Ok [1; 10; 9] /\
  CiscoRange.__init__ cpython_set.list_set "1,9-10" type_str
  = Ok range_1_9_10 /\
  CiscoRange._list range_1_9_10 = [PyStr "1"; PyStr "10"; PyStr "9"] /\
  CiscoRange.__init__ cpython_set.list_set "1,9-10" type_int
  = Ok range_1_9_10_int /\
  CiscoRange._list range_1_9_10_int = [PyInt 1; PyInt 10; PyInt 9] /\
  CiscoRange.indices range_1_9_10 = Ok [1; 10; 9] /\
  CiscoRange.indices range_1_9_10_int = Ok [1; 10; 9] /\
  ~ Sorted Z.le [1; 10; 9] /\
  CiscoRange.insert cpython_set.list_set (first_items []) range_1_9_10_int 0 "9"
  = Returns (CiscoRange.with_list range_1_9_10_int [PyInt 1; PyInt 9; PyInt 10]).
Proof.
  split; [vm_compute; reflexivity|]. split; [vm_compute; reflexivity|].
  split; [reflexivity|]. split; [vm_compute; reflexivity|].
  split; [reflexivity|]. split; [vm_compute; reflexivity|].
  split; [vm_compute; reflexivity|]. split.
  - intros H. inversion H as [|? ? Htail _]; subst.
    inversion Htail as [|? ? _ Hhd]; subst.
    inversion Hhd as [|? ? Hle]; subst. lia.
  - vm_compute. reflexivity.
Qed.

(** ** The objects that the constructors build *)

Lemma IPv4Obj_constructors_wf (addr masklen : Z) (strict : bool)
      (arg x : IPv4Obj.t) :
  (IPv4Obj.of_int addr = Ok x -> IPv4Obj.wf x) /\
  (IPv4Obj.of_addr_masklen addr masklen strict = Ok x -> IPv4Obj.wf x) /\
  (IPv4Obj.wf arg -> IPv4Obj.of_obj arg = Ok arg).
Proof.
  assert (Haddr : forall a v, ipaddress.Address 32 a = Ok v ->
                              v = a /\ 0 <= a <= 4294967295).
  { intros a v. unfold ipaddress.Address.
    change (ipaddress.ALL_ONES 32) with 4294967295.
    destruct (Z.ltb_spec a 0); [discriminate|].
    destruct (Z.ltb_spec 4294967295 a); [discriminate|].
    intros [= <-]. split; [reflexivity | lia]. }
  assert (Hnet : forall a p s n, ipaddress.Network_of 32 a p s = Ok n ->
             0 <= p <= 32 /\
             n = ipaddress.mk_Network (Z.land a (ipaddress.netmask 32 p)) p).
  { intros a p s n. unfold ipaddress.Network_of.
    destruct (Z.ltb_spec p 0); [discriminate|].
    destruct (Z.ltb_spec 32 p); [discriminate|]. cbn [orb].
    destruct (s && _); [discriminate|]. intros [= <-]. split; [lia|reflexivity]. }
  split; [|split].
  - unfold IPv4Obj.of_int.
    destruct (ipaddress.Address 32 addr) as [v|] eqn:Ea; [|discriminate].
    destruct (Haddr _ _ Ea) as [-> Hr]. cbn [bind].
    destruct (ipaddress.Network_of 32 addr 32 false) as [n|] eqn:En;
      [|discriminate].
    destruct (Hnet _ _ _ _ En) as [Hp ->]. intros [= <-].
    unfold IPv4Obj.wf, IPv4Obj.prefixlen.
    cbn [IPv4Obj.ip_object IPv4Obj.network_object
         ipaddress.prefixlen ipaddress.network_address].
    repeat split; lia.
  - unfold IPv4Obj.of_addr_masklen.
    destruct (ipaddress.Network_of 32 addr masklen strict) as [n|] eqn:En;
      [|discriminate].
    destruct (Hnet _ _ _ _ En) as [Hp ->]. cbn [bind].
    destruct (ipaddress.Address 32 addr) as [v|] eqn:Ea; [|discriminate].
    destruct (Haddr _ _ Ea) as [-> Hr]. intros [= <-].
    unfold IPv4Obj.wf, IPv4Obj.prefixlen.
    cbn [IPv4Obj.ip_object IPv4Obj.network_object
         ipaddress.prefixlen ipaddress.network_address].
    repeat split; lia.
  - intros (Hip & Hp & Hn). unfold IPv4Obj.of_obj.
    rewrite Network_of_ok by assumption. cbn [bind].
    unfold ipaddress.Address. change (ipaddress.ALL_ONES 32) with 4294967295.
    destruct (Z.ltb_spec (IPv4Obj.ip_object arg) 0); [lia|].
    destruct (Z.ltb_spec 4294967295 (IPv4Obj.ip_object arg)); [lia|].
    cbn [orb bind]. f_equal. destruct arg as [ip [na pl]].
    unfold IPv4Obj.prefixlen in *.
    cbn [IPv4Obj.ip_object IPv4Obj.network_object
         ipaddress.prefixlen ipaddress.network_address] in *.
    now rewrite Hn.
Qed.

Example sample_addresses_built :
  ipv4 4 0 0 0 16 = Ok net_4_0_0_0_16 /\
  ipv4 4 0 0 0 24 = Ok net_4_0_0_0_24 /\
  ipv4 4 0 0 0 8 = Ok net_4_0_0_0_8 /\
  ipv4 2 0 0 0 7 = Ok net_2_0_0_0_7 /\
  ipv4 4 0 1 1 32 = Ok addr_4_0_1_1 /\
  ipv4 10 1 1 77 24 = Ok host_10_1_1_77_24 /\
  ipv4 1 2 3 4 32 = Ok addr_1_2_3_4 /\
  IPv4Obj.of_int 4294967295 = Ok addr_255_255_255_255 /\
  IPv6Obj.of_int 1 = Ok addr6_loopback /\
  IPv6Obj.of_addr_masklen 42540488161975842760550356429036175087
                          (Some 42540488161975842760550356429036175087)
                          64 false
  = Ok net6_2001_dead_beef_64 /\
  IPv6Obj.of_addr_masklen 281470698652420 (Some 4294901761) 128 false
  = Ok addr6_ffff_1_2_3_4 /\
  IPv6Obj.of_addr_masklen 281470698651648 (Some 4294901761) 112 false
  = Ok net6_ffff_1_2_0_0_112 /\
  IPv6Obj.of_addr_masklen 4294901761 (Some 4294901761) 128 false
  = Ok addr6_ffff_1.
Proof. repeat split; vm_compute; reflexivity. Qed.

Example sample_ranges_built :
  CiscoRange.__init__ cpython_set.list_set "Eth2/1-3,7" type_str
  = Ok range_Eth2_1_3_7 /\
  CiscoRange.__init__ cpython_set.list_set "1-3,5,9-11,13" type_str
  = Ok range_canonical /\
  CiscoRange.__init__ cpython_set.list_set "Eth2/1-3,5,9-10" type_str
  = Ok range_Eth2_docstring /\
  CiscoRange.__init__ cpython_set.list_set "5,6" type_str = Ok range_5_6 /\
  CiscoRange.__init__ (first_seen []) "1,5,6,10" type_str
  = Ok range_1_5_6_10 /\
  CiscoRange.compressed_str cpython_set.list_set range_Eth2_1_3_7
  = Ok "Eth2/1-3,7" /\
  CiscoRange.compressed_str cpython_set.list_set range_Eth2_docstring
  = Ok "Eth2/1-3,5,9,10".
Proof. repeat split; vm_compute; reflexivity. Qed.

(* ------------------------------------------------------------------ *)
(** * Further properties of the address objects *)

Section MaskArithmetic.

Variable bits : Z.
Hypothesis bits_nonneg : 0 <= bits.

Lemma ALL_ONES_ones : ipaddress.ALL_ONES bits = Z.ones bits.
Proof. unfold ipaddress.ALL_ONES. rewrite Z.ones_equiv. lia. Qed.

Lemma netmask_testbit (p i : Z) :
  0 <= p <= bits -> 0 <= i ->
  Z.testbit (ipaddress.netmask bits p) i = (bits - p <=? i) && (i <? bits).
Proof.
  intros Hp Hi. unfold ipaddress.netmask. rewrite ALL_ONES_ones.
  rewrite Z.lxor_spec, Z.shiftr_spec, !Z.testbit_ones by lia.
  destruct (Z.leb_spec 0 i), (Z.ltb_spec i bits), (Z.leb_spec 0 (i + p)),
    (Z.ltb_spec (i + p) bits), (Z.leb_spec (bits - p) i);
    try lia; reflexivity.
Qed.

Lemma land_netmask (p x : Z) :
  0 <= p <= bits -> 0 <= x < 2 ^ bits ->
  Z.land x (ipaddress.netmask bits p)
  = x / 2 ^ (bits - p) * 2 ^ (bits - p).
Proof.
  intros Hp Hx.
  rewrite <- Z.shiftr_div_pow2, <- Z.shiftl_mul_pow2 by lia.
  apply Z.bits_inj'. intros i Hi.
  rewrite Z.land_spec, netmask_testbit by lia.
  destruct (Z.leb_spec (bits - p) i).
  - rewrite Z.shiftl_spec, Z.shiftr_spec by lia.
    replace (i - (bits - p) + (bits - p)) with i by lia.
    destruct (Z.ltb_spec i bits); [now rewrite andb_true_r|].
    rewrite andb_false_r. symmetry.
    destruct (Z.eq_dec x 0) as [->|Hnz]; [apply Z.bits_0|].
    apply Z.bits_above_log2; [lia|].
    assert (2 ^ bits <= 2 ^ i) by (apply Z.pow_le_mono_r; lia).
    apply Z.log2_lt_pow2; lia.
  - rewrite andb_false_r. symmetry. cbn [andb].
    rewrite Z.shiftl_spec by lia. apply Z.testbit_neg_r. lia.
Qed.

Lemma hostmask_value (p : Z) :
  0 <= p <= bits -> ipaddress.hostmask bits p = 2 ^ (bits - p) - 1.
Proof.
  intros Hp. unfold ipaddress.hostmask. rewrite ALL_ONES_ones.
  replace (2 ^ (bits - p) - 1) with (Z.ones (bits - p))
    by (rewrite Z.ones_equiv; lia).
  apply Z.bits_inj'. intros i Hi.
  rewrite Z.lxor_spec, netmask_testbit, !Z.testbit_ones by lia.
  destruct (Z.leb_spec 0 i), (Z.ltb_spec i bits), (Z.leb_spec (bits - p) i),
    (Z.ltb_spec i (bits - p)); try lia; reflexivity.
Qed.

Lemma netmask_value (p : Z) :
  0 <= p <= bits ->
  ipaddress.netmask bits p = 2 ^ bits - 2 ^ (bits - p).
Proof.
  intros Hp.
  assert (H : 0 <= 2 ^ bits - 1 < 2 ^ bits) by lia.
  pose proof (land_netmask p (2 ^ bits - 1) Hp H) as Hl.
  assert (Hall : Z.land (2 ^ bits - 1) (ipaddress.netmask bits p)
                 = ipaddress.netmask bits p).
  { apply Z.bits_inj'. intros i Hi.
    rewrite Z.land_spec, netmask_testbit by lia.
    replace (2 ^ bits - 1) with (Z.ones bits) by (rewrite Z.ones_equiv; lia).
    rewrite Z.testbit_ones by lia.
    destruct (Z.leb_spec 0 i), (Z.ltb_spec i bits), (Z.leb_spec (bits - p) i);
      try lia; reflexivity. }
  rewrite Hall in Hl. rewrite Hl.
  assert (Hpow : 2 ^ bits = 2 ^ p * 2 ^ (bits - p)).
  { rewrite <- Z.pow_add_r by lia. f_equal. lia. }
  assert (0 < 2 ^ (bits - p)) by (apply Z.pow_pos_nonneg; lia).
  assert (0 < 2 ^ p) by (apply Z.pow_pos_nonneg; lia).
  replace ((2 ^ bits - 1) / 2 ^ (bits - p)) with (2 ^ p - 1); [nia|].
  apply Z.div_unique with (r := 2 ^ (bits - p) - 1); [lia|nia].
Qed.

(** Span enclosure of aligned blocks is agreement on the leading bits. *)
Lemma span_enclosure (ks ko x y : Z) :
  0 <= ko <= ks -> 
  let ns := x / 2 ^ ks * 2 ^ ks in
  let no := y / 2 ^ ko * 2 ^ ko in
  (ns <= no /\ ns + 2 ^ ks - 1 >= no + 2 ^ ko - 1) <-> y / 2 ^ ks * 2 ^ ks = ns.
Proof.
  intros Hk ns no. subst ns no.
  assert (HA : 0 < 2 ^ ko) by (apply Z.pow_pos_nonneg; lia).
  assert (HM : 0 < 2 ^ (ks - ko)) by (apply Z.pow_pos_nonneg; lia).
  assert (Hpow : 2 ^ ks = 2 ^ ko * 2 ^ (ks - ko)).
  { rewrite <- Z.pow_add_r by lia. f_equal. lia. }
  set (A := 2 ^ ko) in *. set (M := 2 ^ (ks - ko)) in *.
  rewrite Hpow.
  assert (Hyy : y / (A * M) = y / A / M) by (rewrite Z.div_div by lia; reflexivity).
  rewrite Hyy. set (qo := y / A). set (qs := x / (A * M)).
  pose proof (Z.div_mod qo M ltac:(lia)) as Hdm.
  pose proof (Z.mod_pos_bound qo M HM) as Hmb.
  split.
  - intros [H1 H2]. f_equal. symmetry.
    apply Z.div_unique with (r := qo - M * qs); [|lia].
    left. nia.
  - intros Heq.
    assert (Hq : qo / M = qs) by nia.
    split; nia.
Qed.

End MaskArithmetic.

Lemma block_of_block (d ka kb : Z) :
  0 <= kb <= ka -> d / 2 ^ kb * 2 ^ kb / 2 ^ ka = d / 2 ^ ka.
Proof.
  intros Hk.
  assert (HA : 0 < 2 ^ kb) by (apply Z.pow_pos_nonneg; lia).
  assert (HM : 0 < 2 ^ (ka - kb)) by (apply Z.pow_pos_nonneg; lia).
  assert (Hpow : 2 ^ ka = 2 ^ (ka - kb) * 2 ^ kb).
  { rewrite <- Z.pow_add_r by lia. f_equal. lia. }
  rewrite Hpow, Z.div_mul_cancel_r by lia.
  rewrite (Z.mul_comm (2 ^ (ka - kb))), Z.div_div by lia. reflexivity.
Qed.

(** ** IPv6Obj: the same facts for 128 bits *)

Lemma exploded_sum (a : Z) :
  0 <= a <= 340282366920938463463374607431768211455 ->
  sum_enumerate 65536 0 (rev (IPv6Obj.exploded a)) = a.
Proof.
  intros Ha. unfold IPv6Obj.exploded. cbn [map rev app sum_enumerate].
  change 65535 with (2 ^ 16 - 1).
  rewrite !land_low_bits, !Z.shiftr_div_pow2 by lia.
  repeat match goal with |- context [?x + 1] =>
    match x with
    | Z0 => change (0 + 1) with 1
    | Zpos _ => let v := eval vm_compute in (x + 1) in change (x + 1) with v
    end end.
  repeat match goal with |- context [Z.pow ?b ?e] =>
    let v := eval vm_compute in (Z.pow b e) in change (Z.pow b e) with v end.
  Z.div_mod_to_equations. lia.
Qed.

Lemma IPv6Obj_as_decimal (x : IPv6Obj.t) :
  IPv6Obj.wf x -> IPv6Obj.as_decimal x = IPv6Obj.ip_object x.
Proof.
  intros (Hip & _ & _). unfold IPv6Obj.as_decimal, IPv6Obj.ip.
  now apply exploded_sum.
Qed.

Lemma IPv6Obj_as_decimal_network (x : IPv6Obj.t) :
  IPv6Obj.wf x ->
  IPv6Obj.as_decimal_network x
  = Z.land (IPv6Obj.ip_object x) (ipaddress.netmask 128 (IPv6Obj.prefixlen x)).
Proof.
  intros (Hip & _ & Hnet).
  unfold IPv6Obj.as_decimal_network, IPv6Obj.network. rewrite Hnet.
  apply exploded_sum.
  pose proof (land_le (IPv6Obj.ip_object x)
                (ipaddress.netmask 128 (IPv6Obj.prefixlen x))). lia.
Qed.

Lemma IPv6Obj_of_int_ok (n : Z) :
  0 <= n <= 340282366920938463463374607431768211455 ->
  IPv6Obj.of_int n
  = Ok (IPv6Obj.mk n (ipaddress.mk_Network
                        (Z.land n (ipaddress.netmask 128 128)) 128)).
Proof.
  intros H. unfold IPv6Obj.of_int, ipaddress.Address.
  change (ipaddress.ALL_ONES 128) with 340282366920938463463374607431768211455.
  destruct (Z.ltb_spec n 0); [lia|].
  destruct (Z.ltb_spec 340282366920938463463374607431768211455 n); [lia|].
  cbn [orb bind]. rewrite Network_of_ok by lia. reflexivity.
Qed.

Lemma IPv6Obj_set_prefixlen_wf (x : IPv6Obj.t) (plen : Z) :
  0 <= IPv6Obj.ip_object x <= 340282366920938463463374607431768211455 ->
  0 <= plen <= 128 ->
  exists y, IPv6Obj.set_prefixlen x plen = Ok y /\ IPv6Obj.wf y /\
            IPv6Obj.ip_object y = IPv6Obj.ip_object x /\
            IPv6Obj.prefixlen y = plen.
Proof.
  intros Hip Hp. unfold IPv6Obj.set_prefixlen.
  rewrite Network_of_ok by assumption. cbn [bind].
  eexists; split; [reflexivity|].
  unfold IPv6Obj.wf, IPv6Obj.prefixlen.
  cbn [IPv6Obj.ip_object IPv6Obj.network_object
       ipaddress.prefixlen ipaddress.network_address].
  repeat split; lia.
Qed.

Lemma IPv6Obj_wf_eq (x y : IPv6Obj.t) :
  IPv6Obj.wf x -> IPv6Obj.wf y ->
  IPv6Obj.ip_object x = IPv6Obj.ip_object y ->
  IPv6Obj.prefixlen x = IPv6Obj.prefixlen y -> x = y.
Proof.
  destruct x as [ipx [nx px]], y as [ipy [ny py]].
  unfold IPv6Obj.wf, IPv6Obj.prefixlen.
  cbn [IPv6Obj.ip_object IPv6Obj.network_object
       ipaddress.prefixlen ipaddress.network_address].
  intros (_ & _ & Hx) (_ & _ & Hy) -> ->. now subst.
Qed.

(** ** IPv4Obj: networks as aligned blocks *)

Lemma IPv4Obj_network_block (x : IPv4Obj.t) :
  IPv4Obj.wf x ->
  IPv4Obj.as_decimal_network x
  = IPv4Obj.as_decimal x / 2 ^ (32 - IPv4Obj.prefixlen x)
    * 2 ^ (32 - IPv4Obj.prefixlen x).
Proof.
  intros Hwf. rewrite IPv4Obj_as_decimal_network, IPv4Obj_as_decimal by assumption.
  destruct Hwf as (Hip & Hp & _).
  apply land_netmask; [lia | lia |].
  change (2 ^ 32) with 4294967296. lia.
Qed.

Lemma IPv4Obj_contains_view (a b : IPv4Obj.t) :
  IPv4Obj.__contains__ a (IPv4Obj.view b)
  = Ok (if IPv4Obj.prefixlen a =? 0 then true
        else if IPv4Obj.prefixlen a >? IPv4Obj.prefixlen b then false
        else (IPv4Obj.as_decimal_network a <=? IPv4Obj.as_decimal_network b)
             && (IPv4Obj.as_decimal_network a + IPv4Obj.numhosts a - 1
                 >=? IPv4Obj.as_decimal_network b + IPv4Obj.numhosts b - 1)).
Proof. unfold IPv4Obj.view. apply IPv4Obj_contains_attrs. Qed.

Lemma Ok_inj {A : Type} (x y : A) : Ok x = Ok y <-> x = y.
Proof. split; [now intros [= ->] | now intros ->]. Qed.

(** X1. Containment is a preorder on networks, and two networks contain each
    other exactly when they have the same network number and mask length. *)
Theorem IPv4Obj_containment_preorder (a b c : IPv4Obj.t) :
  IPv4Obj.wf a -> IPv4Obj.wf b -> IPv4Obj.wf c ->
  IPv4Obj.__contains__ a (IPv4Obj.view a) = Ok true /\
  (IPv4Obj.__contains__ a (IPv4Obj.view b) = Ok true ->
   IPv4Obj.__contains__ b (IPv4Obj.view c) = Ok true ->
   IPv4Obj.__contains__ a (IPv4Obj.view c) = Ok true) /\
  (IPv4Obj.__contains__ a (IPv4Obj.view b) = Ok true /\
   IPv4Obj.__contains__ b (IPv4Obj.view a) = Ok true <->
   IPv4Obj.as_decimal_network a = IPv4Obj.as_decimal_network b /\
   IPv4Obj.prefixlen a = IPv4Obj.prefixlen b).
Proof.
  intros Ha Hb Hc.
  pose proof (IPv4Obj_network_block a Ha) as Hna.
  pose proof (IPv4Obj_network_block b Hb) as Hnb.
  assert (Hda : 0 <= IPv4Obj.as_decimal a <= 4294967295)
    by (rewrite IPv4Obj_as_decimal by assumption; apply Ha).
  assert (Hdb : 0 <= IPv4Obj.as_decimal b <= 4294967295)
    by (rewrite IPv4Obj_as_decimal by assumption; apply Hb).
  destruct Ha as (_ & Hpa & _), Hb as (_ & Hpb & _), Hc as (_ & Hpc & _).
  rewrite !IPv4Obj_contains_view, !Ok_inj.
  unfold IPv4Obj.numhosts. fold (IPv4Obj.prefixlen a) (IPv4Obj.prefixlen b)
    (IPv4Obj.prefixlen c).
  set (pa := IPv4Obj.prefixlen a) in *. set (pb := IPv4Obj.prefixlen b) in *.
  set (pc := IPv4Obj.prefixlen c) in *.
  set (na := IPv4Obj.as_decimal_network a) in *.
  set (nb := IPv4Obj.as_decimal_network b) in *.
  set (nc := IPv4Obj.as_decimal_network c) in *.
  assert (Hzero : forall d, 0 <= d <= 4294967295 -> d / 2 ^ (32 - 0) * 2 ^ (32 - 0) = 0).
  { intros d Hd. change (2 ^ (32 - 0)) with 4294967296.
    rewrite Z.div_small by lia. reflexivity. }
  rewrite !Z.gtb_ltb.
  split; [|split].
  - destruct (Z.eqb_spec pa 0); [reflexivity|].
    destruct (Z.ltb_spec pa pa); [lia|].
    rewrite andb_true_iff, Z.leb_le, Z.geb_le. lia.
  - destruct (Z.eqb_spec pa 0); [reflexivity|].
    destruct (Z.ltb_spec pb pa); [discriminate|].
    destruct (Z.eqb_spec pb 0); [lia|].
    destruct (Z.ltb_spec pc pb); [discriminate|].
    destruct (Z.ltb_spec pc pa); [lia|].
    rewrite !andb_true_iff, !Z.leb_le, !Z.geb_le. lia.
  - split.
    + intros [H1 H2].
      destruct (Z.eqb_spec pa 0) as [Ea|Ea], (Z.eqb_spec pb 0) as [Eb|Eb].
      * rewrite Ea in Hna. rewrite Eb in Hnb.
        rewrite (Hzero _ Hda) in Hna. rewrite (Hzero _ Hdb) in Hnb. lia.
      * destruct (Z.ltb_spec pa pb); [discriminate | lia].
      * destruct (Z.ltb_spec pb pa); [discriminate | lia].
      * destruct (Z.ltb_spec pb pa); [discriminate|].
        destruct (Z.ltb_spec pa pb); [discriminate|].
        apply andb_true_iff in H1 as [H1 _]. apply andb_true_iff in H2 as [H2 _].
        apply Z.leb_le in H1, H2. lia.
    + intros [Hn Hp]. rewrite <- Hp, <- Hn.
      destruct (Z.eqb_spec pa 0); [auto|].
      destruct (Z.ltb_spec pa pa); [lia|].
      rewrite andb_true_iff, Z.leb_le, Z.geb_le. lia.
Qed.

Lemma IPv4Obj_lt_lex (a b : IPv4Obj.t) :
  IPv4Obj.__lt__ a (IPv4Obj.view b) = Ok true <-> lex_lt (key4 a) (key4 b).
Proof.
  unfold IPv4Obj.view. rewrite IPv4Obj_lt_attrs, Ok_inj. apply ltb3_lex.
Qed.

Lemma IPv4Obj_gt_lex (a b : IPv4Obj.t) :
  IPv4Obj.__gt__ a (IPv4Obj.view b) = Ok true <-> lex_lt (key4 b) (key4 a).
Proof.
  unfold IPv4Obj.view. rewrite IPv4Obj_gt_attrs, Ok_inj. apply ltb3_lex.
Qed.

Lemma IPv4Obj_contains_land (self other : IPv4Obj.t) :
  IPv4Obj.wf self -> IPv4Obj.wf other ->
  (IPv4Obj.__contains__ self (IPv4Obj.view other) = Ok true <->
   IPv4Obj.prefixlen self <= IPv4Obj.prefixlen other /\
   Z.land (IPv4Obj.as_decimal other) (IPv4Obj.netmask self)
   = IPv4Obj.as_decimal_network self).
Proof.
  intros Hs Ho.
  pose proof (IPv4Obj_network_block self Hs) as Hns.
  pose proof (IPv4Obj_network_block other Ho) as Hno.
  assert (Hds : 0 <= IPv4Obj.as_decimal self <= 4294967295)
    by (rewrite IPv4Obj_as_decimal by assumption; apply Hs).
  assert (Hdo : 0 <= IPv4Obj.as_decimal other <= 4294967295)
    by (rewrite IPv4Obj_as_decimal by assumption; apply Ho).
  destruct Hs as (_ & Hps & _), Ho as (_ & Hpo & _).
  unfold IPv4Obj.netmask. fold (IPv4Obj.prefixlen self).
  rewrite (land_netmask 32 ltac:(lia)) by (change (2 ^ 32) with 4294967296; lia).
  rewrite IPv4Obj_contains_view, Ok_inj, Z.gtb_ltb. unfold IPv4Obj.numhosts.
  fold (IPv4Obj.prefixlen self) (IPv4Obj.prefixlen other).
  set (ps := IPv4Obj.prefixlen self) in *.
  set (po := IPv4Obj.prefixlen other) in *.
  set (x := IPv4Obj.as_decimal self) in *.
  set (y := IPv4Obj.as_decimal other) in *.
  destruct (Z.eqb_spec ps 0) as [E|E].
  - rewrite Hns, E. change (2 ^ (32 - 0)) with 4294967296.
    rewrite !Z.div_small by lia. split; [lia | reflexivity].
  - destruct (Z.ltb_spec po ps); [split; [discriminate | lia]|].
    rewrite andb_true_iff, Z.leb_le, Z.geb_le, Hns, Hno.
    pose proof (span_enclosure (32 - ps) (32 - po) x y ltac:(lia)) as [H1 H2].
    split.
    + intros [Hlo Hhi]. split; [lia|]. apply H1. lia.
    + intros [_ Heq]. destruct (H2 Heq). lia.
Qed.

(** X2. [other in self] is a prefix match: the mask of [self] is not the
    longer one, and the address of [other] under the mask of [self] is the
    network number of [self]. For a host, this says that its address lies
    between the network number and the last address of [self]. *)
Theorem IPv4Obj_contains_prefix_match (self other : IPv4Obj.t) :
  IPv4Obj.wf self -> IPv4Obj.wf other ->
  (IPv4Obj.__contains__ self (IPv4Obj.view other) = Ok true <->
   IPv4Obj.prefixlen self <= IPv4Obj.prefixlen other /\
   Z.land (IPv4Obj.as_decimal other) (IPv4Obj.netmask self)
   = IPv4Obj.as_decimal_network self) /\
  (IPv4Obj.prefixlen other = 32 ->
   (IPv4Obj.__contains__ self (IPv4Obj.view other) = Ok true <->
    IPv4Obj.as_decimal_network self <= IPv4Obj.as_decimal other
    <= IPv4Obj.as_decimal_network self + IPv4Obj.numhosts self - 1)).
Proof.
  intros Hs Ho. split; [exact (IPv4Obj_contains_land self other Hs Ho)|].
  intros H32.
  pose proof (IPv4Obj_network_block self Hs) as Hns.
  pose proof (IPv4Obj_network_block other Ho) as Hno.
  assert (Hds : 0 <= IPv4Obj.as_decimal self <= 4294967295)
    by (rewrite IPv4Obj_as_decimal by assumption; apply Hs).
  assert (Hdo : 0 <= IPv4Obj.as_decimal other <= 4294967295)
    by (rewrite IPv4Obj_as_decimal by assumption; apply Ho).
  destruct Hs as (_ & Hps & _).
  rewrite IPv4Obj_contains_view, Ok_inj, Z.gtb_ltb.
  rewrite H32, Z.sub_diag, Z.pow_0_r, Z.div_1_r, Z.mul_1_r in Hno.
  rewrite Hno. unfold IPv4Obj.numhosts.
  fold (IPv4Obj.prefixlen self) (IPv4Obj.prefixlen other). rewrite H32.
  change (2 ^ (32 - 32)) with 1.
  set (ps := IPv4Obj.prefixlen self) in *.
  set (x := IPv4Obj.as_decimal self) in *.
  set (y := IPv4Obj.as_decimal other) in *.
  destruct (Z.eqb_spec ps 0) as [E|E].
  - rewrite Hns, E. change (2 ^ (32 - 0)) with 4294967296.
    rewrite Z.div_small by lia. split; [lia|reflexivity].
  - destruct (Z.ltb_spec 32 ps); [lia|].
    rewrite andb_true_iff, Z.leb_le, Z.geb_le. lia.
Qed.

(** X3. Longest match: of two networks that contain the same address, the one
    with the longer mask is the greater one in the order. *)
Theorem IPv4Obj_longest_match_sorts_higher (a b x : IPv4Obj.t) :
  IPv4Obj.wf a -> IPv4Obj.wf b -> IPv4Obj.wf x ->
  IPv4Obj.__contains__ a (IPv4Obj.view x) = Ok true ->
  IPv4Obj.__contains__ b (IPv4Obj.view x) = Ok true ->
  IPv4Obj.prefixlen a < IPv4Obj.prefixlen b ->
  IPv4Obj.__lt__ a (IPv4Obj.view b) = Ok true /\
  IPv4Obj.__gt__ b (IPv4Obj.view a) = Ok true /\
  IPv4Obj.__contains__ a (IPv4Obj.view b) = Ok true.
Proof.
  intros Ha Hb Hx Hax Hbx Hlt.
  apply (IPv4Obj_contains_land a x Ha Hx) in Hax as [Hpax Hax].
  apply (IPv4Obj_contains_land b x Hb Hx) in Hbx as [Hpbx Hbx].
  assert (Hdx : 0 <= IPv4Obj.as_decimal x <= 4294967295)
    by (rewrite IPv4Obj_as_decimal by assumption; apply Hx).
  assert (Hdb : 0 <= IPv4Obj.as_decimal b <= 4294967295)
    by (rewrite IPv4Obj_as_decimal by assumption; apply Hb).
  pose proof (IPv4Obj_network_block b Hb) as Hnb.
  assert (Hpa : 0 <= IPv4Obj.prefixlen a <= 32) by apply Ha.
  assert (Hpb : 0 <= IPv4Obj.prefixlen b <= 32) by apply Hb.
  unfold IPv4Obj.netmask in Hax, Hbx.
  fold (IPv4Obj.prefixlen a) in Hax. fold (IPv4Obj.prefixlen b) in Hbx.
  rewrite (land_netmask 32 ltac:(lia)) in Hax, Hbx
    by (change (2 ^ 32) with 4294967296; lia).
  set (ka := 32 - IPv4Obj.prefixlen a) in *.
  set (kb := 32 - IPv4Obj.prefixlen b) in *.
  set (d := IPv4Obj.as_decimal x) in *.
  assert (HA : 0 < 2 ^ kb) by (apply Z.pow_pos_nonneg; lia).
  assert (HM : 0 < 2 ^ (ka - kb)) by (apply Z.pow_pos_nonneg; lia).
  assert (Hpow : 2 ^ ka = 2 ^ kb * 2 ^ (ka - kb)).
  { rewrite <- Z.pow_add_r by lia. f_equal. lia. }
  (* the network of [b] lies in the block of [a] *)
  assert (Hblock : IPv4Obj.as_decimal_network b / 2 ^ ka * 2 ^ ka
                   = IPv4Obj.as_decimal_network a).
  { rewrite <- Hbx, <- Hax. f_equal. apply block_of_block; lia. }
  assert (Hle : IPv4Obj.as_decimal_network a <= IPv4Obj.as_decimal_network b).
  { rewrite <- Hblock.
    assert (0 < 2 ^ ka) by lia.
    pose proof (Z.mul_div_le (IPv4Obj.as_decimal_network b) (2 ^ ka) ltac:(lia)).
    lia. }
  assert (Hltv : IPv4Obj.__lt__ a (IPv4Obj.view b) = Ok true).
  { apply IPv4Obj_lt_lex. unfold lex_lt, key4. lia. }
  split; [exact Hltv|]. split.
  - apply IPv4Obj_gt_lex. unfold lex_lt, key4. lia.
  - apply (IPv4Obj_contains_land a b Ha Hb). split; [lia|].
    unfold IPv4Obj.netmask. fold (IPv4Obj.prefixlen a).
    rewrite (land_netmask 32 ltac:(lia)) by (change (2 ^ 32) with 4294967296; lia).
    fold ka. rewrite <- Hblock, Hnb. fold kb. f_equal. symmetry.
    apply block_of_block; lia.
Qed.

(** X4. The masks of a network: [netmask] and [hostmask] are complements,
    [numhosts] is the host mask plus one, and the broadcast address is the
    last address of the span that [in] computes. *)
Theorem IPv4Obj_masks_and_broadcast (x : IPv4Obj.t) :
  IPv4Obj.wf x ->
  IPv4Obj.netmask x + IPv4Obj.hostmask x = 4294967295 /\
  IPv4Obj.hostmask x = IPv4Obj.numhosts x - 1 /\
  Z.land (IPv4Obj.as_decimal_network x) (IPv4Obj.hostmask x) = 0 /\
  IPv4Obj.broadcast x
  = Ok (IPv4Obj.as_decimal_network x + IPv4Obj.numhosts x - 1) /\
  IPv4Obj.as_decimal_network x <= IPv4Obj.as_decimal x
  <= IPv4Obj.as_decimal_network x + IPv4Obj.numhosts x - 1.
Proof.
  intros Hwf.
  pose proof (IPv4Obj_network_block x Hwf) as Hblock.
  pose proof (IPv4Obj_as_decimal_network x Hwf) as Hnet.
  assert (Hd : 0 <= IPv4Obj.as_decimal x <= 4294967295)
    by (rewrite IPv4Obj_as_decimal by assumption; apply Hwf).
  destruct Hwf as (Hip & Hp & Hn).
  unfold IPv4Obj.netmask, IPv4Obj.hostmask, IPv4Obj.numhosts, IPv4Obj.broadcast,
    ipaddress.broadcast_address.
  fold (IPv4Obj.prefixlen x).
  rewrite (hostmask_value 32 ltac:(lia)), (netmask_value 32 ltac:(lia)) by lia.
  set (k := 32 - IPv4Obj.prefixlen x) in *.
  assert (Hk : 0 < 2 ^ k) by (apply Z.pow_pos_nonneg; lia).
  assert (Hland : Z.land (IPv4Obj.as_decimal_network x) (2 ^ k - 1) = 0).
  { rewrite land_low_bits by lia. rewrite Hblock. apply Z.mod_mul. lia. }
  split; [change (2 ^ 32) with 4294967296; lia|]. split; [reflexivity|].
  split; [exact Hland|]. split.
  - f_equal.
    replace (ipaddress.network_address (IPv4Obj.network_object x))
      with (IPv4Obj.as_decimal_network x) by (rewrite Hnet, Hn; reflexivity).
    pose proof (Z.add_lor_land (IPv4Obj.as_decimal_network x) (2 ^ k - 1)).
    lia.
  - rewrite Hblock.
    pose proof (Z.div_mod (IPv4Obj.as_decimal x) (2 ^ k) ltac:(lia)).
    pose proof (Z.mod_pos_bound (IPv4Obj.as_decimal x) (2 ^ k) Hk). lia.
Qed.

(** X5. The [prefixlen] setter keeps the host address and rebuilds the
    network; setting the old length again gives the old object back. A
    length outside 0..32 is refused. *)
Theorem IPv4Obj_prefixlen_setter_round_trip (x : IPv4Obj.t) (plen : Z) :
  IPv4Obj.wf x ->
  (0 <= plen <= 32 ->
   exists y,
     IPv4Obj.set_prefixlen x plen = Ok y /\ IPv4Obj.wf y /\
     IPv4Obj.prefixlen y = plen /\
     IPv4Obj.as_decimal y = IPv4Obj.as_decimal x /\
     IPv4Obj.as_decimal_network y
     = IPv4Obj.as_decimal x / 2 ^ (32 - plen) * 2 ^ (32 - plen) /\
     IPv4Obj.set_prefixlen y (IPv4Obj.prefixlen x) = Ok x) /\
  (~ 0 <= plen <= 32 ->
   IPv4Obj.set_prefixlen x plen = Raise NetmaskValueError).
Proof.
  intros Hwf. split.
  - intros Hp. pose proof Hwf as (Hip & Hpx & Hn).
    destruct (IPv4Obj_set_prefixlen_wf x plen Hip Hp) as (y & Hy & Hwy & Hiy & Hpy).
    exists y. split; [exact Hy|]. split; [exact Hwy|]. split; [exact Hpy|].
    assert (Hdy : IPv4Obj.as_decimal y = IPv4Obj.as_decimal x)
      by (rewrite !IPv4Obj_as_decimal by assumption; exact Hiy).
    split; [exact Hdy|]. split.
    + rewrite (IPv4Obj_network_block y Hwy), Hdy, Hpy. reflexivity.
    + destruct (IPv4Obj_set_prefixlen_wf y (IPv4Obj.prefixlen x))
        as (z & Hz & Hwz & Hiz & Hpz); [apply Hwy | exact Hpx |].
      rewrite Hz. f_equal. apply IPv4Obj_wf_eq; try assumption; congruence.
  - intros Hp. unfold IPv4Obj.set_prefixlen, ipaddress.Network_of.
    destruct (Z.ltb_spec plen 0); [reflexivity|].
    destruct (Z.ltb_spec 32 plen); [reflexivity|]. lia.
Qed.

Lemma IPv4Obj_add_ok (x : IPv4Obj.t) (k : Z) :
  IPv4Obj.wf x -> 0 <= IPv4Obj.as_decimal x + k <= 4294967295 ->
  exists y, IPv4Obj.__add__ x k = Ok y /\ IPv4Obj.wf y /\
            IPv4Obj.as_decimal y = IPv4Obj.as_decimal x + k /\
            IPv4Obj.prefixlen y = IPv4Obj.prefixlen x.
Proof.
  intros Hx Hr. unfold IPv4Obj.__add__.
  rewrite !assert_true by (apply Z.leb_le || apply Z.geb_le; lia).
  cbn [bind]. rewrite IPv4Obj_of_int_ok by lia. cbn [bind].
  destruct Hx as (_ & Hp & _).
  destruct (IPv4Obj_set_prefixlen_wf
              (IPv4Obj.mk (IPv4Obj.as_decimal x + k)
                 (ipaddress.mk_Network
                    (Z.land (IPv4Obj.as_decimal x + k)
                            (ipaddress.netmask 32 32)) 32))
              (IPv4Obj.prefixlen x)) as (y & Hy & Hwy & Hip & Hpl);
    [exact Hr | exact Hp |].
  exists y. split; [exact Hy|]. split; [exact Hwy|]. split; [|exact Hpl].
  rewrite (IPv4Obj_as_decimal y) by assumption. exact Hip.
Qed.

(** X6. Additions compose, adding zero changes nothing, and subtracting [n]
    is adding [-n], errors included. *)
Theorem IPv4Obj_add_composes (x : IPv4Obj.t) (n m : Z) :
  IPv4Obj.wf x ->
  IPv4Obj.__sub__ x n = IPv4Obj.__add__ x (- n) /\
  IPv4Obj.__add__ x 0 = Ok x /\
  (0 <= IPv4Obj.as_decimal x + n <= 4294967295 ->
   exists y,
     IPv4Obj.__add__ x n = Ok y /\
     IPv4Obj.__add__ y m = IPv4Obj.__add__ x (n + m)).
Proof.
  intros Hwf.
  assert (Hd : 0 <= IPv4Obj.as_decimal x <= 4294967295)
    by (rewrite IPv4Obj_as_decimal by assumption; apply Hwf).
  split; [|split].
  - unfold IPv4Obj.__sub__, IPv4Obj.__add__.
    replace (IPv4Obj.as_decimal x + - n) with (IPv4Obj.as_decimal x - n) by lia.
    reflexivity.
  - destruct (IPv4Obj_add_ok x 0 Hwf) as (y & Hy & Hwy & Hdy & Hpy); [lia|].
    rewrite Hy. f_equal. apply IPv4Obj_wf_eq; try assumption.
    rewrite <- !IPv4Obj_as_decimal by assumption. lia.
  - intros Hr.
    destruct (IPv4Obj_add_ok x n Hwf Hr) as (y & Hy & Hwy & Hdy & Hpy).
    exists y. split; [exact Hy|].
    destruct (Z.le_gt_cases 0 (IPv4Obj.as_decimal x + (n + m))) as [Hlo|Hlo];
      [destruct (Z.le_gt_cases (IPv4Obj.as_decimal x + (n + m)) 4294967295)
        as [Hhi|Hhi]|].
    + destruct (IPv4Obj_add_ok y m Hwy) as (z & Hz & Hwz & Hdz & Hpz); [lia|].
      destruct (IPv4Obj_add_ok x (n + m) Hwf) as (w & Hw & Hww & Hdw & Hpw);
        [lia|].
      rewrite Hz, Hw. f_equal. apply IPv4Obj_wf_eq; try assumption.
      * rewrite <- !IPv4Obj_as_decimal by assumption. lia.
      * congruence.
    + unfold IPv4Obj.__add__. rewrite Hdy.
      replace (IPv4Obj.as_decimal x + n + m)
        with (IPv4Obj.as_decimal x + (n + m)) by lia.
      destruct (Z.leb_spec (IPv4Obj.as_decimal x + (n + m)) 4294967295); [lia|].
      reflexivity.
    + unfold IPv4Obj.__add__. rewrite Hdy.
      replace (IPv4Obj.as_decimal x + n + m)
        with (IPv4Obj.as_decimal x + (n + m)) by lia.
      destruct (Z.leb_spec (IPv4Obj.as_decimal x + (n + m)) 4294967295); [|lia].
      rewrite Z.geb_leb.
      destruct (Z.leb_spec 0 (IPv4Obj.as_decimal x + (n + m))); [lia|].
      reflexivity.
Qed.

(** X7. An object built from an integer gives the integer back: a host with
    mask length 32 whose network number is the integer itself. Integers
    outside the range of the family are refused. *)
Theorem of_int_round_trip (n : Z) :
  (0 <= n <= 4294967295 ->
   exists x, IPv4Obj.of_int n = Ok x /\ IPv4Obj.wf x /\
             IPv4Obj.__int__ x = n /\ IPv4Obj.__index__ x = n /\
             IPv4Obj.prefixlen x = 32 /\ IPv4Obj.as_decimal_network x = n) /\
  (~ 0 <= n <= 4294967295 -> IPv4Obj.of_int n = Raise AddressValueError) /\
  (0 <= n <= 340282366920938463463374607431768211455 ->
   exists x, IPv6Obj.of_int n = Ok x /\ IPv6Obj.wf x /\
             IPv6Obj.__int__ x = n /\ IPv6Obj.__index__ x = n /\
             IPv6Obj.prefixlen x = 128 /\ IPv6Obj.as_decimal_network x = n) /\
  (~ 0 <= n <= 340282366920938463463374607431768211455 ->
   IPv6Obj.of_int n = Raise AddressValueError).
Proof.
  split; [|split; [|split]].
  - intros Hn. rewrite IPv4Obj_of_int_ok by assumption. eexists.
    split; [reflexivity|].
    assert (Hl : Z.land n (ipaddress.netmask 32 32) = n).
    { rewrite (land_netmask 32 ltac:(lia)) by (change (2 ^ 32) with 4294967296; lia).
      change (2 ^ (32 - 32)) with 1. rewrite Z.div_1_r. lia. }
    assert (Hwf : IPv4Obj.wf (IPv4Obj.mk n (ipaddress.mk_Network
                    (Z.land n (ipaddress.netmask 32 32)) 32))).
    { unfold IPv4Obj.wf, IPv4Obj.prefixlen.
      cbn [IPv4Obj.ip_object IPv4Obj.network_object
           ipaddress.prefixlen ipaddress.network_address].
      repeat split; lia. }
    split; [exact Hwf|].
    unfold IPv4Obj.__int__, IPv4Obj.__index__.
    rewrite IPv4Obj_as_decimal_network, IPv4Obj_as_decimal by assumption.
    unfold IPv4Obj.prefixlen.
    cbn [IPv4Obj.ip_object IPv4Obj.network_object
         ipaddress.prefixlen ipaddress.network_address].
    repeat split; try reflexivity. exact Hl.
  - intros Hn. unfold IPv4Obj.of_int, ipaddress.Address.
    change (ipaddress.ALL_ONES 32) with 4294967295.
    destruct (Z.ltb_spec n 0); [reflexivity|].
    destruct (Z.ltb_spec 4294967295 n); [reflexivity|]. lia.
  - intros Hn. rewrite IPv6Obj_of_int_ok by assumption. eexists.
    split; [reflexivity|].
    assert (Hl : Z.land n (ipaddress.netmask 128 128) = n).
    { rewrite (land_netmask 128 ltac:(lia))
        by (change (2 ^ 128) with 340282366920938463463374607431768211456; lia).
      change (2 ^ (128 - 128)) with 1. rewrite Z.div_1_r. lia. }
    assert (Hwf : IPv6Obj.wf (IPv6Obj.mk n (ipaddress.mk_Network
                    (Z.land n (ipaddress.netmask 128 128)) 128))).
    { unfold IPv6Obj.wf, IPv6Obj.prefixlen.
      cbn [IPv6Obj.ip_object IPv6Obj.network_object
           ipaddress.prefixlen ipaddress.network_address].
      repeat split; lia. }
    split; [exact Hwf|].
    unfold IPv6Obj.__int__, IPv6Obj.__index__.
    rewrite IPv6Obj_as_decimal_network, IPv6Obj_as_decimal by assumption.
    unfold IPv6Obj.prefixlen.
    cbn [IPv6Obj.ip_object IPv6Obj.network_object
         ipaddress.prefixlen ipaddress.network_address].
    repeat split; try reflexivity. exact Hl.
  - intros Hn. unfold IPv6Obj.of_int, ipaddress.Address.
    change (ipaddress.ALL_ONES 128) with 340282366920938463463374607431768211455.
    destruct (Z.ltb_spec n 0); [reflexivity|].
    destruct (Z.ltb_spec 340282366920938463463374607431768211455 n);
      [reflexivity|]. lia.
Qed.


(** ** IPv6Obj: what the constructors establish *)

Lemma land_netmask_idem (a p : Z) :
  Z.land (Z.land a (ipaddress.netmask 128 p)) (ipaddress.netmask 128 p)
  = Z.land a (ipaddress.netmask 128 p).
Proof. now rewrite <- Z.land_assoc, Z.land_diag. Qed.

Lemma land_netmask_range (a p : Z) :
  0 <= p <= 128 ->
  0 <= Z.land a (ipaddress.netmask 128 p)
  <= 340282366920938463463374607431768211455.
Proof.
  intros Hp. rewrite Z.land_comm.
  rewrite (netmask_value 128 ltac:(lia) p Hp).
  assert (H0 : 0 < 2 ^ (128 - p)) by (apply Z.pow_pos_nonneg; lia).
  assert (H1 : 2 ^ (128 - p) <= 2 ^ 128) by (apply Z.pow_le_mono_r; lia).
  change (2 ^ 128) with 340282366920938463463374607431768211456 in *.
  pose proof (land_le (340282366920938463463374607431768211456 - 2 ^ (128 - p))
                a ltac:(lia)).
  lia.
Qed.

Lemma IPv6Obj_wf_built (x : IPv6Obj.t) : IPv6Obj.wf x -> IPv6Obj.built x.
Proof.
  intros (Hip & Hp & Hn). unfold IPv6Obj.built. rewrite Hn.
  split; [exact Hip|]. split; [exact Hp|].
  split; [now apply land_netmask_range | apply land_netmask_idem].
Qed.

Lemma IPv6Obj_built_decimal (x : IPv6Obj.t) :
  IPv6Obj.built x -> IPv6Obj.as_decimal x = IPv6Obj.ip_object x.
Proof.
  intros (Hip & _). unfold IPv6Obj.as_decimal, IPv6Obj.ip.
  now apply exploded_sum.
Qed.



Lemma IPv6Obj_set_prefixlen_built (x : IPv6Obj.t) (plen : Z) :
  IPv6Obj.built x ->
  forall y, IPv6Obj.set_prefixlen x plen = Ok y ->
            IPv6Obj.wf y /\ IPv6Obj.ip_object y = IPv6Obj.ip_object x /\
            IPv6Obj.prefixlen y = plen.
Proof.
  intros (Hip & _) y. unfold IPv6Obj.set_prefixlen, ipaddress.Network_of.
  destruct (Z.ltb_spec plen 0); [discriminate|].
  destruct (Z.ltb_spec 128 plen); [discriminate|].
  cbn [orb andb bind]. intros [= <-].
  unfold IPv6Obj.wf, IPv6Obj.prefixlen.
  cbn [IPv6Obj.ip_object IPv6Obj.network_object
       ipaddress.prefixlen ipaddress.network_address].
  repeat split; lia.
Qed.

Lemma IPv6Obj_add_built (x : IPv6Obj.t) (k : Z) :
  IPv6Obj.built x ->
  0 <= IPv6Obj.as_decimal x + k <= 340282366920938463463374607431768211455 ->
  exists y, IPv6Obj.__add__ x k = Ok y /\ IPv6Obj.wf y /\
            IPv6Obj.as_decimal y = IPv6Obj.as_decimal x + k /\
            IPv6Obj.prefixlen y = IPv6Obj.prefixlen x.
Proof.
  intros Hx Hr. unfold IPv6Obj.__add__.
  rewrite !assert_true by (apply Z.leb_le || apply Z.geb_le; lia).
  cbn [bind]. rewrite IPv6Obj_of_int_ok by lia. cbn [bind].
  destruct Hx as (_ & Hp & _).
  destruct (IPv6Obj_set_prefixlen_wf
              (IPv6Obj.mk (IPv6Obj.as_decimal x + k)
                 (ipaddress.mk_Network
                    (Z.land (IPv6Obj.as_decimal x + k)
                            (ipaddress.netmask 128 128)) 128))
              (IPv6Obj.prefixlen x)) as (y & Hy & Hwy & Hip & Hpl);
    [exact Hr | exact Hp |].
  exists y. split; [exact Hy|]. split; [exact Hwy|]. split; [|exact Hpl].
  rewrite (IPv6Obj_as_decimal y) by assumption. exact Hip.
Qed.

Lemma IPv6Obj_sub_add (x : IPv6Obj.t) (k : Z) :
  IPv6Obj.__sub__ x k = IPv6Obj.__add__ x (- k).
Proof.
  unfold IPv6Obj.__sub__, IPv6Obj.__add__.
  replace (IPv6Obj.as_decimal x + - k) with (IPv6Obj.as_decimal x - k) by lia.
  reflexivity.
Qed.

Lemma IPv6Obj_add_result_wf (x y : IPv6Obj.t) (k : Z) :
  IPv6Obj.built x -> IPv6Obj.__add__ x k = Ok y -> IPv6Obj.wf y.
Proof.
  intros Hx Hy.
  destruct (Z.leb_spec (IPv6Obj.as_decimal x + k)
              340282366920938463463374607431768211455) as [H1|H1].
  - destruct (Z.leb_spec 0 (IPv6Obj.as_decimal x + k)) as [H2|H2].
    + destruct (IPv6Obj_add_built x k Hx ltac:(lia)) as (z & Hz & Hw & _).
      congruence.
    + revert Hy. unfold IPv6Obj.__add__.
      rewrite assert_true by (apply Z.leb_le; lia). cbn [bind].
      unfold assert. rewrite Z.geb_leb.
      destruct (Z.leb_spec 0 (IPv6Obj.as_decimal x + k)); [lia|]. discriminate.
  - revert Hy. unfold IPv6Obj.__add__, assert.
    destruct (Z.leb_spec (IPv6Obj.as_decimal x + k)
                340282366920938463463374607431768211455); [lia|]. discriminate.
Qed.

(** Every branch of [__init__], the [prefixlen] setter and both arithmetic
    operators give a built object, and all of them the network of the
    address, but the string branch on text that the pattern matched in
    part. *)
Lemma IPv6Obj_constructors_built (addr masklen plen n : Z)
      (matched : option Z) (strict : bool) (arg x : IPv6Obj.t) :
  (IPv6Obj.of_int addr = Ok x -> IPv6Obj.wf x) /\
  (IPv6Obj.of_addr_masklen addr matched masklen strict = Ok x ->
   IPv6Obj.built x /\ (matched = Some addr -> IPv6Obj.wf x)) /\
  (IPv6Obj.built arg ->
   exists y, IPv6Obj.of_obj arg = Ok y /\ IPv6Obj.wf y /\
             IPv6Obj.ip_object y = IPv6Obj.ip_object arg /\
             IPv6Obj.prefixlen y = IPv6Obj.prefixlen arg) /\
  (forall nw : ipaddress.Network,
      0 <= ipaddress.prefixlen nw <= 128 ->
      0 <= ipaddress.network_address nw
      <= 340282366920938463463374607431768211455 ->
      Z.land (ipaddress.network_address nw)
             (ipaddress.netmask 128 (ipaddress.prefixlen nw))
      = ipaddress.network_address nw ->
      exists y, IPv6Obj.of_network nw = Ok y /\ IPv6Obj.wf y) /\
  (IPv6Obj.of_address addr = Ok x -> IPv6Obj.wf x) /\
  (IPv6Obj.built arg -> IPv6Obj.set_prefixlen arg plen = Ok x ->
   IPv6Obj.wf x) /\
  (IPv6Obj.built arg -> IPv6Obj.__add__ arg n = Ok x -> IPv6Obj.wf x) /\
  (IPv6Obj.built arg -> IPv6Obj.__sub__ arg n = Ok x -> IPv6Obj.wf x) /\
  (IPv6Obj.wf x -> IPv6Obj.built x).
Proof.
  assert (Haddr : forall a v, ipaddress.Address 128 a = Ok v ->
             v = a /\ 0 <= a <= 340282366920938463463374607431768211455).
  { intros a v. unfold ipaddress.Address.
    change (ipaddress.ALL_ONES 128)
      with 340282366920938463463374607431768211455.
    destruct (Z.ltb_spec a 0); [discriminate|].
    destruct (Z.ltb_spec 340282366920938463463374607431768211455 a);
      [discriminate|].
    intros [= <-]. split; [reflexivity | lia]. }
  assert (Hnet : forall a p s nw, ipaddress.Network_of 128 a p s = Ok nw ->
             0 <= p <= 128 /\
             nw = ipaddress.mk_Network (Z.land a (ipaddress.netmask 128 p)) p).
  { intros a p s nw. unfold ipaddress.Network_of.
    destruct (Z.ltb_spec p 0); [discriminate|].
    destruct (Z.ltb_spec 128 p); [discriminate|]. cbn [orb].
    destruct (s && _); [discriminate|]. intros [= <-]. split; [lia|reflexivity]. }
  split; [|split; [|split; [|split; [|split; [|split; [|split; [|split]]]]]]].
  - unfold IPv6Obj.of_int.
    destruct (ipaddress.Address 128 addr) as [v|] eqn:Ea; [|discriminate].
    destruct (Haddr _ _ Ea) as [-> Hr]. cbn [bind].
    destruct (ipaddress.Network_of 128 addr 128 false) as [nw|] eqn:En;
      [|discriminate].
    destruct (Hnet _ _ _ _ En) as [Hp ->]. intros [= <-].
    unfold IPv6Obj.wf, IPv6Obj.prefixlen.
    cbn [IPv6Obj.ip_object IPv6Obj.network_object
         ipaddress.prefixlen ipaddress.network_address].
    repeat split; lia.
  - unfold IPv6Obj.of_addr_masklen.
    destruct matched as [group1|]; [|discriminate].
    destruct (ipaddress.Network_of 128 addr masklen strict) as [nw|] eqn:En;
      [|discriminate].
    destruct (Hnet _ _ _ _ En) as [Hp ->]. cbn [bind].
    destruct (ipaddress.Address 128 group1) as [v|] eqn:Ea; [|discriminate].
    destruct (Haddr _ _ Ea) as [-> Hr]. intros [= <-].
    unfold IPv6Obj.built, IPv6Obj.wf, IPv6Obj.prefixlen.
    cbn [IPv6Obj.ip_object IPv6Obj.network_object
         ipaddress.prefixlen ipaddress.network_address].
    split.
    + split; [exact Hr|]. split; [exact Hp|].
      split; [now apply land_netmask_range | apply land_netmask_idem].
    + intros [= ->]. repeat split; lia.
  - intros (Hip & Hp & _). unfold IPv6Obj.of_obj.
    rewrite Network_of_ok by assumption. cbn [bind].
    unfold ipaddress.Address.
    change (ipaddress.ALL_ONES 128)
      with 340282366920938463463374607431768211455.
    destruct (Z.ltb_spec (IPv6Obj.ip_object arg) 0); [lia|].
    destruct (Z.ltb_spec 340282366920938463463374607431768211455
                (IPv6Obj.ip_object arg)); [lia|].
    cbn [orb bind]. eexists. split; [reflexivity|].
    unfold IPv6Obj.wf, IPv6Obj.prefixlen.
    cbn [IPv6Obj.ip_object IPv6Obj.network_object
         ipaddress.prefixlen ipaddress.network_address].
    unfold IPv6Obj.prefixlen in Hp. repeat split; lia.
  - intros nw Hp Hr Hal. unfold IPv6Obj.of_network, ipaddress.Address.
    change (ipaddress.ALL_ONES 128)
      with 340282366920938463463374607431768211455.
    destruct (Z.ltb_spec (ipaddress.network_address nw) 0); [lia|].
    destruct (Z.ltb_spec 340282366920938463463374607431768211455
                (ipaddress.network_address nw)); [lia|].
    cbn [orb bind]. eexists. split; [reflexivity|].
    unfold IPv6Obj.wf, IPv6Obj.prefixlen.
    cbn [IPv6Obj.ip_object IPv6Obj.network_object]. now rewrite Hal.
  - unfold IPv6Obj.of_address.
    destruct (ipaddress.Network_of 128 addr 128 true) as [nw|] eqn:En;
      [|discriminate].
    destruct (Hnet _ _ _ _ En) as [Hp ->]. cbn [bind].
    destruct (ipaddress.Address 128 addr) as [v|] eqn:Ea; [|discriminate].
    destruct (Haddr _ _ Ea) as [-> Hr]. intros [= <-].
    unfold IPv6Obj.wf, IPv6Obj.prefixlen.
    cbn [IPv6Obj.ip_object IPv6Obj.network_object
         ipaddress.prefixlen ipaddress.network_address].
    repeat split; lia.
  - intros Hb Hs. now destruct (IPv6Obj_set_prefixlen_built arg plen Hb x Hs).
  - intros Hb. now apply IPv6Obj_add_result_wf.
  - intros Hb. rewrite IPv6Obj_sub_add. now apply IPv6Obj_add_result_wf.
  - apply IPv6Obj_wf_built.
Qed.

(** ** IPv6Obj *)



(** X10. IPv6 arithmetic: subtracting [n] is adding [-n]; whenever the sum
    is an IPv6 integer, adding [n] gives the address moved by [n] with the
    mask length kept and the network of the new address, and subtracting
    [n] again gives an object [==] to the first, with its address and mask
    length. It is the first object itself exactly when the network of that
    one was the network of its address:
    [(IPv6Obj("::ffff:1.2.3.4") + 1) - 1] is [IPv6Obj("::ffff:1")]. *)
Theorem IPv6Obj_arithmetic_round_trip (addr : IPv6Obj.t) (n : Z) :
  IPv6Obj.built addr ->
  IPv6Obj.__sub__ addr n = IPv6Obj.__add__ addr (- n) /\
  (0 <= IPv6Obj.as_decimal addr + n <= 340282366920938463463374607431768211455 ->
   exists sum back,
     IPv6Obj.__add__ addr n = Ok sum /\
     IPv6Obj.wf sum /\
     IPv6Obj.as_decimal sum = IPv6Obj.as_decimal addr + n /\
     IPv6Obj.prefixlen sum = IPv6Obj.prefixlen addr /\
     IPv6Obj.__sub__ sum n = Ok back /\
     IPv6Obj.wf back /\
     IPv6Obj.as_decimal back = IPv6Obj.as_decimal addr /\
     IPv6Obj.prefixlen back = IPv6Obj.prefixlen addr /\
     IPv6Obj.__eq__ back (IPv6Obj.view addr) = Ok true /\
     (back = addr <-> IPv6Obj.wf addr)) /\
  (IPv6Obj.of_addr_masklen 281470698652420 (Some 4294901761) 128 false
   = Ok addr6_ffff_1_2_3_4 /\
   exists sum,
     IPv6Obj.__add__ addr6_ffff_1_2_3_4 1 = Ok sum /\
     IPv6Obj.__sub__ sum 1 = Ok addr6_ffff_1 /\
     addr6_ffff_1 <> addr6_ffff_1_2_3_4).
Proof.
  intros Hb.
  split; [apply IPv6Obj_sub_add|]. split.
  - intros Hr.
    assert (Hd : 0 <= IPv6Obj.as_decimal addr
                 <= 340282366920938463463374607431768211455)
      by (rewrite IPv6Obj_built_decimal by assumption; apply Hb).
    destruct (IPv6Obj_add_built addr n Hb Hr) as (sum & Hs & Hws & Hds & Hps).
    destruct (IPv6Obj_add_built sum (- n) (IPv6Obj_wf_built sum Hws))
      as (back & Hbk & Hwb & Hdb & Hpb); [lia|].
    exists sum, back. do 4 (split; [assumption|]).
    rewrite IPv6Obj_sub_add. split; [exact Hbk|]. split; [exact Hwb|].
    assert (Hda : IPv6Obj.as_decimal back = IPv6Obj.as_decimal addr) by lia.
    assert (Hpa : IPv6Obj.prefixlen back = IPv6Obj.prefixlen addr) by congruence.
    split; [exact Hda|]. split; [exact Hpa|]. split.
    + unfold IPv6Obj.view. rewrite IPv6Obj_eq_attrs, Hda, Hpa, !Z.eqb_refl.
      reflexivity.
    + split.
      * intros <-. exact Hwb.
      * intros Hwa. apply IPv6Obj_wf_eq; try assumption.
        now rewrite <- !IPv6Obj_as_decimal by assumption.
  - split; [vm_compute; reflexivity|].
    eexists. split; [vm_compute; reflexivity|].
    split; [vm_compute; reflexivity | discriminate].
Qed.

(** ** Instances on the sample objects *)

Lemma IPv4Obj_containment_preorder_witness :
  IPv4Obj.wf net_4_0_0_0_8 /\ IPv4Obj.wf net_4_0_0_0_16 /\
  IPv4Obj.wf addr_4_0_1_1 /\
  IPv4Obj.__contains__ net_4_0_0_0_8 (IPv4Obj.view net_4_0_0_0_8) = Ok true /\
  (IPv4Obj.__contains__ net_4_0_0_0_8 (IPv4Obj.view net_4_0_0_0_16) = Ok true ->
   IPv4Obj.__contains__ net_4_0_0_0_16 (IPv4Obj.view addr_4_0_1_1) = Ok true ->
   IPv4Obj.__contains__ net_4_0_0_0_8 (IPv4Obj.view addr_4_0_1_1) = Ok true).
Proof.
  assert (H8 : IPv4Obj.wf net_4_0_0_0_8) by solve_wf.
  assert (H16 : IPv4Obj.wf net_4_0_0_0_16) by solve_wf.
  assert (H32 : IPv4Obj.wf addr_4_0_1_1) by solve_wf.
  split; [exact H8|]. split; [exact H16|]. split; [exact H32|].
  destruct (IPv4Obj_containment_preorder
              net_4_0_0_0_8 net_4_0_0_0_16 addr_4_0_1_1 H8 H16 H32)
    as (Hrefl & Htrans & _).
  split; [exact Hrefl | exact Htrans].
Defined.

Lemma IPv4Obj_contains_prefix_match_witness :
  IPv4Obj.wf net_4_0_0_0_16 /\ IPv4Obj.wf addr_4_0_1_1 /\
  IPv4Obj.__contains__ net_4_0_0_0_16 (IPv4Obj.view addr_4_0_1_1) = Ok true.
Proof.
  assert (H16 : IPv4Obj.wf net_4_0_0_0_16) by solve_wf.
  assert (H32 : IPv4Obj.wf addr_4_0_1_1) by solve_wf.
  split; [exact H16|]. split; [exact H32|].
  apply (proj1 (IPv4Obj_contains_prefix_match net_4_0_0_0_16 addr_4_0_1_1
                  H16 H32)).
  vm_compute. split; [discriminate | reflexivity].
Defined.

Lemma IPv4Obj_longest_match_sorts_higher_witness :
  IPv4Obj.wf net_4_0_0_0_8 /\ IPv4Obj.wf net_4_0_0_0_16 /\
  IPv4Obj.wf addr_4_0_1_1 /\
  IPv4Obj.__contains__ net_4_0_0_0_8 (IPv4Obj.view addr_4_0_1_1) = Ok true /\
  IPv4Obj.__contains__ net_4_0_0_0_16 (IPv4Obj.view addr_4_0_1_1) = Ok true /\
  IPv4Obj.prefixlen net_4_0_0_0_8 < IPv4Obj.prefixlen net_4_0_0_0_16 /\
  IPv4Obj.__lt__ net_4_0_0_0_8 (IPv4Obj.view net_4_0_0_0_16) = Ok true.
Proof.
  assert (H8 : IPv4Obj.wf net_4_0_0_0_8) by solve_wf.
  assert (H16 : IPv4Obj.wf net_4_0_0_0_16) by solve_wf.
  assert (H32 : IPv4Obj.wf addr_4_0_1_1) by solve_wf.
  assert (Ha : IPv4Obj.__contains__ net_4_0_0_0_8 (IPv4Obj.view addr_4_0_1_1)
               = Ok true) by (vm_compute; reflexivity).
  assert (Hb : IPv4Obj.__contains__ net_4_0_0_0_16 (IPv4Obj.view addr_4_0_1_1)
               = Ok true) by (vm_compute; reflexivity).
  assert (Hlt : IPv4Obj.prefixlen net_4_0_0_0_8
                < IPv4Obj.prefixlen net_4_0_0_0_16) by (vm_compute; reflexivity).
  split; [exact H8|]. split; [exact H16|]. split; [exact H32|].
  split; [exact Ha|]. split; [exact Hb|]. split; [exact Hlt|].
  apply (IPv4Obj_longest_match_sorts_higher
           net_4_0_0_0_8 net_4_0_0_0_16 addr_4_0_1_1 H8 H16 H32 Ha Hb Hlt).
Defined.

Lemma IPv4Obj_masks_and_broadcast_witness :
  IPv4Obj.wf host_10_1_1_77_24 /\
  IPv4Obj.broadcast host_10_1_1_77_24
  = Ok (IPv4Obj.as_decimal_network host_10_1_1_77_24
        + IPv4Obj.numhosts host_10_1_1_77_24 - 1) /\
  IPv4Obj.broadcast host_10_1_1_77_24 = Ok 167838207.
Proof.
  assert (H : IPv4Obj.wf host_10_1_1_77_24) by solve_wf.
  split; [exact H|]. split; [|reflexivity].
  apply (IPv4Obj_masks_and_broadcast host_10_1_1_77_24 H).
Defined.

Lemma IPv4Obj_prefixlen_setter_round_trip_witness :
  IPv4Obj.wf host_10_1_1_77_24 /\ 0 <= 16 <= 32 /\
  exists y,
    IPv4Obj.set_prefixlen host_10_1_1_77_24 16 = Ok y /\ IPv4Obj.wf y /\
    IPv4Obj.prefixlen y = 16 /\
    IPv4Obj.as_decimal y = IPv4Obj.as_decimal host_10_1_1_77_24 /\
    IPv4Obj.as_decimal_network y
    = IPv4Obj.as_decimal host_10_1_1_77_24 / 2 ^ (32 - 16) * 2 ^ (32 - 16) /\
    IPv4Obj.set_prefixlen y (IPv4Obj.prefixlen host_10_1_1_77_24)
    = Ok host_10_1_1_77_24.
Proof.
  assert (H : IPv4Obj.wf host_10_1_1_77_24) by solve_wf.
  assert (Hp : 0 <= 16 <= 32) by lia.
  split; [exact H|]. split; [exact Hp|].
  apply (IPv4Obj_prefixlen_setter_round_trip host_10_1_1_77_24 16 H). exact Hp.
Defined.

Lemma IPv4Obj_add_composes_witness :
  IPv4Obj.wf host_10_1_1_77_24 /\
  0 <= IPv4Obj.as_decimal host_10_1_1_77_24 + 200 <= 4294967295 /\
  IPv4Obj.__sub__ host_10_1_1_77_24 200 = IPv4Obj.__add__ host_10_1_1_77_24 (- 200) /\
  exists y,
    IPv4Obj.__add__ host_10_1_1_77_24 200 = Ok y /\
    IPv4Obj.__add__ y 56 = IPv4Obj.__add__ host_10_1_1_77_24 (200 + 56).
Proof.
  assert (H : IPv4Obj.wf host_10_1_1_77_24) by solve_wf.
  assert (Hr : 0 <= IPv4Obj.as_decimal host_10_1_1_77_24 + 200 <= 4294967295)
    by (vm_compute; split; discriminate).
  split; [exact H|]. split; [exact Hr|].
  destruct (IPv4Obj_add_composes host_10_1_1_77_24 200 56 H) as (Hs & _ & Hc).
  split; [exact Hs | exact (Hc Hr)].
Defined.

Lemma of_int_round_trip_witness :
  0 <= 2886729984 <= 4294967295 /\
  (exists x, IPv4Obj.of_int 2886729984 = Ok x /\ IPv4Obj.wf x /\
             IPv4Obj.__int__ x = 2886729984 /\
             IPv4Obj.__index__ x = 2886729984 /\
             IPv4Obj.prefixlen x = 32 /\
             IPv4Obj.as_decimal_network x = 2886729984) /\
  ~ 0 <= 4294967296 <= 4294967295 /\
  IPv4Obj.of_int 4294967296 = Raise AddressValueError.
Proof.
  assert (H1 : 0 <= 2886729984 <= 4294967295) by lia.
  assert (H2 : ~ 0 <= 4294967296 <= 4294967295) by lia.
  split; [exact H1|]. split; [|split; [exact H2|]].
  - apply (of_int_round_trip 2886729984). exact H1.
  - apply (of_int_round_trip 4294967296). exact H2.
Defined.



Lemma IPv6Obj_arithmetic_round_trip_witness :
  IPv6Obj.built addr6_ffff_1_2_3_4 /\
  0 <= IPv6Obj.as_decimal addr6_ffff_1_2_3_4 + 70000
  <= 340282366920938463463374607431768211455 /\
  exists sum back,
    IPv6Obj.__add__ addr6_ffff_1_2_3_4 70000 = Ok sum /\
    IPv6Obj.wf sum /\
    IPv6Obj.as_decimal sum = IPv6Obj.as_decimal addr6_ffff_1_2_3_4 + 70000 /\
    IPv6Obj.prefixlen sum = IPv6Obj.prefixlen addr6_ffff_1_2_3_4 /\
    IPv6Obj.__sub__ sum 70000 = Ok back /\
    IPv6Obj.wf back /\
    IPv6Obj.as_decimal back = IPv6Obj.as_decimal addr6_ffff_1_2_3_4 /\
    IPv6Obj.prefixlen back = IPv6Obj.prefixlen addr6_ffff_1_2_3_4 /\
    IPv6Obj.__eq__ back (IPv6Obj.view addr6_ffff_1_2_3_4) = Ok true /\
    (back = addr6_ffff_1_2_3_4 <-> IPv6Obj.wf addr6_ffff_1_2_3_4).
Proof.
  assert (H : IPv6Obj.built addr6_ffff_1_2_3_4)
    by (unfold IPv6Obj.built; vm_compute;
        repeat split; solve [discriminate | reflexivity]).
  assert (Hr : 0 <= IPv6Obj.as_decimal addr6_ffff_1_2_3_4 + 70000
               <= 340282366920938463463374607431768211455)
    by (vm_compute; split; discriminate).
  split; [exact H|]. split; [exact Hr|].
  apply (IPv6Obj_arithmetic_round_trip addr6_ffff_1_2_3_4 70000 H). exact Hr.
Defined.

(* ------------------------------------------------------------------ *)
(** * Further properties of the range expander, of [L4Object] and of
      [is_valid_ipv4_addr] *)

(** ** Decimal literals *)

Lemma all_digits_string_of_uint (d : Decimal.uint) :
  all_digits (NilEmpty.string_of_uint d) = true.
Proof. induction d; cbn; auto. Qed.

Ltac eval_digits :=
  repeat match goal with
  | |- context [digit_value ?c] =>
      let v := eval vm_compute in (digit_value c) in
      change (digit_value c) with v
  | |- context [Z.of_N (Unsigned.of_lu (?D Decimal.Nil))] =>
      let v := eval vm_compute in (Z.of_N (Unsigned.of_lu (D Decimal.Nil))) in
      change (Z.of_N (Unsigned.of_lu (D Decimal.Nil))) with v
  end;
  change (Z.of_N 10) with 10.

Lemma int_digits_string_of_uint (d : Decimal.uint) (acc : Z) :
  int_digits acc (NilEmpty.string_of_uint d)
  = Some (acc * 10 ^ Z.of_N (Unsigned.usize d)
          + Z.of_N (Unsigned.of_lu (Decimal.rev d))).
Proof.
  revert acc. induction d; intros acc;
    [cbn; f_equal; lia|..];
    cbn [NilEmpty.string_of_uint int_digits];
    match goal with |- context [is_digit ?c] => change (is_digit c) with true end;
    cbv iota; rewrite IHd;
    match goal with
    | |- context [Decimal.rev (?D d)] =>
        change (Decimal.rev (D d)) with (Decimal.revapp d (D Decimal.Nil));
        rewrite (Unsigned.of_lu_revapp d (D Decimal.Nil))
    end;
    cbn [Unsigned.usize]; rewrite N2Z.inj_succ, Z.pow_succ_r by lia;
    rewrite N2Z.inj_add, N2Z.inj_mul, N2Z.inj_pow;
    f_equal; eval_digits; ring.
Qed.

Lemma string_of_uint_nonempty (d : Decimal.uint) :
  d <> Decimal.Nil -> NilEmpty.string_of_uint d <> EmptyString.
Proof. destruct d; cbn; congruence. Qed.

Lemma int_literal_string_of_uint (d : Decimal.uint) :
  d <> Decimal.Nil ->
  int_literal (NilEmpty.string_of_uint d) = Some (Z.of_N (Pos.of_uint d)).
Proof.
  intros Hd. rewrite Unsigned.of_uint_alt.
  destruct d; [congruence|..];
    cbn [NilEmpty.string_of_uint int_literal];
    match goal with |- context [is_digit ?c] => change (is_digit c) with true end;
    cbv iota; rewrite int_digits_string_of_uint;
    match goal with
    | |- context [Decimal.rev (?D d)] =>
        change (Decimal.rev (D d)) with (Decimal.revapp d (D Decimal.Nil));
        rewrite (Unsigned.of_lu_revapp d (D Decimal.Nil))
    end;
    rewrite N2Z.inj_add, N2Z.inj_mul, N2Z.inj_pow;
    f_equal; eval_digits; ring.
Qed.

(** [str(n)] of a natural number: digits only, and at least one. *)
Lemma str_of_int_digits (n : Z) :
  0 <= n ->
  exists c rest, str_of_int n = String c rest /\ is_digit c = true /\
                 all_digits rest = true.
Proof.
  intros Hn. unfold str_of_int. destruct n as [|p|p]; [| |lia].
  - exists "0"%char, EmptyString. auto.
  - cbn [Z.to_int NilZero.string_of_int]. unfold NilZero.string_of_uint.
    pose proof (Unsigned.to_uint_nonnil p) as Hnil.
    pose proof (all_digits_string_of_uint (Pos.to_uint p)) as Hall.
    destruct (Pos.to_uint p) eqn:E; [congruence|..];
      cbn [NilEmpty.string_of_uint] in *;
      eexists _, _; (split; [reflexivity|]); (split; [reflexivity|]);
      exact Hall.
Qed.

Lemma int_literal_str_of_int (n : Z) :
  0 <= n -> int_literal (str_of_int n) = Some n.
Proof.
  intros Hn. unfold str_of_int. destruct n as [|p|p]; [reflexivity| |lia].
  cbn [Z.to_int NilZero.string_of_int]. unfold NilZero.string_of_uint.
  pose proof (Unsigned.to_uint_nonnil p) as Hnil.
  transitivity (int_literal (NilEmpty.string_of_uint (Pos.to_uint p))).
  - destruct (Pos.to_uint p); congruence.
  - rewrite int_literal_string_of_uint, Unsigned.of_to by exact Hnil.
    reflexivity.
Qed.

Lemma every_app (p : ascii -> bool) (a b : string) :
  every p (a ++ b) = every p a && every p b.
Proof.
  induction a as [|c a IH]; cbn; [reflexivity|].
  rewrite IH. apply andb_assoc.
Qed.

Lemma every_impl (p q : ascii -> bool) (s : string) :
  (forall c, p c = true -> q c = true) -> every p s = true -> every q s = true.
Proof.
  intros Hpq. induction s as [|c s IH]; cbn; [reflexivity|].
  intros H. apply andb_true_iff in H as [Hc Hs].
  rewrite (Hpq c Hc), (IH Hs). reflexivity.
Qed.

Lemma all_digits_every (s : string) : all_digits s = every is_digit s.
Proof. induction s as [|c s IH]; cbn; [reflexivity|]. now rewrite IH. Qed.

Lemma rstrip_none (p : ascii -> bool) (s : string) :
  every (fun c => negb (p c)) s = true -> rstrip p s = s.
Proof.
  induction s as [|c s IH]; cbn; [reflexivity|].
  intros H. apply andb_true_iff in H as [Hc Hs]. rewrite (IH Hs).
  apply negb_true_iff in Hc. rewrite Hc. now destruct s.
Qed.

Lemma lstrip_none (p : ascii -> bool) (s : string) :
  every (fun c => negb (p c)) s = true -> lstrip p s = s.
Proof.
  destruct s as [|c s]; cbn; [reflexivity|].
  intros H. apply andb_true_iff in H as [Hc _].
  apply negb_true_iff in Hc. now rewrite Hc.
Qed.

(** Facts about single characters, by cases on the eight bits. *)
Ltac by_bits c :=
  destruct c as [[|] [|] [|] [|] [|] [|] [|] [|]];
  try reflexivity; try discriminate.

Lemma digit_not_space (c : ascii) : is_digit c = true -> negb (is_space c) = true.
Proof. by_bits c. Qed.

Lemma digit_not_c_space (c : ascii) :
  is_digit c = true -> negb (is_c_space c) = true.
Proof. by_bits c. Qed.

Lemma strip_digits (s : string) : all_digits s = true -> strip s = s.
Proof.
  rewrite all_digits_every. intros H. unfold strip.
  rewrite lstrip_none, rstrip_none;
    eauto using every_impl, digit_not_space.
Qed.

Lemma digit_not_sign (c : ascii) (rest : string) :
  is_digit c = true ->
  match String c rest with
  | String "+" r => int_literal r
  | String "-" r => option_map Z.opp (int_literal r)
  | _ => int_literal (String c rest)
  end = int_literal (String c rest).
Proof. by_bits c. Qed.

(** [int(str(n)) == n] for a natural number. *)
Lemma int_of_str_str_of_int (n : Z) :
  0 <= n -> int_of_str (str_of_int n) = Ok n.
Proof.
  intros Hn. destruct (str_of_int_digits n Hn) as (c & rest & E & Hc & Hr).
  pose proof (int_literal_str_of_int n Hn) as Hlit.
  unfold int_of_str. rewrite E in *.
  assert (Hall : every is_digit (String c rest) = true)
    by (rewrite <- all_digits_every; cbn; now rewrite Hc, Hr).
  rewrite lstrip_none, rstrip_none
    by (eauto using every_impl, digit_not_c_space).
  rewrite digit_not_sign by exact Hc. rewrite Hlit. reflexivity.
Qed.

Lemma str_of_int_all_digits (n : Z) :
  0 <= n -> every is_digit (str_of_int n) = true /\ str_of_int n <> EmptyString.
Proof.
  intros Hn. destruct (str_of_int_digits n Hn) as (c & rest & -> & Hc & Hr).
  split; [|discriminate]. rewrite <- all_digits_every. cbn. now rewrite Hc, Hr.
Qed.

(** ** [split] *)

Lemma split_nonempty (sep : ascii) (s : string) : split sep s <> [].
Proof.
  induction s as [|c s IH]; cbn; [discriminate|].
  destruct (Ascii.eqb c sep); [discriminate|].
  destruct (split sep s); [contradiction|discriminate].
Qed.

Lemma split_none (sep : ascii) (s : string) :
  every (fun c => negb (Ascii.eqb c sep)) s = true -> split sep s = [s].
Proof.
  induction s as [|c s IH]; cbn; [reflexivity|].
  intros H. apply andb_true_iff in H as [Hc Hs].
  apply negb_true_iff in Hc. rewrite Hc, (IH Hs). reflexivity.
Qed.

Lemma split_app (sep : ascii) (a b : string) :
  every (fun c => negb (Ascii.eqb c sep)) a = true ->
  split sep (a ++ b)
  = (a ++ hd EmptyString (split sep b))%string :: tl (split sep b).
Proof.
  induction a as [|c a IH]; cbn [append every].
  - intros _. pose proof (split_nonempty sep b).
    destruct (split sep b); [contradiction|reflexivity].
  - intros H. apply andb_true_iff in H as [Hc Ha].
    apply negb_true_iff in Hc. cbn [split]. rewrite Hc, (IH Ha). reflexivity.
Qed.

Lemma split_sep (sep : ascii) (a b : string) :
  every (fun c => negb (Ascii.eqb c sep)) a = true ->
  split sep (a ++ String sep b) = a :: split sep b.
Proof.
  intros Ha. rewrite split_app by exact Ha. cbn [split].
  rewrite Ascii.eqb_refl. cbn [hd tl]. f_equal.
  clear. induction a; cbn; congruence.
Qed.

Lemma split_concat (sep : ascii) (pieces : list string) :
  pieces <> [] ->
  Forall (fun piece => every (fun c => negb (Ascii.eqb c sep)) piece = true)
         pieces ->
  split sep (String.concat (String sep EmptyString) pieces) = pieces.
Proof.
  induction pieces as [|x xs IH]; [congruence|]. intros _ Hall.
  inversion Hall as [|? ? Hx Hxs]; subst.
  destruct xs as [|y ys].
  - cbn [String.concat]. now apply split_none.
  - cbn [String.concat] in *. cbn [append].
    rewrite split_sep by exact Hx. f_equal. apply IH; [discriminate|exact Hxs].
Qed.

(** ** The pattern, read again on a compressed text *)

Lemma span_spec (p : ascii -> bool) (s a b : string) :
  span p s = (a, b) -> s = (a ++ b)%string /\ every p a = true.
Proof.
  revert a b. induction s as [|c s IH]; cbn; intros a b.
  - intros [= <- <-]. auto.
  - destruct (p c) eqn:Hc.
    + destruct (span p s) as [taken remaining].
      intros [= <- <-]. destruct (IH _ _ eq_refl) as [-> Ht].
      cbn. rewrite Hc, Ht. auto.
    + intros [= <- <-]. auto.
Qed.

Lemma span_app (p : ascii -> bool) (a t : string) :
  every p a = true ->
  match t with String c _ => p c = false | EmptyString => True end ->
  span p (a ++ t) = (a, t).
Proof.
  intros Ha Ht. induction a as [|c a IH]; cbn [append].
  - destruct t as [|c t]; cbn; [reflexivity|]. now rewrite Ht.
  - cbn in Ha. apply andb_true_iff in Ha as [Hc Ha].
    cbn [span]. rewrite Hc, (IH Ha). reflexivity.
Qed.

Lemma slot_split_spec (b : bool) (s p r : string) :
  slot_split b s = Some (p, r) ->
  s = (p ++ r)%string /\
  every (fun c => is_digit c || Ascii.eqb c "/") p = true /\
  exists c p', p = String c p'.
Proof.
  revert b p r. induction s as [|c s IH]; cbn; intros b p r; [discriminate|].
  destruct (is_digit c) eqn:Hd.
  - destruct (slot_split true s) as [[q rem]|] eqn:E; [|discriminate].
    intros [= <- <-]. destruct (IH _ _ _ E) as (-> & Hq & _).
    cbn. rewrite Hd, Hq. eauto.
  - destruct (Ascii.eqb c "/") eqn:Hs; [|discriminate].
    destruct (slot_split false s) as [[q rem]|] eqn:E.
    + intros [= <- <-]. destruct (IH _ _ _ E) as (-> & Hq & _).
      cbn. rewrite Hd, Hs, Hq. eauto.
    + destruct b; [|discriminate]. intros [= <- <-].
      cbn. rewrite Hd, Hs. eauto.
Qed.

Lemma slot_split_none (b : bool) (s : string) :
  every (fun c => negb (Ascii.eqb c "/")) s = true -> slot_split b s = None.
Proof.
  revert b. induction s as [|c s IH]; cbn; intros b; [reflexivity|].
  intros H. apply andb_true_iff in H as [Hc Hs].
  apply negb_true_iff in Hc. rewrite Hc, !IH by exact Hs.
  now destruct (is_digit c).
Qed.

(** The slot path found in front of one tail is found in front of any
    tail that holds no slash. *)
Lemma slot_split_swap (p : string) (b : bool) (r r' : string) :
  slot_split b (p ++ r) = Some (p, r) ->
  (forall b', slot_split b' r' = None) ->
  slot_split b (p ++ r') = Some (p, r').
Proof.
  revert b. induction p as [|c p IH]; intros b H Hr'.
  - cbn [append] in H. apply slot_split_spec in H as (_ & _ & c & p' & [=]).
  - cbn [append slot_split] in *. destruct (is_digit c).
    + destruct (slot_split true (p ++ r)) as [[q rem]|] eqn:E; [|discriminate].
      injection H as <- <-. now rewrite (IH true E Hr').
    + destruct (Ascii.eqb c "/"); [|discriminate].
      destruct (slot_split false (p ++ r)) as [[q rem]|] eqn:E.
      * injection H as <- <-. now rewrite (IH false E Hr').
      * destruct b; [|discriminate]. injection H as Hp Hr.
        subst p. cbn [append]. now rewrite Hr'.
Qed.

Lemma range_match_digits (s t : string) :
  every is_digit s = true ->
  range_match in_digits (s ++ t) = range_match in_digits t.
Proof.
  induction s as [|c s IH]; cbn [append every]; [reflexivity|].
  intros H. apply andb_true_iff in H as [Hc Hs].
  cbn [range_match]. unfold range_step. rewrite Hc. now apply IH.
Qed.

Lemma range_match_number (c : ascii) (s t : string) :
  is_digit c = true -> every is_digit s = true ->
  range_match at_start (String c s ++ t) = range_match in_digits t.
Proof.
  intros Hc Hs. cbn [append range_match]. unfold range_step at 1.
  rewrite Hc. now apply range_match_digits.
Qed.

Lemma drop_prefix_app (a d : string) : drop_prefix a (a ++ d) = Some d.
Proof.
  induction a as [|c a IH]; cbn; [now destruct d|].
  now rewrite Ascii.eqb_refl.
Qed.

Lemma span_every (p : ascii -> bool) (s : string) :
  every p s = true -> span p s = (s, EmptyString).
Proof.
  intros H. pose proof (span_app p s EmptyString H I) as E.
  replace (s ++ "")%string with s in E; [exact E|].
  clear. induction s; cbn; congruence.
Qed.

(** The index of an item that [combine] wrote is read back. *)
Lemma index_of_combined (prefix_str : string) (n : Z) :
  0 <= n ->
  int_of_str (re_sub_prefix prefix_str (prefix_str ++ str_of_int n)) = Ok n.
Proof.
  intros Hn. destruct (str_of_int_all_digits n Hn) as [Hd Hne].
  unfold re_sub_prefix. rewrite drop_prefix_app, (span_every _ _ Hd).
  destruct (str_of_int n) eqn:E; [congruence|]. cbn [String.eqb negb andb orb].
  rewrite <- E. now apply int_of_str_str_of_int.
Qed.

(** ** The atoms that [compressed_str] writes *)

Lemma digit_not_dash (c : ascii) :
  is_digit c = true -> negb (Ascii.eqb c "-") = true.
Proof. by_bits c. Qed.

Lemma digit_not_comma (c : ascii) :
  is_digit c = true -> negb (Ascii.eqb c ",") = true.
Proof. by_bits c. Qed.

Lemma digit_not_slash (c : ascii) :
  is_digit c = true -> negb (Ascii.eqb c "/") = true.
Proof. by_bits c. Qed.

Lemma digit_not_letter (c : ascii) :
  is_digit c = true -> is_alpha c || is_space c = false.
Proof. by_bits c. Qed.

Lemma dash_range_atom_single (n : Z) :
  0 <= n -> CiscoRange.dash_range_atom (str_of_int n) = Ok (n, n + 1).
Proof.
  intros Hn. destruct (str_of_int_all_digits n Hn) as [Hd _].
  unfold CiscoRange.dash_range_atom.
  rewrite split_none by (eauto using every_impl, digit_not_dash).
  rewrite strip_digits by (now rewrite all_digits_every).
  rewrite int_of_str_str_of_int by exact Hn. cbn [bind].
  unfold assert. rewrite !Z.gtb_ltb.
  destruct (Z.ltb_spec (-1) n); [|lia].
  destruct (Z.ltb_spec n (n + 1)); [|lia]. reflexivity.
Qed.

Lemma dash_range_atom_pair (a b : Z) :
  0 <= a <= b ->
  CiscoRange.dash_range_atom (str_of_int a ++ "-" ++ str_of_int b)
  = Ok (a, b + 1).
Proof.
  intros Hab.
  destruct (str_of_int_all_digits a) as [Ha _]; [lia|].
  destruct (str_of_int_all_digits b) as [Hb _]; [lia|].
  unfold CiscoRange.dash_range_atom.
  change (str_of_int a ++ "-" ++ str_of_int b)%string
    with (str_of_int a ++ String "-" (str_of_int b))%string.
  rewrite split_sep by (eauto using every_impl, digit_not_dash).
  rewrite split_none by (eauto using every_impl, digit_not_dash).
  rewrite !strip_digits by (now rewrite all_digits_every).
  rewrite !int_of_str_str_of_int by lia. cbn [bind].
  unfold assert. rewrite !Z.gtb_ltb.
  destruct (Z.ltb_spec (-1) a); [|lia].
  destruct (Z.ltb_spec a (b + 1)); [|lia]. reflexivity.
Qed.

Lemma piece_atom (piece : string) (first last_ : Z) :
  is_piece piece first last_ ->
  CiscoRange.dash_range_atom piece = Ok (first, last_ + 1).
Proof.
  intros [H [[-> ->]| ->]].
  - apply dash_range_atom_single. lia.
  - now apply dash_range_atom_pair.
Qed.

Lemma piece_chars (piece : string) (first last_ : Z) :
  is_piece piece first last_ ->
  every (fun c => is_digit c || Ascii.eqb c "-") piece = true /\
  range_match at_start piece = true /\
  exists c rest, piece = String c rest /\ is_digit c = true.
Proof.
  intros [H Hp].
  destruct (str_of_int_digits first) as (c & rest & E & Hc & Hr); [lia|].
  destruct (str_of_int_all_digits last_) as [Hl _]; [lia|].
  rewrite all_digits_every in Hr.
  destruct Hp as [[-> _]| ->]; rewrite E.
  - split; [|split; [|eauto]].
    + cbn. rewrite Hc. cbn.
      eapply every_impl; [|exact Hr]. intros ? ->. reflexivity.
    + replace (String c rest) with (String c rest ++ "")%string
        by (cbn; f_equal; clear; induction rest; cbn; congruence).
      now rewrite range_match_number.
  - split; [|split; [|cbn; eauto]].
    + cbn [append every]. rewrite Hc. cbn [orb andb].
      rewrite every_app. cbn [every].
      rewrite (every_impl is_digit _ rest), (every_impl is_digit _ (str_of_int last_));
        auto; intros ? ->; reflexivity.
    + rewrite range_match_number by assumption.
      cbn [append range_match]. change (range_step in_digits "-") with (Some in_dashes).
      cbv iota.
      destruct (str_of_int_digits last_) as (d & rest' & E' & Hd & Hr'); [lia|].
      rewrite E'. cbn [range_match]. unfold range_step at 1. rewrite Hd.
      rewrite all_digits_every in Hr'.
      replace rest' with (rest' ++ "")%string
        by (clear; induction rest'; cbn; congruence).
      now rewrite range_match_digits.
Qed.

Lemma spec_run_pieces (first last_ : Z) :
  0 <= first <= last_ ->
  (forall piece, In piece (spec_run (first, last_)) ->
                 exists b e, is_piece piece b e /\ first <= b /\ e <= last_) /\
  (forall n, first <= n <= last_ ->
             exists piece b e, In piece (spec_run (first, last_)) /\
                               is_piece piece b e /\ b <= n <= e).
Proof.
  intros H. unfold spec_run, is_piece. rewrite Z.geb_leb.
  destruct (Z.leb_spec 2 (last_ - first)).
  - split.
    + intros piece [<-|[]]. exists first, last_. repeat split; auto; lia.
    + intros n Hn. eexists _, first, last_. split; [left; reflexivity|].
      repeat split; auto; lia.
  - destruct (Z.eqb_spec (last_ - first) 1) as [E1|E1].
    + split.
      * intros piece [<-|[<-|[]]].
        -- exists first, first. repeat split; auto; lia.
        -- exists last_, last_. repeat split; auto; lia.
      * intros n Hn. assert (Hc : n = first \/ n = last_) by lia.
        destruct Hc as [->| ->].
        -- eexists _, first, first. split; [left; reflexivity|].
           repeat split; auto; lia.
        -- eexists _, last_, last_. split; [right; left; reflexivity|].
           repeat split; auto; lia.
    + split.
      * intros piece [<-|[]]. exists first, first. repeat split; auto; lia.
      * intros n Hn. eexists _, first, first. split; [left; reflexivity|].
        repeat split; auto; lia.
Qed.

Lemma runs_from_cover (l : list Z) (first last_ : Z) :
  first <= last_ ->
  (forall run, In run (runs_from first last_ l) -> fst run <= snd run) /\
  (forall n, (first <= n <= last_ \/ In n l) <->
             exists run, In run (runs_from first last_ l) /\
                         fst run <= n <= snd run).
Proof.
  revert first last_. induction l as [|x rest IH]; intros first last_ H.
  - cbn. split.
    + intros run [<-|[]]. exact H.
    + intros n. split.
      * intros [Hn|[]]. exists (first, last_). auto.
      * intros (run & [<-|[]] & Hn). auto.
  - cbn [runs_from]. destruct (Z.eqb_spec x (last_ + 1)) as [->|Hx].
    + destruct (IH first (last_ + 1)) as [Hle Hcov]; [lia|].
      split; [exact Hle|]. intros n. rewrite <- Hcov. cbn [In]. intuition lia.
    + destruct (IH x x) as [Hle Hcov]; [lia|]. split.
      * intros run [<-|Hr]; [exact H|now apply Hle].
      * intros n. split.
        -- intros [Hn|[<-|Hn]].
           ++ exists (first, last_). split; [now left|exact Hn].
           ++ destruct (proj1 (Hcov x)) as (run & Hr & Hn); [lia|].
              exists run. split; [now right|exact Hn].
           ++ destruct (proj1 (Hcov n)) as (run & Hr & Hn'); [now right|].
              exists run. split; [now right|exact Hn'].
        -- intros (run & [<-|Hr] & Hn); [now left|].
           destruct (proj2 (Hcov n)) as [Hn'|Hn']; [eauto| |].
           ++ right. left. lia.
           ++ right. now right.
Qed.

Lemma maximal_runs_cover (l : list Z) :
  (forall run, In run (maximal_runs l) -> fst run <= snd run) /\
  (forall n, In n l <->
             exists run, In run (maximal_runs l) /\ fst run <= n <= snd run).
Proof.
  destruct l as [|x rest]; cbn [maximal_runs].
  - split; [intros ? []|]. intros n. split; [intros []|intros (? & [] & _)].
  - destruct (runs_from_cover rest x x) as [Hle Hcov]; [lia|].
    split; [exact Hle|]. intros n. rewrite <- Hcov. cbn [In]. intuition lia.
Qed.

(** The pieces written for a list of natural numbers cover the list and
    nothing else. *)
Lemma pieces_cover (l : list Z) :
  (forall n, In n l -> 0 <= n) ->
  let pieces := flat_map spec_run (maximal_runs l) in
  (forall piece, In piece pieces -> exists b e, is_piece piece b e /\
                                     forall n, b <= n <= e -> In n l) /\
  (forall n, In n l -> exists piece b e, In piece pieces /\
                                         is_piece piece b e /\ b <= n <= e).
Proof.
  intros Hpos pieces. destruct (maximal_runs_cover l) as [Hle Hcov].
  assert (Hrun : forall run, In run (maximal_runs l) ->
                             0 <= fst run <= snd run).
  { intros run Hr. split; [|now apply Hle]. apply Hpos, Hcov.
    exists run. specialize (Hle run Hr). split; [exact Hr|lia]. }
  split.
  - intros piece Hp. apply in_flat_map in Hp as ([f la] & Hr & Hp).
    specialize (Hrun _ Hr). cbn [fst snd] in Hrun.
    destruct (spec_run_pieces f la Hrun) as [H1 _].
    destruct (H1 piece Hp) as (b & e & Hpiece & Hb & He).
    exists b, e. split; [exact Hpiece|]. intros n Hn. apply Hcov.
    exists (f, la). split; [exact Hr|]. cbn [fst snd]. lia.
  - intros n Hn. apply Hcov in Hn as ([f la] & Hr & Hn). cbn [fst snd] in Hn.
    specialize (Hrun _ Hr). cbn [fst snd] in Hrun.
    destruct (spec_run_pieces f la Hrun) as [_ H2].
    destruct (H2 n Hn) as (piece & b & e & Hp & Hpiece & Hbe).
    exists piece, b, e. split; [|auto]. apply in_flat_map. eauto.
Qed.

(** ** Expanding a compressed text *)

Lemma dash_range_loop_atoms (atoms : list string) (retval out : list Z) :
  CiscoRange.dash_range_loop atoms retval = Ok out ->
  forall atom, In atom atoms ->
               exists bounds, CiscoRange.dash_range_atom atom = Ok bounds.
Proof.
  revert retval. induction atoms as [|a atoms IH]; intros retval H atom; [intros []|].
  cbn [CiscoRange.dash_range_loop] in H.
  destruct (CiscoRange.dash_range_atom a) as [bounds|] eqn:E; [|discriminate].
  cbn [bind] in H. intros [<-|Hin]; [eauto|]. eapply IH; eauto.
Qed.

(** A successful expansion holds natural numbers, and at least one. *)
Lemma dash_range_loop_members (text : string) (out : list Z) :
  CiscoRange.dash_range_loop (split "," text) [] = Ok out ->
  (forall n, In n out -> 0 <= n) /\ out <> [].
Proof.
  intros H. pose proof (dash_range_loop_atoms _ _ _ H) as Hatoms.
  destruct (dash_range_loop_spec _ [] Hatoms) as (out' & Hout & Hin).
  rewrite H in Hout. injection Hout as <-. split.
  - intros n Hn. apply Hin in Hn as [[]|(atom & b & e & _ & Hb & Hn)].
    apply dash_range_atom_bounds in Hb. lia.
  - pose proof (split_nonempty "," text) as Hne.
    destruct (split "," text) as [|atom atoms] eqn:E; [contradiction|].
    destruct (Hatoms atom (or_introl eq_refl)) as [[b e] Hb].
    pose proof (dash_range_atom_bounds _ _ _ Hb) as Hbe.
    intros ->. apply (proj2 (Hin b)). right. exists atom, b, e.
    repeat split; auto; try lia. now left.
Qed.

Lemma parse_range_text_prefixes (text lp sp rtxt : string) :
  CiscoRange._parse_range_text text = Ok (lp, sp, rtxt) ->
  every (fun c => is_alpha c || is_space c) lp = true /\
  (sp = EmptyString \/
   exists tail, slot_split false (sp ++ tail) = Some (sp, tail)).
Proof.
  unfold CiscoRange._parse_range_text, _RGX_CISCO_RANGE_search.
  destruct (span _ (hd EmptyString (split "," text))) as [lp0 rest] eqn:Espan.
  apply span_spec in Espan as [_ Hlp].
  destruct (slot_split false rest) as [[sp0 tail]|] eqn:Eslot.
  - pose proof (slot_split_spec _ _ _ _ Eslot) as (Hrest & _).
    rewrite Hrest in Eslot.
    destruct (range_match at_start tail);
      [|destruct (String.eqb tail newline); [|discriminate]];
      intros [= <- <- _]; (split; [exact Hlp|right; eauto]).
  - destruct (range_match at_start rest);
      [|destruct (String.eqb rest newline); [|discriminate]];
      intros [= <- <- _]; auto.
Qed.

Lemma alpha_not_comma (c : ascii) :
  is_alpha c || is_space c = true -> negb (Ascii.eqb c ",") = true.
Proof. by_bits c. Qed.

Lemma slot_not_comma (c : ascii) :
  is_digit c || Ascii.eqb c "/" = true -> negb (Ascii.eqb c ",") = true.
Proof. by_bits c. Qed.

Lemma slot_not_letter (c : ascii) :
  is_digit c || Ascii.eqb c "/" = true -> is_alpha c || is_space c = false.
Proof. by_bits c. Qed.

Lemma piece_not_comma (c : ascii) :
  is_digit c || Ascii.eqb c "-" = true -> negb (Ascii.eqb c ",") = true.
Proof. by_bits c. Qed.

Lemma piece_not_slash (c : ascii) :
  is_digit c || Ascii.eqb c "-" = true -> negb (Ascii.eqb c "/") = true.
Proof. by_bits c. Qed.

(** A prefix and a first piece are read back as they were written. *)
Lemma parse_compressed (lp sp : string) (pieces : list string) :
  every (fun c => is_alpha c || is_space c) lp = true ->
  (sp = EmptyString \/
   exists tail, slot_split false (sp ++ tail) = Some (sp, tail)) ->
  pieces <> [] ->
  (forall piece, In piece pieces -> exists b e, is_piece piece b e) ->
  CiscoRange._parse_range_text ((lp ++ sp) ++ String.concat "," pieces)
  = Ok (lp, sp, String.concat "," pieces).
Proof.
  intros Hlp Hsp Hne Hpieces.
  assert (Hsp_chars : every (fun c => is_digit c || Ascii.eqb c "/") sp = true).
  { destruct Hsp as [->|[tail H]]; [reflexivity|].
    now apply slot_split_spec in H as (_ & H & _). }
  assert (Hcomma : Forall (fun piece =>
             every (fun c => negb (Ascii.eqb c ",")) piece = true) pieces).
  { apply Forall_forall. intros piece Hp.
    destruct (Hpieces _ Hp) as (b & e & Hpe).
    apply piece_chars in Hpe as [Hc _].
    eapply every_impl; [|exact Hc]. apply piece_not_comma. }
  unfold CiscoRange._parse_range_text.
  rewrite split_app, split_concat; auto.
  2:{ rewrite every_app.
      rewrite (every_impl _ _ lp alpha_not_comma Hlp).
      now rewrite (every_impl _ _ sp slot_not_comma Hsp_chars). }
  destruct pieces as [|p1 ps]; [contradiction|]. cbn [hd tl].
  destruct (Hpieces p1 (or_introl eq_refl)) as (b & e & Hp1).
  destruct (piece_chars _ _ _ Hp1) as (Hc1 & Hm1 & c & rest & -> & Hc).
  assert (Hnone : forall b', slot_split b' (String c rest) = None).
  { intros b'. apply slot_split_none.
    eapply every_impl; [|exact Hc1]. apply piece_not_slash. }
  unfold _RGX_CISCO_RANGE_search. rewrite string_app_assoc.
  rewrite span_app; [|exact Hlp|].
  2:{ destruct Hsp as [->|[tail H]].
      - cbn [append]. now apply digit_not_letter.
      - apply slot_split_spec in H as (_ & Hch & c' & p' & ->).
        cbn [append]. cbn in Hch. apply andb_true_iff in Hch as [Hch _].
        now apply slot_not_letter. }
  assert (Hslot : match slot_split false (sp ++ String c rest) with
                  | Some found => found
                  | None => (EmptyString, (sp ++ String c rest)%string)
                  end = (sp, String c rest)).
  { destruct Hsp as [->|[tail H]].
    - cbn [append]. now rewrite Hnone.
    - now rewrite (slot_split_swap sp false tail (String c rest) H Hnone). }
  rewrite Hslot, Hm1. now destruct ps as [|tmp1 [|tmp2 more]].
Qed.

Section RoundTrip.

Variable list_set : list Z -> list Z.
Hypothesis list_set_contract : set_contract list_set.

Lemma init_str_ok (text : string) (r : CiscoRange.t) :
  text <> EmptyString ->
  CiscoRange.__init__ list_set text type_str = Ok r ->
  exists lp sp rtxt retval,
    CiscoRange._parse_range_text text = Ok (lp, sp, rtxt) /\
    CiscoRange.dash_range_loop (split "," rtxt) [] = Ok retval /\
    r = CiscoRange.mk text type_str lp sp rtxt
          (map (label lp sp) (list_set retval)).
Proof.
  intros Hne. unfold CiscoRange.__init__.
  apply String.eqb_neq in Hne. rewrite Hne. cbn [negb].
  destruct (CiscoRange._parse_range_text text) as [[[lp sp] rtxt]|] eqn:Hparse;
    cbn [bind]; [|discriminate].
  unfold CiscoRange._range, CiscoRange._parse_dash_range.
  destruct (CiscoRange.dash_range_loop (split "," rtxt) []) as [retval|]
    eqn:Hloop; cbn [bind]; [|discriminate].
  rewrite map_result_type_str. cbn [bind]. rewrite map_map.
  intros [= <-]. exists lp, sp, rtxt, retval. auto.
Qed.

Lemma init_str_build (text lp sp rtxt : string) (retval : list Z) :
  text <> EmptyString ->
  CiscoRange._parse_range_text text = Ok (lp, sp, rtxt) ->
  CiscoRange.dash_range_loop (split "," rtxt) [] = Ok retval ->
  CiscoRange.__init__ list_set text type_str
  = Ok (CiscoRange.mk text type_str lp sp rtxt
          (map (label lp sp) (list_set retval))).
Proof.
  intros Hne Hparse Hloop. unfold CiscoRange.__init__.
  apply String.eqb_neq in Hne. rewrite Hne. cbn [negb].
  rewrite Hparse. cbn [bind].
  unfold CiscoRange._range, CiscoRange._parse_dash_range.
  rewrite Hloop. cbn [bind]. rewrite map_result_type_str. cbn [bind].
  now rewrite map_map.
Qed.

Lemma indices_of_labels (text lp sp rtxt : string) (rt : pytype) (l : list Z) :
  (forall n, In n l -> 0 <= n) ->
  CiscoRange.indices (CiscoRange.mk text rt lp sp rtxt (map (label lp sp) l))
  = Ok l.
Proof.
  intros Hpos. unfold CiscoRange.indices.
  cbn [CiscoRange._list CiscoRange.line_prefix CiscoRange.slot_prefix].
  apply map_result_map_ok. intros n Hn. unfold label. cbn [str_of].
  rewrite <- string_app_assoc. apply index_of_combined. auto.
Qed.

Lemma compress_expand (text : string) (r : CiscoRange.t) :
  CiscoRange.__init__ list_set text type_str = Ok r ->
  exists s r',
    CiscoRange.compressed_str list_set r = Ok s /\
    CiscoRange.__init__ list_set s type_str = Ok r' /\
    CiscoRange.line_prefix r' = CiscoRange.line_prefix r /\
    CiscoRange.slot_prefix r' = CiscoRange.slot_prefix r /\
    Permutation (CiscoRange._list r') (CiscoRange._list r) /\
    CiscoRange.compressed_str list_set r' = Ok s.
Proof.
  intros Hinit. destruct (String.eqb_spec text EmptyString) as [->|Hne].
  - (* the empty range *)
    cbn in Hinit. injection Hinit as <-.
    exists EmptyString, (CiscoRange.mk "" type_str "" "" "" []).
    repeat split; auto.
  - destruct (init_str_ok text r Hne Hinit)
      as (lp & sp & rtxt & retval & Hparse & Hloop & ->).
    destruct (dash_range_loop_members _ _ Hloop) as [Hpos Hnonempty].
    destruct (list_set_contract retval) as [Hnd Hin].
    set (idx := list_set retval) in *.
    assert (Hidx_pos : forall n, In n idx -> 0 <= n)
      by (intros n Hn; apply Hpos, Hin, Hn).
    pose proof (indices_of_labels text lp sp rtxt type_str idx Hidx_pos) as Hidx.
    destruct (sorted_list_set list_set idx list_set_contract) as [Hsorted Hmem].
    set (normal := sorted (list_set idx)) in *.
    assert (Hnormal_pos : forall n, In n normal -> 0 <= n)
      by (intros n Hn; apply Hidx_pos, Hmem, Hn).
    destruct (pieces_cover normal Hnormal_pos) as [Hpieces Hcover].
    set (pieces := flat_map spec_run (maximal_runs normal)) in *.
    destruct retval as [|n0 retval']; [contradiction|].
    assert (Hn0 : In n0 normal) by (apply Hmem, Hin; now left).
    assert (Hpne : pieces <> []).
    { destruct (Hcover n0 Hn0) as (piece & _ & _ & Hp & _).
      intros E. rewrite E in Hp. exact Hp. }
    assert (Hnne : normal <> []) by (intros E; rewrite E in Hn0; exact Hn0).
    set (s := ((lp ++ sp) ++ String.concat "," pieces)%string).
    assert (Hcompress : CiscoRange.compressed_str list_set
                          (CiscoRange.mk text type_str lp sp rtxt
                             (map (label lp sp) idx)) = Ok s).
    { rewrite (compressed_str_spec list_set list_set_contract _ idx Hidx).
      cbn [CiscoRange.line_prefix CiscoRange.slot_prefix]. fold normal.
      unfold spec_compressed_str. fold pieces.
      destruct normal; [contradiction|reflexivity]. }
    destruct (parse_range_text_prefixes _ _ _ _ Hparse) as [Hlp Hsp].
    assert (Hparse' : CiscoRange._parse_range_text s
                      = Ok (lp, sp, String.concat "," pieces)).
    { apply parse_compressed; auto.
      intros piece Hp. destruct (Hpieces piece Hp) as (b & e & Hpe & _). eauto. }
    assert (Hcomma : Forall (fun piece =>
               every (fun c => negb (Ascii.eqb c ",")) piece = true) pieces).
    { apply Forall_forall. intros piece Hp.
      destruct (Hpieces _ Hp) as (b & e & Hpe & _).
      apply piece_chars in Hpe as [Hc _].
      eapply every_impl; [|exact Hc]. apply piece_not_comma. }
    assert (Hatoms : forall atom, In atom pieces ->
               exists bounds, CiscoRange.dash_range_atom atom = Ok bounds).
    { intros atom Hp. destruct (Hpieces _ Hp) as (b & e & Hpe & _).
      rewrite (piece_atom _ _ _ Hpe). eauto. }
    destruct (dash_range_loop_spec pieces [] Hatoms) as (out & Hout & Hout_in).
    assert (Hout_mem : forall n, In n out <-> In n normal).
    { intros n. rewrite Hout_in. split.
      - intros [[]|(atom & b & e & Hp & Hb & Hn)].
        destruct (Hpieces _ Hp) as (b' & e' & Hpe & Hsub).
        rewrite (piece_atom _ _ _ Hpe) in Hb. injection Hb as <- <-.
        apply Hsub. lia.
      - intros Hn. right. destruct (Hcover n Hn) as (piece & b & e & Hp & Hpe & Hbe).
        exists piece, b, (e + 1). split; [exact Hp|].
        split; [now apply piece_atom|lia]. }
    assert (Hs_ne : s <> EmptyString).
    { destruct pieces as [|p1 ps] eqn:Ep; [contradiction|].
      destruct (Hpieces p1 (or_introl eq_refl)) as (b & e & Hpe & _).
      apply piece_chars in Hpe as (_ & _ & c & rest & -> & _).
      subst s. destruct (lp ++ sp)%string; [|discriminate].
      destruct ps; discriminate. }
    assert (Hloop' : CiscoRange.dash_range_loop
                       (split "," (String.concat "," pieces)) [] = Ok out)
      by (rewrite split_concat; auto).
    exists s, (CiscoRange.mk s type_str lp sp (String.concat "," pieces)
                 (map (label lp sp) (list_set out))).
    destruct (list_set_contract out) as [Hnd' Hin'].
    assert (Hperm : Permutation (list_set out) idx).
    { apply NoDup_Permutation; auto. intros n.
      rewrite Hin', Hout_mem, Hmem. reflexivity. }
    split; [exact Hcompress|]. split; [now apply init_str_build|].
    split; [reflexivity|]. split; [reflexivity|].
    split; [now apply Permutation_map|].
    rewrite (compressed_str_spec list_set list_set_contract _ (list_set out)).
    + rewrite <- Hcompress.
      rewrite (compressed_str_spec list_set list_set_contract _ idx Hidx).
      cbn [CiscoRange.line_prefix CiscoRange.slot_prefix]. do 2 f_equal.
      destruct (sorted_list_set list_set (list_set out) list_set_contract)
        as [Hsorted' Hmem'].
      apply increasing_unique; auto. intros n.
      rewrite Hmem', Hin', Hout_mem. reflexivity.
    + apply indices_of_labels. intros n Hn. apply Hnormal_pos, Hout_mem, Hin', Hn.
Qed.

End RoundTrip.

(** ** The order of [str] *)

Lemma ascii_compare_refl (c : ascii) : Ascii.compare c c = Eq.
Proof. apply N.compare_refl. Qed.

Lemma string_compare_refl (s : string) : String.compare s s = Eq.
Proof.
  induction s as [|c s IH]; cbn; [reflexivity|].
  now rewrite ascii_compare_refl.
Qed.

Lemma string_compare_lt_trans (a b c : string) :
  String.compare a b = Lt -> String.compare b c = Lt -> String.compare a c = Lt.
Proof.
  revert b c. induction a as [|x a IH]; intros [|y b] [|z c]; cbn;
    try discriminate; auto.
  unfold Ascii.compare.
  destruct (N.compare_spec (N_of_ascii x) (N_of_ascii y)) as [Exy|Lxy|Gxy];
    try discriminate;
    destruct (N.compare_spec (N_of_ascii y) (N_of_ascii z)) as [Eyz|Lyz|Gyz];
    try discriminate; intros H1 H2.
  - rewrite Exy, Eyz, N.compare_refl. eauto.
  - rewrite Exy. now apply N.compare_lt_iff in Lyz as ->.
  - rewrite <- Eyz. now apply N.compare_lt_iff in Lxy as ->.
  - assert (L : (N_of_ascii x < N_of_ascii z)%N) by lia.
    now apply N.compare_lt_iff in L as ->.
Qed.

Lemma string_ltb_irrefl (s : string) : String.ltb s s = false.
Proof. unfold String.ltb. now rewrite string_compare_refl. Qed.

Lemma string_ltb_trans (a b c : string) :
  String.ltb a b = true -> String.ltb b c = true -> String.ltb a c = true.
Proof.
  unfold String.ltb.
  destruct (String.compare a b) eqn:E1; try discriminate.
  destruct (String.compare b c) eqn:E2; try discriminate.
  now rewrite (string_compare_lt_trans a b c E1 E2).
Qed.

Lemma string_ltb_total (a b : string) :
  String.ltb a b = false -> String.ltb b a = false -> a = b.
Proof.
  unfold String.ltb. rewrite (String.compare_antisym b a).
  destruct (String.compare a b) eqn:E; cbn; try discriminate.
  intros _ _. now apply String.compare_eq_iff.
Qed.

(** ** The order of items of one type *)

Lemma py_lt_typed (rt : pytype) (a b : pyval) :
  has_type rt a = true -> has_type rt b = true ->
  exists r, py_lt a b = Some r.
Proof. destruct rt, a, b; cbn; try discriminate; eauto. Qed.

Lemma py_lt_irrefl (a : pyval) : py_lt a a <> Some true.
Proof.
  destruct a; cbn; [rewrite string_ltb_irrefl|rewrite Z.ltb_irrefl]; discriminate.
Qed.

Lemma py_lt_trans (a b c : pyval) :
  item_lt a b -> item_lt b c -> item_lt a c.
Proof.
  unfold item_lt. destruct a, b, c; cbn; try discriminate.
  - intros [= H1] [= H2]. now rewrite (string_ltb_trans _ _ _ H1 H2).
  - intros [= H1] [= H2]. f_equal. apply Z.ltb_lt in H1, H2. apply Z.ltb_lt. lia.
Qed.

Lemma py_lt_total (a b : pyval) :
  py_lt a b = Some false -> py_lt b a = Some false -> a = b.
Proof.
  destruct a, b; cbn; try discriminate.
  - intros [= H1] [= H2]. f_equal. now apply string_ltb_total.
  - intros [= H1] [= H2]. f_equal. apply Z.ltb_ge in H1, H2. lia.
Qed.

Lemma item_le_trans (a b c : pyval) :
  item_le a b -> item_le b c -> item_le a c.
Proof.
  unfold item_le. destruct a, b, c; cbn; try discriminate.
  - intros [= H1] [= H2]. f_equal.
    destruct (String.ltb s1 s) eqn:E; [|reflexivity].
    destruct (String.ltb s s0) eqn:E0.
    + now rewrite (string_ltb_trans _ _ _ E E0) in H2.
    + rewrite (string_ltb_total _ _ E0 H1) in E. now rewrite E in H2.
  - intros [= H1] [= H2]. f_equal. apply Z.ltb_ge in H1, H2. apply Z.ltb_ge. lia.
Qed.

Lemma insert_item_spec (rt : pytype) (x : pyval) (l : list pyval) :
  has_type rt x = true -> typed rt l -> StronglySorted item_le l ->
  exists s, insert_item x l = Some s /\ Permutation s (x :: l) /\
            StronglySorted item_le s.
Proof.
  intros Hx Hl Hs. induction Hs as [|y l Hs IH Hy].
  - exists [x]. cbn. repeat split; auto. repeat constructor.
  - inversion Hl as [|? ? Hty Htl]; subst. cbn [insert_item].
    destruct (py_lt_typed rt y x Hty Hx) as [[|] E]; rewrite E.
    + destruct (IH Htl) as (s & -> & Hperm & Hsorted). cbn [option_map].
      eexists. split; [reflexivity|]. split.
      * rewrite Hperm. apply perm_swap.
      * constructor; [exact Hsorted|].
        eapply Permutation_Forall; [symmetry; exact Hperm|].
        constructor; [|exact Hy].
        destruct (py_lt_typed rt x y Hx Hty) as [[|] E']; [|exact E'].
        exfalso. apply (py_lt_irrefl y). apply (py_lt_trans y x y); assumption.
    + eexists. split; [reflexivity|]. split; [reflexivity|].
      constructor; [now constructor|]. constructor; [exact E|].
      eapply Forall_impl; [|exact Hy]. intros z Hz.
      eapply item_le_trans; eassumption.
Qed.

Lemma sorted_items_spec (rt : pytype) (l : list pyval) :
  typed rt l ->
  exists s, sorted_items l = Some s /\ Permutation s l /\
            StronglySorted item_le s.
Proof.
  induction l as [|x l IH]; intros Hl.
  - exists []. repeat split; auto. constructor.
  - inversion Hl as [|? ? Hx Htl]; subst.
    destruct (IH Htl) as (s & Hs & Hperm & Hsorted). cbn [sorted_items].
    rewrite Hs.
    destruct (insert_item_spec rt x s Hx) as (s' & Hs' & Hperm' & Hsorted');
      [eapply Permutation_Forall; [symmetry; exact Hperm|exact Htl]|exact Hsorted|].
    exists s'. split; [exact Hs'|]. split; [|exact Hsorted'].
    rewrite Hperm'. now constructor.
Qed.

(** Sorted lists with the same items are the same list. *)
Lemma sorted_unique (l1 l2 : list pyval) :
  StronglySorted item_le l1 -> StronglySorted item_le l2 ->
  Permutation l1 l2 -> l1 = l2.
Proof.
  intros H1. revert l2. induction H1 as [|a l1 Hs1 IH Ha]; intros l2 H2 Hperm.
  - apply Permutation_nil in Hperm. now subst.
  - destruct H2 as [|b l2 Hs2 Hb].
    + symmetry in Hperm. now apply Permutation_nil in Hperm.
    + assert (Hab : a = b).
      { assert (Hina : In a (b :: l2))
          by (eapply Permutation_in; [exact Hperm|now left]).
        assert (Hinb : In b (a :: l1))
          by (eapply Permutation_in; [symmetry; exact Hperm|now left]).
        destruct Hina as [->|Hina]; [reflexivity|].
        destruct Hinb as [->|Hinb]; [reflexivity|].
        rewrite Forall_forall in Ha, Hb.
        apply py_lt_total; [apply (Hb a Hina)|apply (Ha b Hinb)]. }
      subst b. f_equal. apply IH; [exact Hs2|].
      eapply Permutation_cons_inv; exact Hperm.
Qed.

Lemma sorted_items_perm (rt : pytype) (l1 l2 : list pyval) :
  typed rt l1 -> Permutation l1 l2 -> sorted_items l1 = sorted_items l2.
Proof.
  intros H1 Hperm.
  assert (H2 : typed rt l2) by (eapply Permutation_Forall; eassumption).
  destruct (sorted_items_spec rt l1 H1) as (s1 & -> & P1 & S1).
  destruct (sorted_items_spec rt l2 H2) as (s2 & -> & P2 & S2).
  f_equal. apply sorted_unique; auto.
  rewrite P1, Hperm. now symmetry.
Qed.

Lemma sorted_strict (l : list pyval) :
  StronglySorted item_le l -> NoDup l -> StronglySorted item_lt l.
Proof.
  induction 1 as [|a l Hs IH Ha]; intros Hnd; [constructor|].
  inversion Hnd as [|? ? Hnotin Hnd']; subst.
  constructor; [auto|]. rewrite Forall_forall in *. intros b Hb.
  specialize (Ha b Hb). unfold item_le, item_lt in *.
  destruct a, b; cbn in *; try discriminate.
  - destruct (String.ltb s s0) eqn:E; [reflexivity|].
    injection Ha as Ha. rewrite (string_ltb_total _ _ E Ha) in Hnotin.
    contradiction.
  - injection Ha as Ha. apply Z.ltb_ge in Ha. f_equal. apply Z.ltb_lt.
    assert (z <> z0) by (intros ->; contradiction). lia.
Qed.

Lemma insert_item_perm (x : pyval) (l s : list pyval) :
  insert_item x l = Some s -> Permutation s (x :: l).
Proof.
  revert s. induction l as [|y l IH]; cbn; intros s.
  - now intros [= <-].
  - destruct (py_lt y x) as [[|]|]; [| |discriminate].
    + destruct (insert_item x l) as [t|]; [|discriminate].
      cbn. intros [= <-]. rewrite (IH t eq_refl). apply perm_swap.
    + now intros [= <-].
Qed.

Lemma sorted_items_perm_of (l s : list pyval) :
  sorted_items l = Some s -> Permutation s l.
Proof.
  revert s. induction l as [|x l IH]; cbn; intros s.
  - now intros [= <-].
  - destruct (sorted_items l) as [t|]; [|discriminate].
    intros H. rewrite (insert_item_perm _ _ _ H). constructor. now apply IH.
Qed.

Lemma typed_or_mixed (l : list pyval) :
  typed type_str l \/ typed type_int l \/ mixed l.
Proof.
  induction l as [|x l IH]; [left; constructor|].
  destruct IH as [H|[H|[[s Hs] [z Hz]]]].
  - destruct x as [s|z]; [left; now constructor|].
    destruct l as [|y l]; [right; left; repeat constructor|].
    right. right. inversion H as [|? ? Hy _]; subst.
    destruct y as [s|]; [|discriminate]. split.
    + exists s. right. now left.
    + exists z. now left.
  - destruct x as [s|z]; [|right; left; now constructor].
    destruct l as [|y l]; [left; repeat constructor|].
    right. right. inversion H as [|? ? Hy _]; subst.
    destruct y as [|z]; [discriminate|]. split.
    + exists s. now left.
    + exists z. right. now left.
  - right. right. split; [exists s|exists z]; now right.
Qed.

Lemma mixed_not_typed (rt : pytype) (l : list pyval) :
  mixed l -> typed rt l -> False.
Proof.
  intros [[s Hs] [z Hz]] H. unfold typed in H. rewrite Forall_forall in H.
  apply H in Hs, Hz. destruct rt; discriminate.
Qed.

Lemma sorted_items_not_mixed (l s : list pyval) :
  sorted_items l = Some s -> ~ mixed l.
Proof.
  revert s. induction l as [|x l IH]; intros s H Hm.
  - destruct Hm as [[? []] _].
  - cbn [sorted_items] in H.
    destruct (sorted_items l) as [t|] eqn:Et; [|discriminate].
    specialize (IH t eq_refl). pose proof (sorted_items_perm_of _ _ Et) as Hperm.
    assert (Hcase : exists rt, typed rt l).
    { destruct (typed_or_mixed l) as [Hl|[Hl|Hl]]; eauto. contradiction. }
    destruct Hcase as [rt Hl].
    destruct (has_type rt x) eqn:Hx.
    + apply (mixed_not_typed rt (x :: l) Hm). now constructor.
    + destruct t as [|y t].
      * apply Permutation_nil in Hperm. subst l.
        apply (mixed_not_typed (match rt with type_str => type_int
                                         | type_int => type_str end) [x] Hm).
        constructor; [|constructor]. destruct rt, x; cbn in *; congruence.
      * assert (Hy : has_type rt y = true).
        { unfold typed in Hl. rewrite Forall_forall in Hl. apply Hl.
          eapply Permutation_in; [exact Hperm|now left]. }
        cbn [insert_item] in H.
        destruct rt, x, y; cbn in *; discriminate.
Qed.

Lemma sorted_items_mixed (l : list pyval) :
  mixed l <-> sorted_items l = None.
Proof.
  split.
  - intros Hm. destruct (sorted_items l) as [s|] eqn:E; [|reflexivity].
    exfalso. exact (sorted_items_not_mixed _ _ E Hm).
  - intros E. destruct (typed_or_mixed l) as [H|[H|H]]; [| |exact H].
    + destruct (sorted_items_spec _ _ H) as (s & Hs & _). congruence.
    + destruct (sorted_items_spec _ _ H) as (s & Hs & _). congruence.
Qed.

Lemma list_eqb_eq (l1 l2 : list pyval) : list_eqb l1 l2 = true <-> l1 = l2.
Proof.
  revert l2. induction l1 as [|v l1 IH]; intros [|w l2]; cbn;
    try (split; [discriminate|intros [=]]); [tauto|].
  rewrite andb_true_iff, pyval_eqb_eq, IH. split.
  - now intros [-> ->].
  - now intros [= -> ->].
Qed.

(** ** [__eq__] *)

Lemma eq_unmixed (a b : CiscoRange.t) :
  ~ mixed (CiscoRange._list a) -> ~ mixed (CiscoRange._list b) ->
  exists answer,
    CiscoRange.__eq__ a b = Returns answer /\
    (answer = true <->
     lower (prefix_str a) = lower (prefix_str b) /\
     Permutation (CiscoRange._list a) (CiscoRange._list b)).
Proof.
  intros Ha Hb. unfold CiscoRange.__eq__, sorted_outcome.
  destruct (sorted_items (CiscoRange._list a)) as [sa|] eqn:Ea;
    [|now apply sorted_items_mixed in Ea].
  destruct (sorted_items (CiscoRange._list b)) as [sb|] eqn:Eb;
    [|now apply sorted_items_mixed in Eb].
  cbn [bind_outcome]. eexists. split; [reflexivity|].
  fold (prefix_str a) (prefix_str b).
  rewrite andb_true_iff, String.eqb_eq, list_eqb_eq.
  pose proof (sorted_items_perm_of _ _ Ea) as Pa.
  pose proof (sorted_items_perm_of _ _ Eb) as Pb.
  split; intros [Hp Hl]; (split; [exact Hp|]).
  - subst sb. rewrite <- Pa. exact Pb.
  - assert (Hrt : exists rt, typed rt (CiscoRange._list a)).
    { destruct (typed_or_mixed (CiscoRange._list a)) as [H|[H|H]]; eauto.
      contradiction. }
    destruct Hrt as [rt Hrt].
    pose proof (sorted_items_perm rt _ _ Hrt Hl) as E.
    rewrite Ea, Eb in E. now injection E.
Qed.

Lemma eq_mixed (a b : CiscoRange.t) :
  CiscoRange.__eq__ a b = RaisesTypeError <->
  mixed (CiscoRange._list a) \/ mixed (CiscoRange._list b).
Proof.
  unfold CiscoRange.__eq__, sorted_outcome. rewrite !sorted_items_mixed.
  destruct (sorted_items (CiscoRange._list a)) as [sa|];
    destruct (sorted_items (CiscoRange._list b)) as [sb|]; cbn [bind_outcome];
    split; auto; try discriminate; intros [H|H]; discriminate.
Qed.

(** ** [insert] *)

Lemma list_insert_perm {A : Type} (l : list A) (i : Z) (x : A) :
  Permutation (list_insert l i x) (x :: l).
Proof.
  unfold list_insert.
  set (pos := Z.to_nat _).
  rewrite <- (firstn_skipn pos l) at 3.
  symmetry. apply Permutation_middle.
Qed.

Lemma insert_entries_perm (entries : list (Z * pyval)) (l : list pyval) (ii : Z) :
  Permutation
    (fold_left (fun l entry => list_insert l (ii + fst entry) (snd entry))
               entries l)
    (l ++ map snd entries).
Proof.
  revert l. induction entries as [|[idx obj] entries IH]; intros l; cbn.
  - now rewrite app_nil_r.
  - rewrite IH, list_insert_perm. cbn. apply Permutation_middle.
Qed.

Lemma map_snd_combine {A B : Type} (l1 : list A) (l2 : list B) :
  List.length l1 = List.length l2 -> map snd (combine l1 l2) = l2.
Proof.
  revert l2. induction l1 as [|a l1 IH]; intros [|b l2]; cbn; try congruence.
  intros [= H]. now rewrite IH.
Qed.

Lemma insert_loop_perm (l : list pyval) (ii : Z) (objs : list pyval) :
  Permutation (CiscoRange.insert_loop l ii objs) (l ++ objs).
Proof.
  unfold CiscoRange.insert_loop. rewrite insert_entries_perm.
  unfold enumerate. rewrite map_snd_combine; [reflexivity|].
  now rewrite length_map, length_seq.
Qed.

Lemma call_type_typed (rt : pytype) (v w : pyval) :
  call_type rt v = Ok w -> has_type rt w = true.
Proof.
  destruct rt, v; cbn; try (now intros [= <-]).
  destruct (int_of_str s); cbn; [now intros [= <-]|discriminate].
Qed.

Lemma call_type_same (rt : pytype) (v : pyval) :
  has_type rt v = true -> call_type rt v = Ok v.
Proof. destruct rt, v; cbn; congruence. Qed.

Lemma map_result_typed (rt : pytype) (l out : list pyval) :
  map_result (call_type rt) l = Ok out -> typed rt out.
Proof.
  revert out. induction l as [|v l IH]; cbn; intros out.
  - intros [= <-]. constructor.
  - destruct (call_type rt v) as [w|] eqn:E; cbn; [|discriminate].
    destruct (map_result (call_type rt) l) as [ws|]; cbn; [|discriminate].
    intros [= <-]. constructor; [eapply call_type_typed; eauto|now apply IH].
Qed.

Lemma map_result_same (rt : pytype) (l : list pyval) :
  typed rt l -> map_result (call_type rt) l = Ok l.
Proof.
  induction 1 as [|v l Hv Hl IH]; cbn; [reflexivity|].
  now rewrite (call_type_same rt v Hv), IH.
Qed.

Lemma map_result_perm (rt : pytype) (l1 l2 : list pyval) :
  Permutation l1 l2 ->
  same_conversion (map_result (call_type rt) l1) (map_result (call_type rt) l2).
Proof.
  induction 1 as [|x l1 l2 Hperm IH|x y l|l1 l2 l3 H12 IH12 H23 IH23].
  - cbn. constructor.
  - cbn. destruct (call_type rt x); cbn; [|reflexivity].
    destruct (map_result (call_type rt) l1), (map_result (call_type rt) l2);
      cbn in *; auto.
  - cbn. destruct (call_type rt y) eqn:Ey, (call_type rt x) eqn:Ex; cbn;
      try reflexivity.
    + destruct (map_result (call_type rt) l); cbn; [apply perm_swap|reflexivity].
    + apply call_type_raises in Ey, Ex. congruence.
  - unfold same_conversion in *.
    destruct (map_result (call_type rt) l1), (map_result (call_type rt) l2),
      (map_result (call_type rt) l3); try contradiction; try congruence.
    etransitivity; eassumption.
Qed.

Lemma init_typed (list_set : list Z -> list Z) (val : string) (rt : pytype)
      (new : CiscoRange.t) :
  CiscoRange.__init__ list_set val rt = Ok new ->
  typed rt (CiscoRange._list new).
Proof.
  unfold CiscoRange.__init__. destruct (negb (String.eqb val EmptyString)).
  - destruct (CiscoRange._parse_range_text val) as [[[lp sp] rtxt]|];
      cbn [bind]; [|discriminate].
    unfold CiscoRange._range.
    destruct (CiscoRange._parse_dash_range list_set rtxt); cbn [bind];
      [|discriminate].
    destruct (map_result _ _) as [l|] eqn:E; cbn [bind]; [|discriminate].
    intros [= <-]. cbn. eapply map_result_typed; eauto.
  - intros [= <-]. constructor.
Qed.

Section InsertFacts.

Variable list_set : list Z -> list Z.
Variable items_set : list pyval -> list pyval.
Hypothesis items_set_contract : items_contract items_set.

Lemma items_set_perm (l1 l2 : list pyval) :
  Permutation l1 l2 -> Permutation (items_set l1) (items_set l2).
Proof.
  intros H. destruct (items_set_contract l1) as [N1 I1].
  destruct (items_set_contract l2) as [N2 I2].
  apply NoDup_Permutation; auto. intros x. rewrite I1, I2.
  split; apply Permutation_in; [exact H|now symmetry].
Qed.

Lemma insert_any_position (self : CiscoRange.t) (ii jj : Z) (val : string) :
  CiscoRange.insert list_set items_set self ii val
  = CiscoRange.insert list_set items_set self jj val.
Proof.
  unfold CiscoRange.insert.
  destruct (CiscoRange.__init__ list_set val (CiscoRange.result_type self))
    as [new|]; cbn [of_result bind_outcome]; [|reflexivity].
  assert (Hperm : Permutation
            (items_set (CiscoRange.insert_loop (CiscoRange._list self) ii
                          (CiscoRange.__iter__ new)))
            (items_set (CiscoRange.insert_loop (CiscoRange._list self) jj
                          (CiscoRange.__iter__ new)))).
  { apply items_set_perm. now rewrite !insert_loop_perm. }
  pose proof (map_result_perm (CiscoRange.result_type self) _ _ Hperm) as Hconv.
  unfold same_conversion in Hconv.
  destruct (map_result _ (items_set (CiscoRange.insert_loop _ ii _)))
    as [items1|] eqn:E1;
    destruct (map_result _ (items_set (CiscoRange.insert_loop _ jj _)))
    as [items2|] eqn:E2; try contradiction; cbn [of_result bind_outcome].
  - unfold sorted_outcome.
    rewrite (sorted_items_perm (CiscoRange.result_type self) items1 items2);
      [reflexivity| |exact Hconv].
    eapply map_result_typed; eauto.
  - now subst.
Qed.

Lemma insert_no_TypeError (self : CiscoRange.t) (ii : Z) (val : string) :
  CiscoRange.insert list_set items_set self ii val <> RaisesTypeError.
Proof.
  unfold CiscoRange.insert.
  destruct (CiscoRange.__init__ list_set val (CiscoRange.result_type self))
    as [new|]; cbn [of_result bind_outcome]; [|discriminate].
  destruct (map_result _ _) as [items|] eqn:E; cbn [of_result bind_outcome];
    [|discriminate].
  apply map_result_typed in E.
  destruct (sorted_items_spec _ _ E) as (s & Hs & _).
  unfold sorted_outcome. rewrite Hs. discriminate.
Qed.

Lemma insert_typed (self new : CiscoRange.t) (ii : Z) (val : string) :
  typed (CiscoRange.result_type self) (CiscoRange._list self) ->
  CiscoRange.__init__ list_set val (CiscoRange.result_type self) = Ok new ->
  exists l',
    CiscoRange.insert list_set items_set self ii val
    = Returns (CiscoRange.with_list self l') /\
    StronglySorted item_lt l' /\
    (forall v, In v l' <->
               In v (CiscoRange._list self) \/ In v (CiscoRange._list new)) /\
    typed (CiscoRange.result_type self) l'.
Proof.
  intros Hself Hnew. pose proof (init_typed _ _ _ _ Hnew) as Htnew.
  unfold CiscoRange.insert. rewrite Hnew. cbn [of_result bind_outcome].
  set (l := CiscoRange.insert_loop _ _ _).
  pose proof (insert_loop_perm (CiscoRange._list self) ii
                (CiscoRange.__iter__ new)) as Hl. fold l in Hl.
  destruct (items_set_contract l) as [Hnd Hin].
  assert (Htl : typed (CiscoRange.result_type self) (items_set l)).
  { apply Forall_forall. intros v Hv. apply Hin in Hv.
    eapply Permutation_in in Hv; [|exact Hl].
    apply in_app_or in Hv as [Hv|Hv];
      [unfold typed in Hself; rewrite Forall_forall in Hself; auto|
       unfold typed in Htnew; rewrite Forall_forall in Htnew; auto]. }
  rewrite (map_result_same _ _ Htl). cbn [of_result bind_outcome].
  destruct (sorted_items_spec _ _ Htl) as (s & Hs & Hperm & Hsorted).
  unfold sorted_outcome. rewrite Hs. cbn [bind_outcome].
  exists s. split; [reflexivity|]. split; [|split].
  - apply sorted_strict; [exact Hsorted|].
    eapply Permutation_NoDup; [symmetry; exact Hperm|exact Hnd].
  - intros v. rewrite <- in_app_iff. split; intros Hv.
    + eapply Permutation_in; [exact Hl|]. apply Hin.
      eapply Permutation_in; [exact Hperm|exact Hv].
    + eapply Permutation_in; [symmetry; exact Hperm|]. apply Hin.
      eapply Permutation_in; [symmetry; exact Hl|exact Hv].
  - eapply Permutation_Forall; [symmetry; exact Hperm|exact Htl].
Qed.

End InsertFacts.

Lemma first_items_spec (l seen : list pyval) :
  NoDup (first_items seen l) /\
  (forall x, In x (first_items seen l) <-> In x l /\ ~ In x seen).
Proof.
  revert seen. induction l as [|y l IH]; intros seen; cbn.
  - split; [constructor | tauto].
  - destruct (existsb (pyval_eqb y) seen) eqn:E.
    + apply existsb_exists in E as (z & Hz & Hyz). apply pyval_eqb_eq in Hyz.
      subst z. destruct (IH seen) as [Hnd Hin]. split; [assumption|].
      intros x. rewrite Hin. split; [tauto|].
      intros [[->|Hx] Hn]; [contradiction | tauto].
    + assert (Hy : ~ In y seen).
      { intros Hin. apply not_true_iff_false in E. apply E.
        apply existsb_exists. exists y. split; [assumption|].
        now apply pyval_eqb_eq. }
      destruct (IH (y :: seen)) as [Hnd Hin]. split.
      * constructor; [|assumption]. rewrite Hin. cbn. tauto.
      * intros x. cbn. rewrite Hin. cbn. split.
        -- intros [->|[Hx Hn]]; [tauto|]. split; [tauto|]. tauto.
        -- intros [[->|Hx] Hn]; [tauto|].
           destruct (pyval_eqb y x) eqn:Eyx;
             [apply pyval_eqb_eq in Eyx; tauto|].
           right. split; [assumption|]. intros [->|H]; [|tauto].
           assert (pyval_eqb x x = true) by now apply pyval_eqb_eq.
           congruence.
Qed.

Lemma first_items_contract : items_contract (first_items []).
Proof.
  intros l. destruct (first_items_spec l []) as [Hnd Hin]. split; [assumption|].
  intros x. rewrite Hin. cbn. tauto.
Qed.

Lemma eq_sym_outcome (a b : CiscoRange.t) :
  CiscoRange.__eq__ a b = CiscoRange.__eq__ b a.
Proof.
  unfold CiscoRange.__eq__, sorted_outcome.
  destruct (sorted_items (CiscoRange._list a)) as [sa|];
    destruct (sorted_items (CiscoRange._list b)) as [sb|];
    cbn [bind_outcome]; try reflexivity.
  f_equal. rewrite String.eqb_sym. f_equal.
  destruct (list_eqb sa sb) eqn:E1, (list_eqb sb sa) eqn:E2; try reflexivity.
  - apply list_eqb_eq in E1. subst. assert (list_eqb sb sb = true)
      by now apply list_eqb_eq. congruence.
  - apply list_eqb_eq in E2. subst. assert (list_eqb sa sa = true)
      by now apply list_eqb_eq. congruence.
Qed.

(** X11. A compressed text expands again. For every text that [CiscoRange]
    expands into labels, [compressed_str] returns a text and does not
    raise; expanding that text gives the same two prefixes and the same
    labels, in some order; [__eq__] finds the two ranges equal; and
    compressing the second range gives the same text again. *)
Theorem compressed_str_expands_back
        (list_set : list Z -> list Z) (text : string) (r : CiscoRange.t) :
  set_contract list_set ->
  CiscoRange.__init__ list_set text type_str = Ok r ->
  exists s r',
    CiscoRange.compressed_str list_set r = Ok s /\
    CiscoRange.__init__ list_set s type_str = Ok r' /\
    CiscoRange.line_prefix r' = CiscoRange.line_prefix r /\
    CiscoRange.slot_prefix r' = CiscoRange.slot_prefix r /\
    Permutation (CiscoRange._list r') (CiscoRange._list r) /\
    CiscoRange.__eq__ r r' = Returns true /\
    CiscoRange.compressed_str list_set r' = Ok s.
Proof.
  intros Hset Hinit.
  destruct (compress_expand list_set Hset text r Hinit)
    as (s & r' & Hs & Hr' & Hlp & Hsp & Hperm & Hs').
  exists s, r'. repeat (split; [assumption|]). split; [|assumption].
  assert (Hr : ~ mixed (CiscoRange._list r))
    by (intros Hm; eapply mixed_not_typed; [exact Hm|eapply init_typed; eauto]).
  assert (Hr2 : ~ mixed (CiscoRange._list r'))
    by (intros Hm; eapply mixed_not_typed; [exact Hm|eapply init_typed; eauto]).
  destruct (eq_unmixed r r' Hr Hr2) as (answer & -> & Hanswer).
  f_equal. apply Hanswer. unfold prefix_str. rewrite Hlp, Hsp.
  split; [reflexivity|now symmetry].
Qed.

Lemma compressed_str_expands_back_witness :
  set_contract (first_seen []) /\
  CiscoRange.__init__ (first_seen []) "Eth2/1-3,5,9-10" type_str
  = Ok range_Eth2_docstring /\
  CiscoRange.compressed_str (first_seen []) range_Eth2_docstring
  = Ok "Eth2/1-3,5,9,10" /\
  exists s r',
    CiscoRange.compressed_str (first_seen []) range_Eth2_docstring = Ok s /\
    CiscoRange.__init__ (first_seen []) s type_str = Ok r' /\
    CiscoRange.line_prefix r' = "Eth" /\
    CiscoRange.slot_prefix r' = "2/" /\
    Permutation (CiscoRange._list r') (CiscoRange._list range_Eth2_docstring) /\
    CiscoRange.__eq__ range_Eth2_docstring r' = Returns true /\
    CiscoRange.compressed_str (first_seen []) r' = Ok s.
Proof.
  assert (H : CiscoRange.__init__ (first_seen []) "Eth2/1-3,5,9-10" type_str
              = Ok range_Eth2_docstring) by (vm_compute; reflexivity).
  split; [exact first_seen_contract|]. split; [exact H|].
  split; [vm_compute; reflexivity|].
  exact (compressed_str_expands_back (first_seen []) "Eth2/1-3,5,9-10"
           range_Eth2_docstring first_seen_contract H).
Defined.

(** X12. [insert] is a sorted union. The position argument has no effect:
    every position, and [append], give the same outcome. [insert] never
    raises [TypeError], and it raises whatever expanding [val] raises. On a
    range whose items all have its result type, it returns the range with
    the items of both, each once, in strictly increasing order: code point
    order for labels, numeric order for integers. *)
Theorem CiscoRange_insert_sorted_union
        (list_set : list Z -> list Z) (items_set : list pyval -> list pyval)
        (self : CiscoRange.t) (ii : Z) (val : string) :
  items_contract items_set ->
  let rt := CiscoRange.result_type self in
  (forall jj, CiscoRange.insert list_set items_set self jj val
              = CiscoRange.insert list_set items_set self ii val) /\
  CiscoRange.append list_set items_set self val
  = CiscoRange.insert list_set items_set self ii val /\
  CiscoRange.insert list_set items_set self ii val <> RaisesTypeError /\
  (forall e, CiscoRange.__init__ list_set val rt = Raise e ->
             CiscoRange.insert list_set items_set self ii val = Raises e) /\
  (forall new,
      typed rt (CiscoRange._list self) ->
      CiscoRange.__init__ list_set val rt = Ok new ->
      exists l',
        CiscoRange.insert list_set items_set self ii val
        = Returns (CiscoRange.with_list self l') /\
        StronglySorted item_lt l' /\
        (forall v, In v l' <->
                   In v (CiscoRange._list self) \/ In v (CiscoRange._list new)) /\
        typed rt l').
Proof.
  intros Hset rt. split; [|split; [|split; [|split]]].
  - intros jj. now apply insert_any_position.
  - unfold CiscoRange.append. now apply insert_any_position.
  - now apply insert_no_TypeError.
  - intros e He. unfold CiscoRange.insert. fold rt. now rewrite He.
  - intros new Hself Hnew. now apply insert_typed.
Qed.

(** [CiscoRange("Eth2/1-3,7")] after [insert(0, "Eth2/5,10")]: the label
    [Eth2/10] stands before [Eth2/2]. *)
Lemma CiscoRange_insert_sorted_union_witness :
  items_contract (first_items []) /\
  typed type_str (CiscoRange._list range_Eth2_1_3_7) /\
  CiscoRange.insert (first_seen []) (first_items []) range_Eth2_1_3_7 0
                    "Eth2/5,10"
  = Returns (CiscoRange.with_list range_Eth2_1_3_7
               (map PyStr ["Eth2/1"; "Eth2/10"; "Eth2/2"; "Eth2/3"; "Eth2/5";
                           "Eth2/7"])) /\
  CiscoRange.append (first_seen []) (first_items []) range_Eth2_1_3_7
                    "Eth2/5,10"
  = CiscoRange.insert (first_seen []) (first_items []) range_Eth2_1_3_7 0
                      "Eth2/5,10" /\
  CiscoRange.insert (first_seen []) (first_items []) range_Eth2_1_3_7 (-7)
                    "Eth2/5,10"
  = CiscoRange.insert (first_seen []) (first_items []) range_Eth2_1_3_7 0
                      "Eth2/5,10".
Proof.
  pose proof (CiscoRange_insert_sorted_union
                (first_seen []) (first_items []) range_Eth2_1_3_7 0
                "Eth2/5,10" first_items_contract) as (Hpos & Happ & _).
  split; [exact first_items_contract|].
  split; [repeat constructor|].
  split; [vm_compute; reflexivity|].
  split; [exact Happ|exact (Hpos (-7))].
Defined.

(** X13. [__eq__] compares the lower-cased prefixes and the items as
    multisets. When neither range mixes labels and integers, it answers
    true exactly when the two prefixes agree up to case and one item list
    is a rearrangement of the other; [text] and [result_type] play no part.
    It raises [TypeError] exactly when one of the two lists mixes labels
    and integers, it raises nothing else, and it is symmetric. *)
Theorem CiscoRange_eq_ignores_order (a b : CiscoRange.t) :
  (~ mixed (CiscoRange._list a) -> ~ mixed (CiscoRange._list b) ->
   exists answer,
     CiscoRange.__eq__ a b = Returns answer /\
     (answer = true <->
      lower (prefix_str a) = lower (prefix_str b) /\
      Permutation (CiscoRange._list a) (CiscoRange._list b))) /\
  (CiscoRange.__eq__ a b = RaisesTypeError <->
   mixed (CiscoRange._list a) \/ mixed (CiscoRange._list b)) /\
  (forall e, CiscoRange.__eq__ a b <> Raises e) /\
  CiscoRange.__eq__ a b = CiscoRange.__eq__ b a.
Proof.
  split; [apply eq_unmixed|]. split; [apply eq_mixed|].
  split; [|apply eq_sym_outcome].
  intros e. unfold CiscoRange.__eq__, sorted_outcome.
  destruct (sorted_items (CiscoRange._list a));
    destruct (sorted_items (CiscoRange._list b)); discriminate.
Qed.

Lemma CiscoRange_eq_ignores_order_witness :
  ~ mixed (CiscoRange._list range_Eth2_2_3_9) /\
  ~ mixed (CiscoRange._list range_Eth2_9_2_3) /\
  CiscoRange.__eq__ range_Eth2_2_3_9 range_Eth2_9_2_3 = Returns true /\
  mixed (CiscoRange._list range_label_and_int) /\
  CiscoRange.__eq__ range_Eth2_9 range_label_and_int = RaisesTypeError.
Proof.
  assert (H1 : ~ mixed (CiscoRange._list range_Eth2_2_3_9)).
  { intros [_ [z Hz]]. cbn in Hz. decompose [or] Hz; discriminate || contradiction. }
  assert (H2 : ~ mixed (CiscoRange._list range_Eth2_9_2_3)).
  { intros [_ [z Hz]]. cbn in Hz. decompose [or] Hz; discriminate || contradiction. }
  assert (H3 : mixed (CiscoRange._list range_label_and_int)).
  { split; [exists "Eth2/9"|exists 9]; cbn; auto. }
  destruct (CiscoRange_eq_ignores_order range_Eth2_2_3_9 range_Eth2_9_2_3)
    as (Hanswer & _).
  destruct (CiscoRange_eq_ignores_order range_Eth2_9 range_label_and_int)
    as (_ & Hmixed & _).
  split; [exact H1|]. split; [exact H2|]. split; [|split; [exact H3|]].
  - destruct (Hanswer H1 H2) as (answer & -> & Hiff). f_equal. apply Hiff.
    split; [reflexivity|]. cbn. apply Permutation_cons_append.
  - apply Hmixed. now right.
Defined.

Lemma length_split (sep : ascii) (s : string) :
  List.length (split sep s) = S (count sep s).
Proof.
  induction s as [|c s IH]; cbn; [reflexivity|].
  destruct (Ascii.eqb c sep); cbn; [now rewrite IH|].
  destruct (split sep s); cbn in *; lia.
Qed.

Lemma split_pieces (sep : ascii) (s : string) :
  Forall (fun piece => every (fun c => negb (Ascii.eqb c sep)) piece = true)
         (split sep s).
Proof.
  induction s as [|c s IH]; cbn; [repeat constructor|].
  destruct (Ascii.eqb c sep) eqn:E; [constructor; [reflexivity|exact IH]|].
  destruct (split sep s) as [|piece pieces]; [repeat constructor; cbn; now rewrite E|].
  inversion IH as [|? ? Hp Hps]; subst. constructor; [|exact Hps].
  cbn. now rewrite E, Hp.
Qed.

Lemma every_lstrip (p q : ascii -> bool) (s : string) :
  every p s = true -> every p (lstrip q s) = true.
Proof.
  induction s as [|c s IH]; cbn; [reflexivity|].
  intros H. apply andb_true_iff in H as [Hc Hs].
  destruct (q c); [auto|]. cbn. now rewrite Hc, Hs.
Qed.

Lemma every_rstrip (p q : ascii -> bool) (s : string) :
  every p s = true -> every p (rstrip q s) = true.
Proof.
  induction s as [|c s IH]; cbn; [reflexivity|].
  intros H. apply andb_true_iff in H as [Hc Hs]. specialize (IH Hs).
  destruct (rstrip q s) as [|d kept].
  - destruct (q c); cbn; [reflexivity|now rewrite Hc].
  - cbn [every]. rewrite Hc. exact IH.
Qed.

Lemma count_lstrip (c : ascii) (q : ascii -> bool) (s : string) :
  q c = false -> count c (lstrip q s) = count c s.
Proof.
  intros Hq. induction s as [|d s IH]; cbn; [reflexivity|].
  destruct (q d) eqn:E; [|reflexivity].
  rewrite IH. destruct (Ascii.eqb_spec d c); [congruence|reflexivity].
Qed.

Lemma count_rstrip (c : ascii) (q : ascii -> bool) (s : string) :
  q c = false -> count c (rstrip q s) = count c s.
Proof.
  intros Hq. induction s as [|d s IH]; cbn; [reflexivity|].
  destruct (rstrip q s) as [|e kept].
  - cbn in IH. rewrite <- IH.
    destruct (q d) eqn:E; cbn; [|lia].
    destruct (Ascii.eqb_spec d c); [congruence|reflexivity].
  - cbn [count] in *. now rewrite IH.
Qed.

Lemma count_none (c : ascii) (s : string) :
  every (fun d => negb (Ascii.eqb d c)) s = true -> count c s = 0%nat.
Proof.
  induction s as [|d s IH]; cbn; [reflexivity|].
  intros H. apply andb_true_iff in H as [Hd Hs].
  apply negb_true_iff in Hd. now rewrite Hd, IH.
Qed.

Lemma digit_value_nonneg (d : ascii) :
  is_digit d = true -> 0 <= digit_value d.
Proof.
  unfold is_digit. intros Hd. apply andb_true_iff in Hd as [H1 _].
  apply Nat.leb_le in H1. unfold digit_value. lia.
Qed.

Lemma int_digits_nonneg (s : string) (acc z : Z) :
  0 <= acc -> int_digits acc s = Some z ->
  0 <= z /\ every (fun c => negb (Ascii.eqb c "-")) s = true.
Proof.
  remember (String.length s) as n eqn:Hn.
  assert (Hle : (String.length s <= n)%nat) by lia. clear Hn.
  revert s acc Hle. induction n as [|n IH]; intros s acc Hle Hacc.
  - destruct s; [|cbn in Hle; lia]. cbn. intros [= <-]. auto.
  - destruct s as [|c s]; cbn [int_digits]; [intros [= <-]; auto|].
    cbn in Hle. destruct (is_digit c) eqn:Hc.
    + intros H. pose proof (digit_value_nonneg c Hc) as Hv.
      destruct (IH s (acc * 10 + digit_value c)) as [Hz Hs];
        [lia|lia|exact H|].
      cbn [every]. now rewrite (digit_not_dash c Hc), Hs.
    + destruct (Ascii.eqb c "_") eqn:Hu; [|discriminate].
      destruct s as [|d s]; [discriminate|].
      destruct (is_digit d) eqn:Hd; [|discriminate].
      intros H. pose proof (digit_value_nonneg d Hd) as Hv. cbn in Hle.
      destruct (IH s (acc * 10 + digit_value d)) as [Hz Hs];
        [lia|lia|exact H|].
      cbn [every]. rewrite (digit_not_dash d Hd), Hs.
      apply Ascii.eqb_eq in Hu. subst c. auto.
Qed.

Lemma int_literal_nonneg (s : string) (z : Z) :
  int_literal s = Some z ->
  0 <= z /\ every (fun c => negb (Ascii.eqb c "-")) s = true.
Proof.
  destruct s as [|c s]; cbn; [discriminate|].
  destruct (is_digit c) eqn:Hc; [|discriminate]. intros H.
  apply int_digits_nonneg in H as [Hz Hs].
  - rewrite (digit_not_dash c Hc), Hs. auto.
  - now apply digit_value_nonneg.
Qed.

(** A negative [int(s)] takes exactly one dash in [s]; without a dash the
    value is a natural number. *)
Lemma int_of_str_sign (s : string) (z : Z) :
  int_of_str s = Ok z -> 0 <= z \/ count "-" s = 1%nat.
Proof.
  unfold int_of_str.
  rewrite <- (count_lstrip "-" is_c_space s eq_refl).
  rewrite <- (count_rstrip "-" is_c_space (lstrip is_c_space s) eq_refl).
  destruct (rstrip is_c_space (lstrip is_c_space s)) as [|c body].
  - cbn. discriminate.
  - destruct (Ascii.eqb_spec c "-") as [->|Hm].
    + destruct (int_literal body) as [v|] eqn:E; cbn; [|discriminate].
      intros _. right. apply int_literal_nonneg in E as [_ Hb].
      cbn. now rewrite (count_none _ _ Hb).
    + destruct (Ascii.eqb_spec c "+") as [->|Hp].
      * destruct (int_literal body) as [v|] eqn:E; [|discriminate].
        intros [= <-]. left. now apply int_literal_nonneg in E.
      * assert (E' : match String c body with
                     | String "+" rest => int_literal rest
                     | String "-" rest => option_map Z.opp (int_literal rest)
                     | _ => int_literal (String c body)
                     end = int_literal (String c body)).
        { destruct c as [[|] [|] [|] [|] [|] [|] [|] [|]]; try reflexivity;
            congruence. }
        rewrite E'. destruct (int_literal (String c body)) as [v|] eqn:E;
          [|discriminate].
        intros [= <-]. left. now apply int_literal_nonneg in E.
Qed.

Lemma dash_range_atom_raises (atom : string) (e : exn) :
  CiscoRange.dash_range_atom atom = Raise e ->
  e = ValueError \/ (e = AssertionError "" /\ descending atom).
Proof.
  unfold CiscoRange.dash_range_atom.
  pose proof (length_split "-" atom) as Hlen.
  pose proof (split_pieces "-" atom) as Hpieces.
  assert (Hcount : count "-" (strip atom) = count "-" atom).
  { unfold strip. now rewrite count_rstrip, count_lstrip. }
  assert (Hwhole :
    (begin <- int_of_str (strip atom) ;;
     last_index <- int_of_str (strip atom) ;;
     _ <- assert (begin >? -1) "" ;;
     _ <- assert (last_index + 1 >? begin) "" ;; Ok (begin, last_index + 1))
    = Raise e -> count "-" atom <> 1%nat -> e = ValueError).
  { destruct (int_of_str (strip atom)) as [v|e'] eqn:E; cbn [bind].
    - intros H Hne. apply int_of_str_sign in E as [Hv|Hc]; [|congruence].
      unfold assert in H. rewrite !Z.gtb_ltb in H.
      destruct (Z.ltb_spec (-1) v); [|lia].
      destruct (Z.ltb_spec v (v + 1)); [|lia]. discriminate.
    - intros [= <-] _. eapply int_of_str_raises; eauto. }
  destruct (split "-" atom) as [|sb [|se [|x rest]]] eqn:Esplit; cbn in Hlen.
  - intros H. left. apply Hwhole; [exact H|lia].
  - intros H. left. apply Hwhole; [exact H|lia].
  - inversion Hpieces as [|? ? Hsb Hrest]; subst.
    inversion Hrest as [|? ? Hse _]; subst.
    destruct (int_of_str (strip sb)) as [vb|e'] eqn:Eb; cbn [bind];
      [|intros [= <-]; left; eapply int_of_str_raises; eauto].
    destruct (int_of_str (strip se)) as [ve|e'] eqn:Ee; cbn [bind];
      [|intros [= <-]; left; eapply int_of_str_raises; eauto].
    assert (Hvb : 0 <= vb).
    { apply int_of_str_sign in Eb as Hs. destruct Hs as [Hs|Hs]; [exact Hs|].
      unfold strip in Hs. rewrite count_rstrip, count_lstrip in Hs by reflexivity.
      now rewrite (count_none _ _ Hsb) in Hs. }
    unfold assert. rewrite !Z.gtb_ltb.
    destruct (Z.ltb_spec (-1) vb); [|lia]. cbn [bind].
    destruct (Z.ltb_spec vb (ve + 1)); cbn [bind]; [discriminate|].
    intros [= <-]. right. split; [reflexivity|].
    exists sb, se, vb, ve. repeat split; auto. lia.
  - intros H. left. apply Hwhole; [exact H|lia].
Qed.

Lemma dash_range_loop_raises (atoms : list string) (retval : list Z) (e : exn) :
  CiscoRange.dash_range_loop atoms retval = Raise e ->
  e = ValueError \/
  (e = AssertionError "" /\ exists atom, In atom atoms /\ descending atom).
Proof.
  revert retval. induction atoms as [|atom atoms IH]; intros retval;
    cbn [CiscoRange.dash_range_loop]; [discriminate|].
  destruct (CiscoRange.dash_range_atom atom) as [bounds|e'] eqn:E; cbn [bind].
  - intros H. destruct (IH _ H) as [->|[-> (a & Ha & Hd)]]; [now left|].
    right. split; [reflexivity|]. exists a. split; [now right|exact Hd].
  - intros [= <-]. destruct (dash_range_atom_raises _ _ E) as [->|[-> Hd]];
      [now left|].
    right. split; [reflexivity|]. exists atom. split; [now left|exact Hd].
Qed.

Lemma map_result_raises (rt : pytype) (l : list pyval) (e : exn) :
  map_result (call_type rt) l = Raise e -> e = ValueError.
Proof.
  induction l as [|v l IH]; cbn; [discriminate|].
  destruct (call_type rt v) eqn:E; cbn.
  - destruct (map_result (call_type rt) l); cbn; [discriminate|].
    intros [= <-]. now apply IH.
  - intros [= <-]. eapply call_type_raises; eauto.
Qed.

(** X14. What the constructor raises. The empty text gives the empty range.
    A text whose first comma-separated piece the pattern rejects raises the
    [AssertionError] that names the text. Any other failure is a
    [ValueError], except that an atom whose bounds descend, such as
    ["5-3"], raises the bare [AssertionError] of [assert end > begin]. The
    assertion [begin > -1] never fails: no text makes a bound negative. *)
Theorem CiscoRange_init_errors
        (list_set : list Z -> list Z) (text : string) (rt : pytype) :
  CiscoRange.__init__ list_set EmptyString rt
  = Ok (CiscoRange.mk EmptyString rt EmptyString EmptyString EmptyString []) /\
  (text <> EmptyString ->
   _RGX_CISCO_RANGE_search (hd EmptyString (split "," text)) = None ->
   CiscoRange.__init__ list_set text rt = Raise (parse_error text)) /\
  (forall e,
      CiscoRange.__init__ list_set text rt = Raise e ->
      e = ValueError \/
      (e = parse_error text /\
       _RGX_CISCO_RANGE_search (hd EmptyString (split "," text)) = None) \/
      (e = AssertionError "" /\
       exists lp sp rtxt atom,
         CiscoRange._parse_range_text text = Ok (lp, sp, rtxt) /\
         In atom (split "," rtxt) /\ descending atom)).
Proof.
  split; [reflexivity|]. split.
  - intros Hne Hnone. unfold CiscoRange.__init__, CiscoRange._parse_range_text.
    apply String.eqb_neq in Hne. now rewrite Hne, Hnone.
  - intros e. unfold CiscoRange.__init__.
    destruct (negb (String.eqb text EmptyString)); [|discriminate].
    destruct (CiscoRange._parse_range_text text) as [[[lp sp] rtxt]|e']
      eqn:Hparse; cbn [bind].
    + unfold CiscoRange._range, CiscoRange._parse_dash_range.
      destruct (CiscoRange.dash_range_loop (split "," rtxt) []) as [retval|e']
        eqn:Hloop; cbn [bind].
      * destruct (map_result _ _) as [l|e'] eqn:Hmap; cbn [bind]; [discriminate|].
        intros [= <-]. left. eapply map_result_raises; eauto.
      * intros [= <-].
        destruct (dash_range_loop_raises _ _ _ Hloop) as [->|[-> (a & Ha & Hd)]];
          [now left|].
        right. right. split; [reflexivity|]. exists lp, sp, rtxt, a. auto.
    + intros [= <-]. right. left.
      unfold CiscoRange._parse_range_text in Hparse.
      destruct (_RGX_CISCO_RANGE_search (hd EmptyString (split "," text)))
        as [[[lp sp] rtxt]|]; [discriminate|].
      injection Hparse as <-. auto.
Qed.

Lemma CiscoRange_init_errors_witness :
  "Eth1/x" <> EmptyString /\
  _RGX_CISCO_RANGE_search (hd EmptyString (split "," "Eth1/x")) = None /\
  CiscoRange.__init__ (first_seen []) "Eth1/x" type_str
  = Raise (AssertionError "CiscoRange() couldn't parse 'Eth1/x'") /\
  CiscoRange.__init__ (first_seen []) "Eth1/5-3" type_str
  = Raise (AssertionError "") /\
  CiscoRange.__init__ (first_seen []) "Eth1/1,Eth1/2" type_str
  = Raise ValueError /\
  (Raise (A := CiscoRange.t) (AssertionError "") = Raise ValueError \/
   (AssertionError "" = parse_error "Eth1/5-3" /\
    _RGX_CISCO_RANGE_search (hd EmptyString (split "," "Eth1/5-3")) = None) \/
   (AssertionError "" = AssertionError "" /\
    exists lp sp rtxt atom,
      CiscoRange._parse_range_text "Eth1/5-3" = Ok (lp, sp, rtxt) /\
      In atom (split "," rtxt) /\ descending atom)).
Proof.
  assert (Hne : "Eth1/x" <> EmptyString) by discriminate.
  assert (Hnone : _RGX_CISCO_RANGE_search (hd EmptyString (split "," "Eth1/x"))
                  = None) by (vm_compute; reflexivity).
  assert (Hdesc : CiscoRange.__init__ (first_seen []) "Eth1/5-3" type_str
                  = Raise (AssertionError "")) by (vm_compute; reflexivity).
  split; [exact Hne|]. split; [exact Hnone|].
  split; [exact (proj1 (proj2 (CiscoRange_init_errors (first_seen []) "Eth1/x"
                                 type_str)) Hne Hnone)|].
  split; [exact Hdesc|]. split; [vm_compute; reflexivity|].
  destruct (proj2 (proj2 (CiscoRange_init_errors (first_seen []) "Eth1/5-3"
                            type_str)) _ Hdesc) as [H|[H|H]].
  - discriminate H.
  - right. left. exact H.
  - right. right. exact H.
Defined.

(** ** [L4Object] *)

Lemma contains_drop_head (c : ascii) (needle s : string) :
  contains (String c needle) s = true -> contains needle s = true.
Proof.
  induction s as [|d s IH]; cbn [contains String.prefix].
  - rewrite orb_false_r. discriminate.
  - intros H. apply orb_true_iff in H as [H|H].
    + destruct (ascii_dec c d) as [->|]; [|discriminate].
      destruct s as [|e s]; cbn [contains] in *.
      * destruct needle; [reflexivity|]. cbn in H. discriminate.
      * destruct needle as [|n needle]; [reflexivity|].
        apply orb_true_iff. right. cbn [contains]. now rewrite H.
    + apply orb_true_iff. right. now apply IH.
Qed.

Lemma split_space_run (b : bool) (s : string) :
  every (fun c => negb (is_space c)) s = true -> split_space b s = [s].
Proof.
  revert b. induction s as [|c s IH]; intros b; cbn; [reflexivity|].
  intros H. apply andb_true_iff in H as [Hc Hs].
  apply negb_true_iff in Hc. now rewrite Hc, (IH false Hs).
Qed.

Lemma rstrip_app_run (p : ascii -> bool) (a run : string) :
  every (fun c => negb (p c)) run = true -> run <> EmptyString ->
  rstrip p (a ++ run) = (a ++ run)%string.
Proof.
  intros Hrun Hne. induction a as [|c a IH]; cbn [append].
  - now apply rstrip_none.
  - cbn [rstrip]. rewrite IH.
    destruct (a ++ run)%string eqn:E; [|reflexivity].
    destruct a; [cbn in E; congruence|discriminate].
Qed.

Section Tables.

Variable tcp_ports : string -> option Z.
Variable udp_ports : string -> option Z.

Lemma neq_branch_dead (port_spec : string) :
  contains "eq " port_spec = false -> contains "neq " port_spec = false.
Proof.
  intros H. destruct (contains "neq " port_spec) eqn:E; [|reflexivity].
  apply contains_drop_head in E. congruence.
Qed.

Lemma init_neq_eq (protocol syntax name : string) :
  name <> EmptyString ->
  every (fun c => negb (is_space c)) name = true ->
  L4Object.__init__ tcp_ports udp_ports protocol ("neq " ++ name) syntax
  = L4Object.__init__ tcp_ports udp_ports protocol ("eq " ++ name) syntax.
Proof.
  intros Hne Hrun. unfold L4Object.__init__.
  assert (S1 : strip ("neq " ++ name) = ("neq " ++ name)%string).
  { unfold strip. cbn [append lstrip]. change (is_space "n") with false.
    cbv iota. apply (rstrip_app_run is_space "neq " name Hrun Hne). }
  assert (S2 : strip ("eq " ++ name) = ("eq " ++ name)%string).
  { unfold strip. cbn [append lstrip]. change (is_space "e") with false.
    cbv iota. apply (rstrip_app_run is_space "eq " name Hrun Hne). }
  rewrite S1, S2.
  assert (C1 : contains "eq " ("neq " ++ name) = true).
  { cbn. destruct name; reflexivity. }
  assert (C2 : contains "eq " ("eq " ++ name) = true).
  { cbn. destruct name; reflexivity. }
  rewrite C1, C2.
  assert (L1 : re_split_space ("neq " ++ name) = ["neq"; name]).
  { unfold re_split_space. cbn [append split_space].
    change (is_space "n") with false. change (is_space "e") with false.
    change (is_space "q") with false. change (is_space " ") with true.
    cbv iota. now rewrite (split_space_run true name Hrun). }
  assert (L2 : re_split_space ("eq " ++ name) = ["eq"; name]).
  { unfold re_split_space. cbn [append split_space].
    change (is_space "e") with false.
    change (is_space "q") with false. change (is_space " ") with true.
    cbv iota. now rewrite (split_space_run true name Hrun). }
  rewrite L1, L2. reflexivity.
Qed.

Lemma init_no_KeyError (protocol port_spec syntax : string) :
  L4Object.__init__ tcp_ports udp_ports protocol port_spec syntax
  <> RaisesKeyError.
Proof.
  unfold L4Object.__init__.
  destruct (of_result _) as [table| | |] eqn:Et; cbn [bind_outcome];
    try discriminate.
  - destruct (contains "eq " (strip port_spec)) eqn:Ceq.
    + destruct (L4Object.port_of _ _); cbn; discriminate.
    + rewrite (neq_branch_dead _ Ceq).
      destruct (re_search_nonspace _);
        [destruct (L4Object.port_of _ _); cbn; discriminate|].
      destruct (contains "range " _).
      { destruct (list_getitem _ 0) as [n0|]; cbn; [|discriminate].
        destruct (L4Object.port_of _ n0); cbn; [|discriminate].
        destruct (list_getitem _ 1) as [n1|]; cbn; [|discriminate].
        destruct (L4Object.port_of _ n1); cbn; discriminate. }
      destruct (contains "lt " _);
        [destruct (L4Object.port_of _ _); cbn; discriminate|].
      destruct (contains "gt " _);
        [destruct (L4Object.port_of _ _); cbn; discriminate|].
      cbn. discriminate.
  - destruct (String.eqb syntax "asa"); [|discriminate].
    destruct (String.eqb protocol "tcp"); [discriminate|].
    destruct (String.eqb protocol "udp"); discriminate.
Qed.

Lemma init_short_lists (protocol port_spec syntax : string)
      (o : L4Object.t) (l : list Z) :
  L4Object.__init__ tcp_ports udp_ports protocol port_spec syntax = Returns o ->
  L4Object.port_list o = L4Object.PortList l ->
  (List.length l <= 1)%nat.
Proof.
  unfold L4Object.__init__.
  destruct (of_result _) as [table| | |]; cbn [bind_outcome]; try discriminate.
  destruct (contains "eq " (strip port_spec)) eqn:Ceq.
  - destruct (L4Object.port_of _ _); cbn; [|discriminate].
    intros [= <-]. cbn. intros [= <-]. cbn. lia.
  - rewrite (neq_branch_dead _ Ceq).
    destruct (re_search_nonspace _).
    { destruct (L4Object.port_of _ _); cbn; [|discriminate].
      intros [= <-]. cbn. intros [= <-]. cbn. lia. }
    destruct (contains "range " _).
    { destruct (list_getitem _ 0) as [n0|]; cbn; [|discriminate].
      destruct (L4Object.port_of _ n0); cbn; [|discriminate].
      destruct (list_getitem _ 1) as [n1|]; cbn; [|discriminate].
      destruct (L4Object.port_of _ n1); cbn; [|discriminate].
      intros [= <-]. cbn. discriminate. }
    destruct (contains "lt " _).
    { destruct (L4Object.port_of _ _); cbn; [|discriminate].
      intros [= <-]. cbn. discriminate. }
    destruct (contains "gt " _).
    { destruct (L4Object.port_of _ _); cbn; [|discriminate].
      intros [= <-]. cbn. discriminate. }
    cbn. intros [= <-]. cbn. intros [= <-]. cbn. lia.
Qed.

End Tables.

(** X15. The [neq] branch of [L4Object] is never reached: a port
    specification that holds ["neq "] also holds ["eq "], which is tested
    first. So ["neq name"] gives what ["eq name"] gives, a list of that one
    port; no call raises the [KeyError] of the [neq] branch; and no list that
    the constructor stores has more than one port. *)
Theorem L4Object_neq_reads_as_eq
        (tcp_ports udp_ports : string -> option Z)
        (protocol port_spec syntax name : string) :
  (name <> EmptyString ->
   every (fun c => negb (is_space c)) name = true ->
   L4Object.__init__ tcp_ports udp_ports protocol ("neq " ++ name) syntax
   = L4Object.__init__ tcp_ports udp_ports protocol ("eq " ++ name) syntax) /\
  L4Object.__init__ tcp_ports udp_ports protocol port_spec syntax
  <> RaisesKeyError /\
  (forall o l,
      L4Object.__init__ tcp_ports udp_ports protocol port_spec syntax
      = Returns o ->
      L4Object.port_list o = L4Object.PortList l ->
      (List.length l <= 1)%nat).
Proof.
  split; [apply init_neq_eq|]. split; [apply init_no_KeyError|].
  intros o l. apply init_short_lists.
Qed.

Lemma L4Object_neq_reads_as_eq_witness :
  "www" <> EmptyString /\
  every (fun c => negb (is_space c)) "www" = true /\
  L4Object.__init__ sample_ports sample_ports "tcp" "neq www" "asa"
  = L4Object.__init__ sample_ports sample_ports "tcp" "eq www" "asa" /\
  L4Object.__init__ sample_ports sample_ports "tcp" "neq www" "asa"
  = Returns (L4Object.mk "tcp" (L4Object.PortList [80]) "asa").
Proof.
  assert (H1 : "www" <> EmptyString) by discriminate.
  assert (H2 : every (fun c => negb (is_space c)) "www" = true) by reflexivity.
  split; [exact H1|]. split; [exact H2|].
  split; [|vm_compute; reflexivity].
  exact (proj1 (L4Object_neq_reads_as_eq sample_ports sample_ports "tcp" ""
                  "asa" "www") H1 H2).
Defined.

(** ** [is_valid_ipv4_addr] *)

Lemma span_app_every (p : ascii -> bool) (a t : string) :
  every p a = true ->
  span p (a ++ t) = ((a ++ fst (span p t))%string, snd (span p t)).
Proof.
  induction a as [|c a IH]; cbn [append every].
  - intros _. now destruct (span p t).
  - intros H. apply andb_true_iff in H as [Hc Ha].
    cbn [span]. rewrite Hc, (IH Ha). reflexivity.
Qed.

Lemma digits_then_spec (s r : string) :
  digits_then s = Some r -> exists d, digit_run d /\ s = (d ++ r)%string.
Proof.
  unfold digits_then. destruct (span is_digit s) as [d rest] eqn:E.
  apply span_spec in E as [-> Hd].
  destruct (String.eqb_spec d EmptyString); [discriminate|].
  intros [= <-]. exists d. split; [split|]; auto.
Qed.

Lemma digits_then_some (d t : string) :
  digit_run d -> exists r, digits_then (d ++ t) = Some r.
Proof.
  intros [Hd Hne]. unfold digits_then. rewrite span_app_every by exact Hd.
  destruct (String.eqb_spec (d ++ fst (span is_digit t)) EmptyString) as [E|_];
    [|eauto].
  destruct d; [contradiction|discriminate].
Qed.

Lemma digits_then_dot (d t : string) :
  digit_run d -> digits_then (d ++ String "." t) = Some (String "." t).
Proof.
  intros [Hd Hne]. unfold digits_then.
  rewrite span_app by (auto; reflexivity).
  destruct (String.eqb_spec d EmptyString); [contradiction|reflexivity].
Qed.

Lemma dot_then_spec (s r : string) :
  dot_then s = Some r -> s = String "." r.
Proof.
  destruct s as [|c s]; cbn; [discriminate|].
  destruct (Ascii.eqb_spec c "."); [subst|].
  - now intros [= ->].
  - destruct c as [[|] [|] [|] [|] [|] [|] [|] [|]]; try discriminate.
    congruence.
Qed.

Lemma search_dotted_quad (s : string) :
  (exists r, _RGX_IPV4ADDR_search s = Some r) <->
  exists d1 d2 d3 d4 tail,
    digit_run d1 /\ digit_run d2 /\ digit_run d3 /\ digit_run d4 /\
    s = dotted_quad d1 d2 d3 d4 tail.
Proof.
  unfold _RGX_IPV4ADDR_search, dotted_quad. split.
  - intros [r H].
    destruct (digits_then s) as [s1|] eqn:E1; [|discriminate].
    cbn [option_bind] in H.
    destruct (dot_then s1) as [s1'|] eqn:F1; [|discriminate].
    cbn [option_bind] in H.
    destruct (digits_then s1') as [s2|] eqn:E2; [|discriminate].
    cbn [option_bind] in H.
    destruct (dot_then s2) as [s2'|] eqn:F2; [|discriminate].
    cbn [option_bind] in H.
    destruct (digits_then s2') as [s3|] eqn:E3; [|discriminate].
    cbn [option_bind] in H.
    destruct (dot_then s3) as [s3'|] eqn:F3; [|discriminate].
    cbn [option_bind] in H.
    apply digits_then_spec in E1 as (d1 & H1 & ->).
    apply digits_then_spec in E2 as (d2 & H2 & ->).
    apply digits_then_spec in E3 as (d3 & H3 & ->).
    apply digits_then_spec in H as (d4 & H4 & ->).
    apply dot_then_spec in F1 as ->. apply dot_then_spec in F2 as ->.
    apply dot_then_spec in F3 as ->.
    exists d1, d2, d3, d4, r. auto.
  - intros (d1 & d2 & d3 & d4 & tail & H1 & H2 & H3 & H4 & ->).
    cbn [append].
    rewrite (digits_then_dot d1) by exact H1. cbn [option_bind dot_then].
    rewrite (digits_then_dot d2) by exact H2. cbn [option_bind dot_then].
    rewrite (digits_then_dot d3) by exact H3. cbn [option_bind dot_then].
    now apply digits_then_some.
Qed.

(** X16. [is_valid_ipv4_addr] tests a prefix only. It raises
    [AssertionError] for the empty text and answers for every other text.
    The answer is true exactly when the text starts with four runs of
    digits that dots separate: whatever follows the fourth run is
    accepted, and no run is checked against 255. *)
Theorem is_valid_ipv4_addr_prefix_only (input : string) :
  is_valid_ipv4_addr EmptyString = Raise (AssertionError "") /\
  (input <> EmptyString ->
   is_valid_ipv4_addr input = Ok true \/ is_valid_ipv4_addr input = Ok false) /\
  (is_valid_ipv4_addr input = Ok true <->
   exists d1 d2 d3 d4 tail,
     digit_run d1 /\ digit_run d2 /\ digit_run d3 /\ digit_run d4 /\
     input = dotted_quad d1 d2 d3 d4 tail) /\
  (forall a b c d tail,
      0 <= a -> 0 <= b -> 0 <= c -> 0 <= d ->
      is_valid_ipv4_addr
        (dotted_quad (str_of_int a) (str_of_int b) (str_of_int c)
                     (str_of_int d) tail) = Ok true).
Proof.
  assert (Hiff : forall s,
             is_valid_ipv4_addr s = Ok true <->
             exists d1 d2 d3 d4 tail,
               digit_run d1 /\ digit_run d2 /\ digit_run d3 /\ digit_run d4 /\
               s = dotted_quad d1 d2 d3 d4 tail).
  { intros s. rewrite <- search_dotted_quad. unfold is_valid_ipv4_addr.
    destruct (String.eqb_spec s EmptyString) as [->|Hne]; cbn [negb assert bind].
    - split; [discriminate|]. intros [r H]. discriminate H.
    - destruct (_RGX_IPV4ADDR_search s) as [r|].
      + split; eauto.
      + split; [discriminate|]. intros [r H]. discriminate H. }
  split; [reflexivity|]. split; [|split; [apply Hiff|]].
  - intros Hne. unfold is_valid_ipv4_addr.
    apply String.eqb_neq in Hne. rewrite Hne. cbn [negb assert bind].
    destruct (_RGX_IPV4ADDR_search input); auto.
  - intros a b c d tail Ha Hb Hc Hd. apply Hiff.
    exists (str_of_int a), (str_of_int b), (str_of_int c), (str_of_int d), tail.
    unfold digit_run. repeat split; try reflexivity;
      now apply str_of_int_all_digits.
Qed.

Lemma is_valid_ipv4_addr_prefix_only_witness :
  "999.1.1.1 up" <> EmptyString /\
  is_valid_ipv4_addr "999.1.1.1 up" = Ok true /\
  is_valid_ipv4_addr "1.2.3" = Ok false /\
  is_valid_ipv4_addr (dotted_quad "300" "1" "2" "3" "") = Ok true.
Proof.
  assert (Hne : "999.1.1.1 up" <> EmptyString) by discriminate.
  split; [exact Hne|]. split; [vm_compute; reflexivity|].
  split; [vm_compute; reflexivity|].
  destruct (is_valid_ipv4_addr_prefix_only "999.1.1.1 up") as (_ & _ & _ & H).
  apply (H 300 1 2 3 ""); lia.
Defined.

(** * Further properties: text forms of [IPv4Obj] *)

(** ** Zero-padded text of an address *)

Lemma compare_app (x y s t : string) :
  String.length x = String.length y ->
  String.compare (x ++ s) (y ++ t)
  = match String.compare x y with
    | Eq => String.compare s t
    | c => c
    end.
Proof.
  revert y. induction x as [|c x IH]; intros [|d y]; cbn; try discriminate.
  - intros _. now destruct (String.compare s t).
  - intros [= H]. destruct (Ascii.compare c d); auto.
Qed.

Lemma format_03_octets :
  forallb (fun a =>
    (String.length (IPv4Obj_text.format_03 a) =? 3)%nat &&
    forallb (fun b =>
      comparison_eqb
        (String.compare (IPv4Obj_text.format_03 a) (IPv4Obj_text.format_03 b))
        (a ?= b))
      (py_range 0 256))
    (py_range 0 256) = true.
Proof. vm_compute. reflexivity. Qed.

Lemma format_03_compare (a b : Z) :
  0 <= a <= 255 -> 0 <= b <= 255 ->
  String.length (IPv4Obj_text.format_03 a) = 3%nat /\
  String.compare (IPv4Obj_text.format_03 a) (IPv4Obj_text.format_03 b)
  = (a ?= b).
Proof.
  intros Ha Hb. pose proof format_03_octets as H.
  rewrite forallb_forall in H.
  specialize (H a (proj2 (py_range_In 0 256 a) ltac:(lia))).
  apply andb_true_iff in H as [Hlen H]. apply Nat.eqb_eq in Hlen.
  split; [exact Hlen|]. rewrite forallb_forall in H.
  specialize (H b (proj2 (py_range_In 0 256 b) ltac:(lia))).
  destruct (String.compare _ _), (a ?= b); try discriminate; reflexivity.
Qed.

Lemma octet_bound (x : Z) : 0 <= Z.land x 255 <= 255.
Proof.
  change 255 with (Z.ones 8). rewrite Z.land_ones by lia.
  pose proof (Z.mod_pos_bound x (2 ^ 8) ltac:(lia)).
  change (2 ^ 8) with 256 in *. change (Z.ones 8) with 255. lia.
Qed.

Lemma as_zeropadded_compare (a b : IPv4Obj.t) :
  IPv4Obj.wf a -> IPv4Obj.wf b ->
  String.compare (IPv4Obj_text.as_zeropadded a) (IPv4Obj_text.as_zeropadded b)
  = (IPv4Obj.as_decimal a ?= IPv4Obj.as_decimal b).
Proof.
  intros Ha Hb.
  pose proof (dotted_sum (IPv4Obj.ip_object a) (proj1 Ha)) as Sa.
  pose proof (dotted_sum (IPv4Obj.ip_object b) (proj1 Hb)) as Sb.
  rewrite !IPv4Obj_as_decimal by assumption.
  unfold IPv4Obj_text.as_zeropadded, IPv4Obj.ip.
  unfold IPv4Obj.dotted in *. cbn [rev app sum_enumerate] in Sa, Sb.
  cbn [map String.concat].
  set (a1 := Z.land (Z.shiftr (IPv4Obj.ip_object a) 24) 255) in *.
  set (a2 := Z.land (Z.shiftr (IPv4Obj.ip_object a) 16) 255) in *.
  set (a3 := Z.land (Z.shiftr (IPv4Obj.ip_object a) 8) 255) in *.
  set (a4 := Z.land (IPv4Obj.ip_object a) 255) in *.
  set (b1 := Z.land (Z.shiftr (IPv4Obj.ip_object b) 24) 255) in *.
  set (b2 := Z.land (Z.shiftr (IPv4Obj.ip_object b) 16) 255) in *.
  set (b3 := Z.land (Z.shiftr (IPv4Obj.ip_object b) 8) 255) in *.
  set (b4 := Z.land (IPv4Obj.ip_object b) 255) in *.
  assert (B : (0 <= a1 <= 255 /\ 0 <= a2 <= 255 /\ 0 <= a3 <= 255 /\
               0 <= a4 <= 255) /\
              (0 <= b1 <= 255 /\ 0 <= b2 <= 255 /\ 0 <= b3 <= 255 /\
               0 <= b4 <= 255))
    by (repeat split; apply octet_bound).
  destruct B as [(A1 & A2 & A3 & A4) (B1 & B2 & B3 & B4)].
  destruct (format_03_compare a1 b1 A1 B1) as [L1 C1].
  destruct (format_03_compare a2 b2 A2 B2) as [L2 C2].
  destruct (format_03_compare a3 b3 A3 B3) as [L3 C3].
  destruct (format_03_compare a4 b4 A4 B4) as [L4 C4].
  destruct (format_03_compare b1 a1 B1 A1) as [M1 _].
  destruct (format_03_compare b2 a2 B2 A2) as [M2 _].
  destruct (format_03_compare b3 a3 B3 A3) as [M3 _].
  rewrite !compare_app by (congruence || reflexivity).
  rewrite C1, C2, C3, C4. change (String.compare "." ".") with Eq. cbv iota.
  change (256 ^ 0) with 1 in *. change (256 ^ (0 + 1)) with 256 in *.
  change (256 ^ (0 + 1 + 1)) with 65536 in *.
  change (256 ^ (0 + 1 + 1 + 1)) with 16777216 in *.
  rewrite <- Sa, <- Sb. symmetry.
  destruct (Z.compare_spec a1 b1) as [E1|E1|E1];
    [|apply Z.compare_lt_iff; lia|apply Z.compare_gt_iff; lia].
  destruct (Z.compare_spec a2 b2) as [E2|E2|E2];
    [|apply Z.compare_lt_iff; lia|apply Z.compare_gt_iff; lia].
  destruct (Z.compare_spec a3 b3) as [E3|E3|E3];
    [|apply Z.compare_lt_iff; lia|apply Z.compare_gt_iff; lia].
  destruct (Z.compare_spec a4 b4) as [E4|E4|E4];
    [apply Z.compare_eq_iff; lia|apply Z.compare_lt_iff; lia
    |apply Z.compare_gt_iff; lia].
Qed.

Lemma string_length_app (s t : string) :
  String.length (s ++ t) = (String.length s + String.length t)%nat.
Proof. induction s as [|c s IH]; cbn; [reflexivity|now rewrite IH]. Qed.

(** X17. [as_zeropadded] sorts like the addresses: comparing the
    zero-padded texts of two objects as strings gives what comparing their
    addresses as integers gives, so a text file of zero-padded addresses
    sorts in address order. Every such text has fifteen characters. *)
Theorem as_zeropadded_sorts_like_addresses (a b : IPv4Obj.t) :
  IPv4Obj.wf a -> IPv4Obj.wf b ->
  String.compare (IPv4Obj_text.as_zeropadded a) (IPv4Obj_text.as_zeropadded b)
  = (IPv4Obj.as_decimal a ?= IPv4Obj.as_decimal b) /\
  (String.ltb (IPv4Obj_text.as_zeropadded a) (IPv4Obj_text.as_zeropadded b)
   = true <-> IPv4Obj.as_decimal a < IPv4Obj.as_decimal b) /\
  (IPv4Obj_text.as_zeropadded a = IPv4Obj_text.as_zeropadded b <->
   IPv4Obj.as_decimal a = IPv4Obj.as_decimal b) /\
  String.length (IPv4Obj_text.as_zeropadded a) = 15%nat.
Proof.
  intros Ha Hb. pose proof (as_zeropadded_compare a b Ha Hb) as Hc.
  split; [exact Hc|]. split; [|split].
  - unfold String.ltb. rewrite Hc. unfold Z.lt.
    destruct (IPv4Obj.as_decimal a ?= IPv4Obj.as_decimal b);
      split; congruence.
  - rewrite <- Z.compare_eq_iff, <- Hc. split.
    + intros ->. apply string_compare_refl.
    + apply String.compare_eq_iff.
  - unfold IPv4Obj_text.as_zeropadded, IPv4Obj.dotted.
    cbn [map String.concat].
    rewrite !string_length_app.
    repeat match goal with
    | |- context [String.length (IPv4Obj_text.format_03 (Z.land ?x 255))] =>
        rewrite (proj1 (format_03_compare (Z.land x 255) 0
                          (octet_bound x) ltac:(lia)))
    end.
    reflexivity.
Qed.

Lemma as_zeropadded_sorts_like_addresses_witness :
  IPv4Obj.wf host_10_1_1_77_24 /\ IPv4Obj.wf net_4_0_0_0_16 /\
  IPv4Obj_text.as_zeropadded host_10_1_1_77_24 = "010.001.001.077" /\
  IPv4Obj_text.as_zeropadded net_4_0_0_0_16 = "004.000.000.000" /\
  String.ltb (IPv4Obj_text.as_zeropadded net_4_0_0_0_16)
             (IPv4Obj_text.as_zeropadded host_10_1_1_77_24) = true.
Proof.
  assert (H1 : IPv4Obj.wf host_10_1_1_77_24) by solve_wf.
  assert (H2 : IPv4Obj.wf net_4_0_0_0_16) by solve_wf.
  split; [exact H1|]. split; [exact H2|].
  split; [vm_compute; reflexivity|]. split; [vm_compute; reflexivity|].
  apply (proj1 (proj2 (as_zeropadded_sorts_like_addresses
                         net_4_0_0_0_16 host_10_1_1_77_24 H2 H1))).
  vm_compute. reflexivity.
Defined.

(** ** Text of an address and hash *)

Lemma str_of_int_inj (n m : Z) :
  0 <= n -> 0 <= m -> str_of_int n = str_of_int m -> n = m.
Proof.
  intros Hn Hm E. pose proof (int_of_str_str_of_int n Hn) as H.
  rewrite E, (int_of_str_str_of_int m Hm) in H. now injection H.
Qed.

Lemma digit_not_dot (c : ascii) :
  is_digit c = true -> negb (Ascii.eqb c ".") = true.
Proof. by_bits c. Qed.

Lemma digit_or_dot_not_slash (c : ascii) :
  is_digit c || Ascii.eqb c "." = true -> negb (Ascii.eqb c "/") = true.
Proof. by_bits c. Qed.

Lemma str_address_inj (x y : Z) :
  0 <= x <= 4294967295 -> 0 <= y <= 4294967295 ->
  IPv4Obj_text.str_address x = IPv4Obj_text.str_address y -> x = y.
Proof.
  intros Hx Hy E. unfold IPv4Obj_text.str_address in E.
  assert (Hpieces : forall z,
             map str_of_int (IPv4Obj.dotted z) <> [] /\
             Forall (fun piece =>
                       every (fun c => negb (Ascii.eqb c ".")) piece = true)
                    (map str_of_int (IPv4Obj.dotted z))).
  { intros z. split; [discriminate|].
    unfold IPv4Obj.dotted. cbn [map].
    repeat constructor;
      (eapply every_impl; [apply digit_not_dot|];
       apply str_of_int_all_digits, octet_bound). }
  apply (f_equal (split ".")) in E.
  rewrite !split_concat in E by apply Hpieces.
  unfold IPv4Obj.dotted in E. cbn [map] in E.
  injection E as E1 E2 E3 E4.
  apply str_of_int_inj in E1, E2, E3, E4; try apply octet_bound.
  rewrite <- (dotted_sum x Hx), <- (dotted_sum y Hy).
  unfold IPv4Obj.dotted. now rewrite E1, E2, E3, E4.
Qed.

Lemma str_address_chars (x : Z) :
  every (fun c => is_digit c || Ascii.eqb c ".") (IPv4Obj_text.str_address x)
  = true.
Proof.
  unfold IPv4Obj_text.str_address, IPv4Obj.dotted. cbn [map String.concat].
  rewrite !every_app. cbn [every].
  repeat match goal with
  | |- context [every _ (str_of_int (Z.land ?z 255))] =>
      rewrite (every_impl is_digit _ (str_of_int (Z.land z 255)))
        by (try (intros ? ->; reflexivity);
            apply str_of_int_all_digits, octet_bound)
  end.
  reflexivity.
Qed.

Lemma IPv4Obj_eq_view (a b : IPv4Obj.t) :
  IPv4Obj.__eq__ a (IPv4Obj.view b)
  = Ok ((IPv4Obj.as_decimal a =? IPv4Obj.as_decimal b)
        && (IPv4Obj.prefixlen a =? IPv4Obj.prefixlen b)).
Proof. unfold IPv4Obj.view. apply IPv4Obj_eq_attrs. Qed.

(** X18. Equal objects hash alike, and the CIDR text identifies an object:
    two objects are equal for [==] exactly when [as_cidr_addr] gives the
    same text for both, and then [__hash__] gives the same number for both,
    whatever the built-in [hash] does on strings. *)
Theorem IPv4Obj_eq_hash_and_text (hash : string -> Z) (a b : IPv4Obj.t) :
  IPv4Obj.wf a -> IPv4Obj.wf b ->
  (IPv4Obj.__eq__ a (IPv4Obj.view b) = Ok true <->
   IPv4Obj_text.as_cidr_addr a = IPv4Obj_text.as_cidr_addr b) /\
  (IPv4Obj.__eq__ a (IPv4Obj.view b) = Ok true ->
   IPv4Obj_text.__hash__ hash a = IPv4Obj_text.__hash__ hash b).
Proof.
  intros Ha Hb.
  assert (Heq : IPv4Obj.__eq__ a (IPv4Obj.view b) = Ok true <->
                IPv4Obj.ip_object a = IPv4Obj.ip_object b /\
                IPv4Obj.prefixlen a = IPv4Obj.prefixlen b).
  { rewrite IPv4Obj_eq_view, Ok_inj, andb_true_iff, !Z.eqb_eq.
    now rewrite !IPv4Obj_as_decimal by assumption. }
  split.
  - rewrite Heq. unfold IPv4Obj_text.as_cidr_addr, IPv4Obj.ip. split.
    + now intros [-> ->].
    + intros E. apply (f_equal (split "/")) in E.
      change (?s ++ "/" ++ ?p)%string with (s ++ String "/" p)%string in E.
      rewrite !split_sep in E
        by (eapply every_impl; [apply digit_or_dot_not_slash|];
            apply str_address_chars).
      rewrite !split_none in E
        by (eapply every_impl; [apply digit_not_slash|];
            apply str_of_int_all_digits; apply Ha || apply Hb).
      injection E as E1 E2. split.
      * apply str_address_inj; [apply Ha|apply Hb|exact E1].
      * apply str_of_int_inj; [apply Ha|apply Hb|exact E2].
  - intros E. apply Heq in E as [E1 E2].
    unfold IPv4Obj_text.__hash__. now rewrite E1, E2.
Qed.

Lemma IPv4Obj_eq_hash_and_text_witness :
  IPv4Obj.wf host_10_1_1_77_24 /\
  IPv4Obj_text.as_cidr_addr host_10_1_1_77_24 = "10.1.1.77/24" /\
  IPv4Obj.__eq__ host_10_1_1_77_24 (IPv4Obj.view host_10_1_1_77_24) = Ok true /\
  IPv4Obj_text.__hash__ (fun s => Z.of_nat (String.length s)) host_10_1_1_77_24
  = 11.
Proof.
  assert (H : IPv4Obj.wf host_10_1_1_77_24) by solve_wf.
  split; [exact H|]. split; [vm_compute; reflexivity|].
  split; [|vm_compute; reflexivity].
  apply (proj1 (IPv4Obj_eq_hash_and_text (fun s => Z.of_nat (String.length s))
                  host_10_1_1_77_24 host_10_1_1_77_24 H H)).
  reflexivity.
Defined.

(** ** Calls that change the item list, and calls that do not *)

Lemma set_of_one (list_set : list Z -> list Z) (x : Z) :
  set_contract list_set -> list_set [x] = [x].
Proof.
  intros H. destruct (H [x]) as [Hnd Hin].
  destruct (list_set [x]) as [|a [|b rest]].
  - destruct (proj2 (Hin x)); cbn; auto.
  - f_equal. destruct (proj1 (Hin a)) as [E|[]]; cbn; auto.
  - exfalso.
    assert (Ha : a = x) by (destruct (proj1 (Hin a)) as [E|[]]; cbn; auto).
    assert (Hb : b = x) by (destruct (proj1 (Hin b)) as [E|[]]; cbn; auto).
    subst. inversion Hnd as [|? ? Hn _]. apply Hn. now left.
Qed.

Lemma in_py_range_0 (m i : Z) : In i (py_range 0 m) -> 0 <= i < m.
Proof.
  unfold py_range. rewrite in_map_iff. intros (k & <- & Hk).
  apply in_seq in Hk. lia.
Qed.

Lemma setitem_valid (r : CiscoRange.t) (ii : Z) (val : pyval) :
  valid_index (CiscoRange._list r) ii -> CiscoRange.__setitem__ r ii val = Ok r.
Proof.
  intros H. unfold CiscoRange.__setitem__.
  destruct (list_getitem_valid _ _ H) as [v ->]. reflexivity.
Qed.

Lemma setitem_same (r r' : CiscoRange.t) (ii : Z) (val : pyval) :
  CiscoRange.__setitem__ r ii val = Ok r' -> r' = r.
Proof.
  unfold CiscoRange.__setitem__.
  destruct (list_getitem _ _); cbn [bind]; [|discriminate]. now intros [= <-].
Qed.

Lemma reverse_step_same (r : CiscoRange.t) (i : Z) :
  0 <= i < CiscoRange.__len__ r / 2 ->
  CiscoRange.reverse_step (CiscoRange.__len__ r) r i = Ok r.
Proof.
  intros Hi. unfold CiscoRange.__len__ in *.
  set (n := len (CiscoRange._list r)) in *.
  assert (Hn : 0 <= n) by (unfold n, len; lia).
  assert (Hdiv : 2 * (n / 2) <= n) by (apply Z.mul_div_le; lia).
  assert (V1 : valid_index (CiscoRange._list r) (n - i - 1))
    by (unfold valid_index; fold n; lia).
  assert (V2 : valid_index (CiscoRange._list r) i)
    by (unfold valid_index; fold n; lia).
  unfold CiscoRange.reverse_step, CiscoRange.__getitem__.
  destruct (list_getitem_valid _ _ V1) as [upper ->].
  destruct (list_getitem_valid _ _ V2) as [lower ->]. cbn [bind].
  rewrite setitem_valid by assumption. cbn [bind].
  now apply setitem_valid.
Qed.

Lemma reverse_loop_same (r : CiscoRange.t) (turns : list Z) :
  (forall i, In i turns -> 0 <= i < CiscoRange.__len__ r / 2) ->
  CiscoRange.reverse_loop (CiscoRange.__len__ r) r turns = Ok r.
Proof.
  induction turns as [|i rest IH]; intros H; cbn [CiscoRange.reverse_loop];
    [reflexivity|].
  rewrite reverse_step_same by (apply H; now left). cbn [bind].
  apply IH. intros j Hj. apply H. now right.
Qed.

(** [reverse] assigns through [__setitem__], which stores nothing. *)
Lemma reverse_same (r : CiscoRange.t) : CiscoRange.reverse r = Ok r.
Proof.
  unfold CiscoRange.reverse. apply reverse_loop_same. intros i. apply in_py_range_0.
Qed.

Lemma pop_last_empty (self : CiscoRange.t) :
  CiscoRange._list self = [] -> CiscoRange.pop self (-1) = Raise IndexError.
Proof.
  intros H. unfold CiscoRange.pop, CiscoRange.__getitem__, list_getitem.
  rewrite H. reflexivity.
Qed.

Lemma pop_last_snoc (self : CiscoRange.t) (pre : list pyval) (v : pyval) :
  CiscoRange._list self = pre ++ [v] ->
  CiscoRange.pop self (-1) = Ok (CiscoRange.with_list self pre, v).
Proof.
  intros Hl.
  unfold CiscoRange.pop, CiscoRange.__getitem__, CiscoRange.__delitem__,
    list_getitem, list_delitem.
  rewrite Hl, length_app. cbn [List.length].
  change (-1 <? 0) with true. cbv iota.
  replace (-1 + Z.of_nat (List.length pre + 1))
    with (Z.of_nat (List.length pre)) by lia.
  destruct (Z.ltb_spec (Z.of_nat (List.length pre)) 0); [lia|].
  destruct (Z.leb_spec (Z.of_nat (List.length pre + 1))
                       (Z.of_nat (List.length pre))); [lia|].
  cbn [orb]. rewrite Nat2Z.id.
  rewrite nth_error_app2, Nat.sub_diag by lia. cbn [nth_error bind].
  rewrite firstn_app, firstn_all, Nat.sub_diag. cbn [firstn].
  rewrite app_nil_r.
  replace (S (List.length pre)) with (List.length pre + 1)%nat by lia.
  rewrite skipn_app, skipn_all2 by lia.
  replace (List.length pre + 1 - List.length pre)%nat with 1%nat by lia.
  cbn [skipn app]. rewrite app_nil_r. reflexivity.
Qed.

Lemma pop_keeps_fields (self self' : CiscoRange.t) (idx : Z) (v : pyval) :
  CiscoRange.pop self idx = Ok (self', v) ->
  exists l, self' = CiscoRange.with_list self l.
Proof.
  unfold CiscoRange.pop, CiscoRange.__delitem__.
  destruct (CiscoRange.__getitem__ self idx); cbn [bind]; [|discriminate].
  destruct (list_delitem _ _) as [l|]; cbn [bind]; [|discriminate].
  intros [= <- _]. now exists l.
Qed.

(** The loop of [clear] pops every item and stops with [IndexError]. *)
Lemma while_True_pop_last_empties (self : CiscoRange.t) :
  CiscoRange.while_True_pop_last self = (CiscoRange.with_list self [], IndexError).
Proof.
  funelim (CiscoRange.while_True_pop_last self).
  - (* the pop returned: the loop goes on with one item less *)
    rewrite H. destruct (pop_keeps_fields _ _ _ _ popped) as [l ->].
    reflexivity.
  - (* the pop raised: the list was empty *)
    clear Heqcall.
    match goal with He : CiscoRange.pop self (-1) = Raise _ |- _ =>
      pose proof He as Hpop end.
    match goal with Hs : _ = _ :> sigma _ |- _ => clear Hs end.
    destruct (CiscoRange._list self) as [|x l] eqn:El.
    + rewrite pop_last_empty in Hpop by assumption. injection Hpop as <-.
      f_equal. destruct self. cbn in El. subst. reflexivity.
    + exfalso.
      destruct (@exists_last _ (x :: l) ltac:(discriminate)) as (pre & v & Hl).
      rewrite (pop_last_snoc self pre v) in Hpop by congruence. discriminate.
Qed.

Lemma clear_empties (self : CiscoRange.t) :
  CiscoRange.clear self = Ok (CiscoRange.with_list self []).
Proof. unfold CiscoRange.clear. now rewrite while_True_pop_last_empties. Qed.

Lemma with_list_list (self : CiscoRange.t) (l : list pyval) :
  CiscoRange._list (CiscoRange.with_list self l) = l.
Proof. reflexivity. Qed.

Lemma init_one_index (list_set : list Z -> list Z) :
  set_contract list_set ->
  CiscoRange.__init__ list_set "6" type_str
  = Ok (CiscoRange.mk "6" type_str "" "" "6" [PyStr "6"]) /\
  CiscoRange.__init__ list_set "7" type_str
  = Ok (CiscoRange.mk "7" type_str "" "" "7" [PyStr "7"]).
Proof.
  intros Hset.
  assert (P6 : CiscoRange._parse_range_text "6" = Ok ("", "", "6"))
    by (vm_compute; reflexivity).
  assert (P7 : CiscoRange._parse_range_text "7" = Ok ("", "", "7"))
    by (vm_compute; reflexivity).
  assert (L6 : CiscoRange.dash_range_loop (split "," "6") [] = Ok [6])
    by (vm_compute; reflexivity).
  assert (L7 : CiscoRange.dash_range_loop (split "," "7") [] = Ok [7])
    by (vm_compute; reflexivity).
  split.
  - unfold CiscoRange.__init__. change (negb ("6" =? "")%string) with true.
    cbv iota. rewrite P6. cbn [bind].
    unfold CiscoRange._range, CiscoRange._parse_dash_range.
    rewrite L6. cbn [bind]. rewrite set_of_one by assumption.
    vm_compute. reflexivity.
  - unfold CiscoRange.__init__. change (negb ("7" =? "")%string) with true.
    cbv iota. rewrite P7. cbn [bind].
    unfold CiscoRange._range, CiscoRange._parse_dash_range.
    rewrite L7. cbn [bind]. rewrite set_of_one by assumption.
    vm_compute. reflexivity.
Qed.

(** [insert] of the text ["7"] into [CiscoRange("5,6")] returns a range that
    holds the label 7, at any position and under any set order. *)
Lemma insert_7_changes (list_set : list Z -> list Z)
      (items_set : list pyval -> list pyval) (ii : Z) :
  set_contract list_set -> items_contract items_set ->
  exists r', CiscoRange.insert list_set items_set range_5_6 ii "7" = Returns r' /\
             In (PyStr "7") (CiscoRange._list r') /\
             CiscoRange.result_type r' = type_str /\
             typed type_str (CiscoRange._list r') /\
             CiscoRange._list r' <> CiscoRange._list range_5_6.
Proof.
  intros Hset Hitems.
  destruct (init_one_index list_set Hset) as [_ H7].
  assert (Ht : typed (CiscoRange.result_type range_5_6)
                     (CiscoRange._list range_5_6))
    by (repeat constructor).
  destruct (insert_typed list_set items_set Hitems range_5_6 _ ii "7" Ht H7)
    as (l' & Hins & _ & Hmem & Hty).
  exists (CiscoRange.with_list range_5_6 l').
  split; [exact Hins|].
  assert (Hin : In (PyStr "7") l')
    by (apply Hmem; right; cbn; auto).
  split; [exact Hin|]. split; [reflexivity|]. split; [exact Hty|].
  cbn [CiscoRange._list CiscoRange.with_list range_5_6]. intros E.
  rewrite E in Hin. cbn in Hin.
  destruct Hin as [H|[H|[]]]; discriminate.
Qed.

Lemma pop_valid (r : CiscoRange.t) (ii : Z) :
  valid_index (CiscoRange._list r) ii ->
  exists v l',
    CiscoRange.pop r ii = Ok (CiscoRange.with_list r l', v) /\
    len l' = len (CiscoRange._list r) - 1.
Proof.
  intros H. unfold CiscoRange.pop, CiscoRange.__getitem__.
  destruct (list_getitem_valid _ _ H) as [v ->]. cbn [bind].
  unfold CiscoRange.__delitem__, list_delitem.
  unfold valid_index, len in H.
  set (pos := if ii <? 0 then _ else _).
  assert (Hpos : 0 <= pos < Z.of_nat (List.length (CiscoRange._list r))).
  { subst pos. destruct (Z.ltb_spec ii 0); lia. }
  destruct (Z.ltb_spec pos 0); [lia|].
  destruct (Z.leb_spec (Z.of_nat (List.length (CiscoRange._list r))) pos);
    [lia|]. cbn [orb bind].
  eexists _, _. split; [reflexivity|].
  unfold len. rewrite length_app, length_firstn, length_skipn. lia.
Qed.

Lemma shared_append (s : shared.store) (x : shared.t) (v : pyval) :
  (shared._list x < List.length s)%nat ->
  shared.items (shared.list_append s (shared.as_list x) v) x
  = shared.items s x ++ [v].
Proof.
  intros H. unfold shared.items, shared.list_append, shared.as_list, shared.deref.
  rewrite app_nth2; rewrite length_firstn; [|lia].
  replace (shared._list x - Nat.min (shared._list x) (List.length s))%nat
    with 0%nat by lia.
  reflexivity.
Qed.

(** C10, as the code has it. Item assignment stores nothing: for a valid
    index [r[ii] = val] raises nothing and leaves the range as it was, and
    an index out of range raises [IndexError]. [reverse], which
    [MutableSequence] writes with item assignments, returns the range as it
    was for the same reason. Every other call that acts on the item list
    can change it: [del], [insert], [append] and [remove], and also [pop],
    [clear], [extend] and [+=], which the class has from
    [MutableSequence]; [pop] at a valid index takes one item out, [clear]
    takes all of them out. [as_list] returns the item list and not a copy:
    what a caller appends to it is appended to the range. *)
Theorem CiscoRange_setitem_stores_nothing
        (list_set : list Z -> list Z) (items_set : list pyval -> list pyval)
        (r : CiscoRange.t) (ii : Z) (val : pyval) (m : call.t) :
  set_contract list_set -> items_contract items_set ->
  (valid_index (CiscoRange._list r) ii ->
   CiscoRange.__setitem__ r ii val = Ok r) /\
  (~ valid_index (CiscoRange._list r) ii ->
   CiscoRange.__setitem__ r ii val = Raise IndexError) /\
  CiscoRange.reverse r = Ok r /\
  (assigns_items m = true ->
   forall r', after list_set items_set m r = Returns r' -> r' = r) /\
  Forall (fun c =>
            assigns_items c = false /\
            exists r', after list_set items_set c range_5_6 = Returns r' /\
                       CiscoRange._list r' <> CiscoRange._list range_5_6)
         [call.__delitem__ 0; call.insert 0 "7"; call.append "7";
          call.remove "6"; call.pop (-1); call.clear; call.extend ["7"];
          call.__iadd__ ["7"]] /\
  (valid_index (CiscoRange._list r) ii ->
   exists v l',
     CiscoRange.pop r ii = Ok (CiscoRange.with_list r l', v) /\
     len l' = len (CiscoRange._list r) - 1) /\
  CiscoRange.clear r = Ok (CiscoRange.with_list r []) /\
  (forall (s : shared.store) (x : shared.t) (v : pyval),
      (shared._list x < List.length s)%nat ->
      shared.items (shared.list_append s (shared.as_list x) v) x
      = shared.items s x ++ [v]).
Proof.
  intros Hset Hitems.
  split; [apply setitem_valid|].
  split; [intros H; unfold CiscoRange.__setitem__;
          now rewrite list_getitem_invalid by assumption|].
  split; [apply reverse_same|].
  split.
  { destruct m; try discriminate; intros _ r'; cbn [after].
    - destruct (CiscoRange.__setitem__ r ii0 val0) as [x|] eqn:E;
        cbn [of_result]; [|discriminate].
      intros [= <-]. now apply setitem_same in E.
    - rewrite reverse_same. cbn [of_result]. now intros [= <-]. }
  split; [|split; [apply pop_valid | split; [apply clear_empties |
                                             apply shared_append]]].
  destruct (init_one_index list_set Hset) as [H6 _].
  destruct (insert_7_changes list_set items_set 0 Hset Hitems)
    as (ri & Hri & _ & _ & _ & Hci).
  destruct (insert_7_changes list_set items_set
              (len (CiscoRange._list range_5_6)) Hset Hitems)
    as (ra & Hra & _ & _ & _ & Hca).
  repeat (apply Forall_cons; [split; [reflexivity|]|]); [..|apply Forall_nil];
    cbn [after].
  - eexists. split; [vm_compute; reflexivity | discriminate].
  - exists ri. split; assumption.
  - exists ra. split; assumption.
  - unfold CiscoRange.remove. rewrite H6. cbn [bind].
    eexists. split; [vm_compute; reflexivity | discriminate].
  - eexists. split; [vm_compute; reflexivity | discriminate].
  - rewrite clear_empties. eexists. split; [reflexivity | discriminate].
  - exists ra. split; [|assumption].
    cbn [CiscoRange.extend]. unfold CiscoRange.append. rewrite Hra. reflexivity.
  - exists ra. split; [|assumption].
    unfold CiscoRange.__iadd__. cbn [CiscoRange.extend]. unfold CiscoRange.append.
    rewrite Hra. reflexivity.
Qed.

Lemma CiscoRange_setitem_stores_nothing_witness :
  set_contract (first_seen []) /\ items_contract (first_items []) /\
  valid_index (CiscoRange._list range_Eth2_1_3_7) (-1) /\
  CiscoRange.__setitem__ range_Eth2_1_3_7 (-1) (PyStr "Eth2/9")
  = Ok range_Eth2_1_3_7 /\
  CiscoRange.reverse range_Eth2_1_3_7 = Ok range_Eth2_1_3_7 /\
  (exists v l',
      CiscoRange.pop range_Eth2_1_3_7 (-1)
      = Ok (CiscoRange.with_list range_Eth2_1_3_7 l', v) /\
      len l' = len (CiscoRange._list range_Eth2_1_3_7) - 1) /\
  CiscoRange.clear range_Eth2_1_3_7 = Ok (CiscoRange.with_list range_Eth2_1_3_7 []).
Proof.
  assert (H : valid_index (CiscoRange._list range_Eth2_1_3_7) (-1))
    by (vm_compute; split; [discriminate | reflexivity]).
  destruct (CiscoRange_setitem_stores_nothing
              (first_seen []) (first_items []) range_Eth2_1_3_7 (-1)
              (PyStr "Eth2/9") call.reverse
              first_seen_contract first_items_contract)
    as (Hset & _ & Hrev & _ & _ & Hpop & Hclear & _).
  split; [exact first_seen_contract|]. split; [exact first_items_contract|].
  split; [exact H|]. split; [exact (Hset H)|]. split; [exact Hrev|].
  split; [exact (Hpop H) | exact Hclear].
Defined.

(** C10 as stated fails on its last clause: [pop], which is none of
    [insert], [append], [remove] and [del], takes the last item out of
    [CiscoRange("5,6")], and [clear] empties it. *)
Lemma CiscoRange_setitem_counterexample :
  CiscoRange.pop range_5_6 (-1)
  = Ok (CiscoRange.with_list range_5_6 [PyStr "5"], PyStr "6") /\
  CiscoRange._list (CiscoRange.with_list range_5_6 [PyStr "5"])
  <> CiscoRange._list range_5_6 /\
  insert_append_remove_del (call.pop (-1)) = false /\
  CiscoRange.clear range_5_6 = Ok (CiscoRange.with_list range_5_6 []) /\
  ~ (forall (m : call.t) (r r' : CiscoRange.t),
        after (first_seen []) (first_items []) m r = Returns r' ->
        CiscoRange._list r' <> CiscoRange._list r ->
        insert_append_remove_del m = true).
Proof.
  assert (Hpop : CiscoRange.pop range_5_6 (-1)
                 = Ok (CiscoRange.with_list range_5_6 [PyStr "5"], PyStr "6"))
    by (vm_compute; reflexivity).
  split; [exact Hpop|]. split; [discriminate|]. split; [reflexivity|].
  split; [apply clear_empties|].
  intros H.
  specialize (H (call.pop (-1)) range_5_6 (CiscoRange.with_list range_5_6 [PyStr "5"])).
  cbn [after] in H. rewrite Hpop in H.
  specialize (H eq_refl ltac:(discriminate)). discriminate.
Qed.
